(** * Release-notes generator: summary extraction and classification

    A shallow embedding of the text pipeline of
    [scripts/generate-release-notes.mjs] (and of the copy of its helpers in
    [scripts/backfill-releases.mjs], module [Backfill] below).

    JavaScript strings are sequences of UTF-16 code units; they are modelled
    as [list N].  [toUpperCase] and [toLowerCase] are the case conversions of
    the Unicode Character Database, with their tables.  Regular expressions
    are kept as syntax trees and run by a backtracking matcher that follows
    the ECMAScript matcher (greedy quantifiers, alternatives tried left to
    right, empty iterations of a quantifier rejected once its minimum is
    reached). *)

From Stdlib Require Import List NArith ZArith Bool Lia String Ascii.
From Stdlib Require Import Permutation Sorted.
Import ListNotations.

Local Open Scope N_scope.

(** ** Strings *)

Definition jsstring := list N.

(** An ASCII literal as a JavaScript string. *)
Definition js (s : string) : jsstring :=
  List.map N_of_ascii (list_ascii_of_string s).

Fixpoint str_eqb (a b : jsstring) : bool :=
  match a, b with
  | [], [] => true
  | x :: a', y :: b' => (x =? y) && str_eqb a' b'
  | _, _ => false
  end.

(** [!s] of JavaScript: only the empty string is falsy. *)
Definition is_empty (s : jsstring) : bool :=
  match s with [] => true | _ => false end.

(** [a || b] on strings. *)
Definition or_else (a b : jsstring) : jsstring :=
  if is_empty a then b else a.

Definition LF : N := 10.
Definition CR : N := 13.
Definition SP : N := 32.
Definition ELLIPSIS : N := 0x2026.

(** LineTerminator of ECMAScript: LF, CR, LS, PS. *)
Definition isLineTerminator (c : N) : bool :=
  (c =? 10) || (c =? 13) || (c =? 0x2028) || (c =? 0x2029).

(** WhiteSpace and LineTerminator of ECMAScript: what [\s] matches and what
    [trim] strips. *)
Definition isWhiteSpace (c : N) : bool :=
  (c =? 9) || (c =? 10) || (c =? 11) || (c =? 12) || (c =? 13) || (c =? 32)
  || (c =? 0xA0) || (c =? 0x1680) || ((0x2000 <=? c) && (c <=? 0x200A))
  || (c =? 0x2028) || (c =? 0x2029) || (c =? 0x202F) || (c =? 0x205F)
  || (c =? 0x3000) || (c =? 0xFEFF).

Definition isDigit (c : N) : bool := (48 <=? c) && (c <=? 57).
Definition isUpperAZ (c : N) : bool := (65 <=? c) && (c <=? 90).
Definition isLowerAZ (c : N) : bool := (97 <=? c) && (c <=? 122).

(** The word characters of [\b] (no [u] flag): [A-Za-z0-9_]. *)
Definition isWordChar (c : N) : bool :=
  isUpperAZ c || isLowerAZ c || isDigit c || (c =? 95).

Definition oneOf (set : jsstring) (c : N) : bool := existsb (N.eqb c) set.
Definition noneOf (set : jsstring) (c : N) : bool := negb (oneOf set c).

Fixpoint dropWhile (p : N -> bool) (s : jsstring) : jsstring :=
  match s with
  | [] => []
  | c :: t => if p c then dropWhile p t else s
  end.

Fixpoint takeWhile (p : N -> bool) (s : jsstring) : jsstring :=
  match s with
  | [] => []
  | c :: t => if p c then c :: takeWhile p t else []
  end.

Definition trimStart (s : jsstring) : jsstring := dropWhile isWhiteSpace s.
Definition trimEnd (s : jsstring) : jsstring := rev (dropWhile isWhiteSpace (rev s)).
Definition trim (s : jsstring) : jsstring := trimEnd (trimStart s).

(** [s.split(sep)] for a one-character separator. *)
Fixpoint split (sep : N) (s : jsstring) : list jsstring :=
  match s with
  | [] => [[]]
  | c :: t =>
      if c =? sep then [] :: split sep t
      else match split sep t with
           | [] => [[c]]
           | l :: ls => (c :: l) :: ls
           end
  end.

Fixpoint join (sep : jsstring) (ls : list jsstring) : jsstring :=
  match ls with
  | [] => []
  | [l] => l
  | l :: ls' => l ++ sep ++ join sep ls'
  end.

(** [s.charAt(0)]: the first code unit as a string, or the empty string. *)
Definition charAt0 (s : jsstring) : jsstring := firstn 1 s.

(** [s.slice(1)]. *)
Definition slice1 (s : jsstring) : jsstring := skipn 1 s.

(** [s.slice(0, n)] for an index [n]; a negative [n] counts from the end. *)
Definition slice0 (s : jsstring) (n : Z) : jsstring :=
  if (n <? 0)%Z
  then firstn (Z.to_nat (Z.max 0 (Z.of_nat (List.length s) + n))) s
  else firstn (Z.to_nat n) s.

Fixpoint lastIndexOf_from (c : N) (s : jsstring) (i acc : Z) : Z :=
  match s with
  | [] => acc
  | x :: t => lastIndexOf_from c t (i + 1)%Z (if x =? c then i else acc)
  end.

(** [s.lastIndexOf(c)]: the greatest index holding [c], or [-1]. *)
Definition lastIndexOf (c : N) (s : jsstring) : Z :=
  lastIndexOf_from c s 0%Z (-1)%Z.

(** [s.lastIndexOf(c, from)]: the greatest index [<= from] holding [c]. *)
Definition lastIndexOfUpTo (c : N) (s : jsstring) (from : nat) : Z :=
  lastIndexOf c (firstn (S from) s).

Fixpoint isPrefixOf (p s : jsstring) : bool :=
  match p, s with
  | [], _ => true
  | x :: p', y :: s' => (x =? y) && isPrefixOf p' s'
  | _ :: _, [] => false
  end.

(** [s.startsWith(p)] and [s.includes(p)]. *)
Definition startsWith (s p : jsstring) : bool := isPrefixOf p s.

Fixpoint includes (s p : jsstring) : bool :=
  isPrefixOf p s || match s with [] => false | _ :: t => includes t p end.

(** ** Case conversion

    [String.prototype.toUpperCase] and [toLowerCase] read the string as code
    points (a lead surrogate followed by a trail surrogate is one code point,
    any other code unit is one by itself), replace every code point by its
    full, language-insensitive case mapping of the Unicode Character Database
    (UnicodeData.txt and the unconditional entries of SpecialCasing.txt; the
    tables below are those of Unicode 14.0) and write the result back as
    UTF-16.  A code point without mapping is left as it is.  The one mapping
    that looks at its neighbours is that of the capital sigma. *)

Definition isLeadSurrogate (c : N) : bool := (0xD800 <=? c) && (c <=? 0xDBFF).
Definition isTrailSurrogate (c : N) : bool := (0xDC00 <=? c) && (c <=? 0xDFFF).

Fixpoint StringToCodePoints (s : jsstring) : list N :=
  match s with
  | [] => []
  | c :: t =>
      match t with
      | d :: t' =>
          if isLeadSurrogate c && isTrailSurrogate d
          then (0x10000 + (c - 0xD800) * 0x400 + (d - 0xDC00))
                 :: StringToCodePoints t'
          else c :: StringToCodePoints t
      | [] => [c]
      end
  end.

(** Code points end at [0x10FFFF]; a larger number, which no string gives,
    is left as it is. *)
Definition UTF16EncodeCodePoint (cp : N) : jsstring :=
  if (cp <? 0x10000) || (0x10FFFF <? cp) then [cp]
  else [0xD800 + (cp - 0x10000) / 0x400; 0xDC00 + (cp - 0x10000) mod 0x400].

Definition CodePointsToString (cps : list N) : jsstring :=
  flat_map UTF16EncodeCodePoint cps.

(** The mapping of [cp] in a table, [cp] itself when it has none. *)
Fixpoint caseMapping (table : list (N * list N)) (cp : N) : list N :=
  match table with
  | [] => [cp]
  | (k, v) :: table' => if cp =? k then v else caseMapping table' cp
  end.

Definition inRanges (ranges : list (N * N)) (cp : N) : bool :=
  existsb (fun r => (fst r <=? cp) && (cp <=? snd r)) ranges.

(** The code points that [toUpperCase] changes, with what it puts. *)
Definition UPPERCASE_MAPPING : list (N * list N) :=
  [ (0x61, [0x41]); (0x62, [0x42]); (0x63, [0x43]); (0x64, [0x44]);
   (0x65, [0x45]); (0x66, [0x46]); (0x67, [0x47]); (0x68, [0x48]);
   (0x69, [0x49]); (0x6A, [0x4A]); (0x6B, [0x4B]); (0x6C, [0x4C]);
   (0x6D, [0x4D]); (0x6E, [0x4E]); (0x6F, [0x4F]); (0x70, [0x50]);
   (0x71, [0x51]); (0x72, [0x52]); (0x73, [0x53]); (0x74, [0x54]);
   (0x75, [0x55]); (0x76, [0x56]); (0x77, [0x57]); (0x78, [0x58]);
   (0x79, [0x59]); (0x7A, [0x5A]); (0xB5, [0x39C]); (0xDF, [0x53; 0x53]);
   (0xE0, [0xC0]); (0xE1, [0xC1]); (0xE2, [0xC2]); (0xE3, [0xC3]);
   (0xE4, [0xC4]); (0xE5, [0xC5]); (0xE6, [0xC6]); (0xE7, [0xC7]);
   (0xE8, [0xC8]); (0xE9, [0xC9]); (0xEA, [0xCA]); (0xEB, [0xCB]);
   (0xEC, [0xCC]); (0xED, [0xCD]); (0xEE, [0xCE]); (0xEF, [0xCF]);
   (0xF0, [0xD0]); (0xF1, [0xD1]); (0xF2, [0xD2]); (0xF3, [0xD3]);
   (0xF4, [0xD4]); (0xF5, [0xD5]); (0xF6, [0xD6]); (0xF8, [0xD8]);
   (0xF9, [0xD9]); (0xFA, [0xDA]); (0xFB, [0xDB]); (0xFC, [0xDC]);
   (0xFD, [0xDD]); (0xFE, [0xDE]); (0xFF, [0x178]); (0x101, [0x100]);
   (0x103, [0x102]); (0x105, [0x104]); (0x107, [0x106]); (0x109, [0x108]);
   (0x10B, [0x10A]); (0x10D, [0x10C]); (0x10F, [0x10E]); (0x111, [0x110]);
   (0x113, [0x112]); (0x115, [0x114]); (0x117, [0x116]); (0x119, [0x118]);
   (0x11B, [0x11A]); (0x11D, [0x11C]); (0x11F, [0x11E]); (0x121, [0x120]);
   (0x123, [0x122]); (0x125, [0x124]); (0x127, [0x126]); (0x129, [0x128]);
   (0x12B, [0x12A]); (0x12D, [0x12C]); (0x12F, [0x12E]); (0x131, [0x49]);
   (0x133, [0x132]); (0x135, [0x134]); (0x137, [0x136]); (0x13A, [0x139]);
   (0x13C, [0x13B]); (0x13E, [0x13D]); (0x140, [0x13F]); (0x142, [0x141]);
   (0x144, [0x143]); (0x146, [0x145]); (0x148, [0x147]);
   (0x149, [0x2BC; 0x4E]); (0x14B, [0x14A]); (0x14D, [0x14C]);
   (0x14F, [0x14E]); (0x151, [0x150]); (0x153, [0x152]); (0x155, [0x154]);
   (0x157, [0x156]); (0x159, [0x158]); (0x15B, [0x15A]); (0x15D, [0x15C]);
   (0x15F, [0x15E]); (0x161, [0x160]); (0x163, [0x162]); (0x165, [0x164]);
   (0x167, [0x166]); (0x169, [0x168]); (0x16B, [0x16A]); (0x16D, [0x16C]);
   (0x16F, [0x16E]); (0x171, [0x170]); (0x173, [0x172]); (0x175, [0x174]);
   (0x177, [0x176]); (0x17A, [0x179]); (0x17C, [0x17B]); (0x17E, [0x17D]);
   (0x17F, [0x53]); (0x180, [0x243]); (0x183, [0x182]); (0x185, [0x184]);
   (0x188, [0x187]); (0x18C, [0x18B]); (0x192, [0x191]); (0x195, [0x1F6]);
   (0x199, [0x198]); (0x19A, [0x23D]); (0x19E, [0x220]); (0x1A1, [0x1A0]);
   (0x1A3, [0x1A2]); (0x1A5, [0x1A4]); (0x1A8, [0x1A7]); (0x1AD, [0x1AC]);
   (0x1B0, [0x1AF]); (0x1B4, [0x1B3]); (0x1B6, [0x1B5]); (0x1B9, [0x1B8]);
   (0x1BD, [0x1BC]); (0x1BF, [0x1F7]); (0x1C5, [0x1C4]); (0x1C6, [0x1C4]);
   (0x1C8, [0x1C7]); (0x1C9, [0x1C7]); (0x1CB, [0x1CA]); (0x1CC, [0x1CA]);
   (0x1CE, [0x1CD]); (0x1D0, [0x1CF]); (0x1D2, [0x1D1]); (0x1D4, [0x1D3]);
   (0x1D6, [0x1D5]); (0x1D8, [0x1D7]); (0x1DA, [0x1D9]); (0x1DC, [0x1DB]);
   (0x1DD, [0x18E]); (0x1DF, [0x1DE]); (0x1E1, [0x1E0]); (0x1E3, [0x1E2]);
   (0x1E5, [0x1E4]); (0x1E7, [0x1E6]); (0x1E9, [0x1E8]); (0x1EB, [0x1EA]);
   (0x1ED, [0x1EC]); (0x1EF, [0x1EE]); (0x1F0, [0x4A; 0x30C]);
   (0x1F2, [0x1F1]); (0x1F3, [0x1F1]); (0x1F5, [0x1F4]); (0x1F9, [0x1F8]);
   (0x1FB, [0x1FA]); (0x1FD, [0x1FC]); (0x1FF, [0x1FE]); (0x201, [0x200]);
   (0x203, [0x202]); (0x205, [0x204]); (0x207, [0x206]); (0x209, [0x208]);
   (0x20B, [0x20A]); (0x20D, [0x20C]); (0x20F, [0x20E]); (0x211, [0x210]);
   (0x213, [0x212]); (0x215, [0x214]); (0x217, [0x216]); (0x219, [0x218]);
   (0x21B, [0x21A]); (0x21D, [0x21C]); (0x21F, [0x21E]); (0x223, [0x222]);
   (0x225, [0x224]); (0x227, [0x226]); (0x229, [0x228]); (0x22B, [0x22A]);
   (0x22D, [0x22C]); (0x22F, [0x22E]); (0x231, [0x230]); (0x233, [0x232]);
   (0x23C, [0x23B]); (0x23F, [0x2C7E]); (0x240, [0x2C7F]); (0x242, [0x241]);
   (0x247, [0x246]); (0x249, [0x248]); (0x24B, [0x24A]); (0x24D, [0x24C]);
   (0x24F, [0x24E]); (0x250, [0x2C6F]); (0x251, [0x2C6D]); (0x252, [0x2C70]);
   (0x253, [0x181]); (0x254, [0x186]); (0x256, [0x189]); (0x257, [0x18A]);
   (0x259, [0x18F]); (0x25B, [0x190]); (0x25C, [0xA7AB]); (0x260, [0x193]);
   (0x261, [0xA7AC]); (0x263, [0x194]); (0x265, [0xA78D]); (0x266, [0xA7AA]);
   (0x268, [0x197]); (0x269, [0x196]); (0x26A, [0xA7AE]); (0x26B, [0x2C62]);
   (0x26C, [0xA7AD]); (0x26F, [0x19C]); (0x271, [0x2C6E]); (0x272, [0x19D]);
   (0x275, [0x19F]); (0x27D, [0x2C64]); (0x280, [0x1A6]); (0x282, [0xA7C5]);
   (0x283, [0x1A9]); (0x287, [0xA7B1]); (0x288, [0x1AE]); (0x289, [0x244]);
   (0x28A, [0x1B1]); (0x28B, [0x1B2]); (0x28C, [0x245]); (0x292, [0x1B7]);
   (0x29D, [0xA7B2]); (0x29E, [0xA7B0]); (0x345, [0x399]); (0x371, [0x370]);
   (0x373, [0x372]); (0x377, [0x376]); (0x37B, [0x3FD]); (0x37C, [0x3FE]);
   (0x37D, [0x3FF]); (0x390, [0x399; 0x308; 0x301]); (0x3AC, [0x386]);
   (0x3AD, [0x388]); (0x3AE, [0x389]); (0x3AF, [0x38A]);
   (0x3B0, [0x3A5; 0x308; 0x301]); (0x3B1, [0x391]); (0x3B2, [0x392]);
   (0x3B3, [0x393]); (0x3B4, [0x394]); (0x3B5, [0x395]); (0x3B6, [0x396]);
   (0x3B7, [0x397]); (0x3B8, [0x398]); (0x3B9, [0x399]); (0x3BA, [0x39A]);
   (0x3BB, [0x39B]); (0x3BC, [0x39C]); (0x3BD, [0x39D]); (0x3BE, [0x39E]);
   (0x3BF, [0x39F]); (0x3C0, [0x3A0]); (0x3C1, [0x3A1]); (0x3C2, [0x3A3]);
   (0x3C3, [0x3A3]); (0x3C4, [0x3A4]); (0x3C5, [0x3A5]); (0x3C6, [0x3A6]);
   (0x3C7, [0x3A7]); (0x3C8, [0x3A8]); (0x3C9, [0x3A9]); (0x3CA, [0x3AA]);
   (0x3CB, [0x3AB]); (0x3CC, [0x38C]); (0x3CD, [0x38E]); (0x3CE, [0x38F]);
   (0x3D0, [0x392]); (0x3D1, [0x398]); (0x3D5, [0x3A6]); (0x3D6, [0x3A0]);
   (0x3D7, [0x3CF]); (0x3D9, [0x3D8]); (0x3DB, [0x3DA]); (0x3DD, [0x3DC]);
   (0x3DF, [0x3DE]); (0x3E1, [0x3E0]); (0x3E3, [0x3E2]); (0x3E5, [0x3E4]);
   (0x3E7, [0x3E6]); (0x3E9, [0x3E8]); (0x3EB, [0x3EA]); (0x3ED, [0x3EC]);
   (0x3EF, [0x3EE]); (0x3F0, [0x39A]); (0x3F1, [0x3A1]); (0x3F2, [0x3F9]);
   (0x3F3, [0x37F]); (0x3F5, [0x395]); (0x3F8, [0x3F7]); (0x3FB, [0x3FA]);
   (0x430, [0x410]); (0x431, [0x411]); (0x432, [0x412]); (0x433, [0x413]);
   (0x434, [0x414]); (0x435, [0x415]); (0x436, [0x416]); (0x437, [0x417]);
   (0x438, [0x418]); (0x439, [0x419]); (0x43A, [0x41A]); (0x43B, [0x41B]);
   (0x43C, [0x41C]); (0x43D, [0x41D]); (0x43E, [0x41E]); (0x43F, [0x41F]);
   (0x440, [0x420]); (0x441, [0x421]); (0x442, [0x422]); (0x443, [0x423]);
   (0x444, [0x424]); (0x445, [0x425]); (0x446, [0x426]); (0x447, [0x427]);
   (0x448, [0x428]); (0x449, [0x429]); (0x44A, [0x42A]); (0x44B, [0x42B]);
   (0x44C, [0x42C]); (0x44D, [0x42D]); (0x44E, [0x42E]); (0x44F, [0x42F]);
   (0x450, [0x400]); (0x451, [0x401]); (0x452, [0x402]); (0x453, [0x403]);
   (0x454, [0x404]); (0x455, [0x405]); (0x456, [0x406]); (0x457, [0x407]);
   (0x458, [0x408]); (0x459, [0x409]); (0x45A, [0x40A]); (0x45B, [0x40B]);
   (0x45C, [0x40C]); (0x45D, [0x40D]); (0x45E, [0x40E]); (0x45F, [0x40F]);
   (0x461, [0x460]); (0x463, [0x462]); (0x465, [0x464]); (0x467, [0x466]);
   (0x469, [0x468]); (0x46B, [0x46A]); (0x46D, [0x46C]); (0x46F, [0x46E]);
   (0x471, [0x470]); (0x473, [0x472]); (0x475, [0x474]); (0x477, [0x476]);
   (0x479, [0x478]); (0x47B, [0x47A]); (0x47D, [0x47C]); (0x47F, [0x47E]);
   (0x481, [0x480]); (0x48B, [0x48A]); (0x48D, [0x48C]); (0x48F, [0x48E]);
   (0x491, [0x490]); (0x493, [0x492]); (0x495, [0x494]); (0x497, [0x496]);
   (0x499, [0x498]); (0x49B, [0x49A]); (0x49D, [0x49C]); (0x49F, [0x49E]);
   (0x4A1, [0x4A0]); (0x4A3, [0x4A2]); (0x4A5, [0x4A4]); (0x4A7, [0x4A6]);
   (0x4A9, [0x4A8]); (0x4AB, [0x4AA]); (0x4AD, [0x4AC]); (0x4AF, [0x4AE]);
   (0x4B1, [0x4B0]); (0x4B3, [0x4B2]); (0x4B5, [0x4B4]); (0x4B7, [0x4B6]);
   (0x4B9, [0x4B8]); (0x4BB, [0x4BA]); (0x4BD, [0x4BC]); (0x4BF, [0x4BE]);
   (0x4C2, [0x4C1]); (0x4C4, [0x4C3]); (0x4C6, [0x4C5]); (0x4C8, [0x4C7]);
   (0x4CA, [0x4C9]); (0x4CC, [0x4CB]); (0x4CE, [0x4CD]); (0x4CF, [0x4C0]);
   (0x4D1, [0x4D0]); (0x4D3, [0x4D2]); (0x4D5, [0x4D4]); (0x4D7, [0x4D6]);
   (0x4D9, [0x4D8]); (0x4DB, [0x4DA]); (0x4DD, [0x4DC]); (0x4DF, [0x4DE]);
   (0x4E1, [0x4E0]); (0x4E3, [0x4E2]); (0x4E5, [0x4E4]); (0x4E7, [0x4E6]);
   (0x4E9, [0x4E8]); (0x4EB, [0x4EA]); (0x4ED, [0x4EC]); (0x4EF, [0x4EE]);
   (0x4F1, [0x4F0]); (0x4F3, [0x4F2]); (0x4F5, [0x4F4]); (0x4F7, [0x4F6]);
   (0x4F9, [0x4F8]); (0x4FB, [0x4FA]); (0x4FD, [0x4FC]); (0x4FF, [0x4FE]);
   (0x501, [0x500]); (0x503, [0x502]); (0x505, [0x504]); (0x507, [0x506]);
   (0x509, [0x508]); (0x50B, [0x50A]); (0x50D, [0x50C]); (0x50F, [0x50E]);
   (0x511, [0x510]); (0x513, [0x512]); (0x515, [0x514]); (0x517, [0x516]);
   (0x519, [0x518]); (0x51B, [0x51A]); (0x51D, [0x51C]); (0x51F, [0x51E]);
   (0x521, [0x520]); (0x523, [0x522]); (0x525, [0x524]); (0x527, [0x526]);
   (0x529, [0x528]); (0x52B, [0x52A]); (0x52D, [0x52C]); (0x52F, [0x52E]);
   (0x561, [0x531]); (0x562, [0x532]); (0x563, [0x533]); (0x564, [0x534]);
   (0x565, [0x535]); (0x566, [0x536]); (0x567, [0x537]); (0x568, [0x538]);
   (0x569, [0x539]); (0x56A, [0x53A]); (0x56B, [0x53B]); (0x56C, [0x53C]);
   (0x56D, [0x53D]); (0x56E, [0x53E]); (0x56F, [0x53F]); (0x570, [0x540]);
   (0x571, [0x541]); (0x572, [0x542]); (0x573, [0x543]); (0x574, [0x544]);
   (0x575, [0x545]); (0x576, [0x546]); (0x577, [0x547]); (0x578, [0x548]);
   (0x579, [0x549]); (0x57A, [0x54A]); (0x57B, [0x54B]); (0x57C, [0x54C]);
   (0x57D, [0x54D]); (0x57E, [0x54E]); (0x57F, [0x54F]); (0x580, [0x550]);
   (0x581, [0x551]); (0x582, [0x552]); (0x583, [0x553]); (0x584, [0x554]);
   (0x585, [0x555]); (0x586, [0x556]); (0x587, [0x535; 0x552]);
   (0x10D0, [0x1C90]); (0x10D1, [0x1C91]); (0x10D2, [0x1C92]);
   (0x10D3, [0x1C93]); (0x10D4, [0x1C94]); (0x10D5, [0x1C95]);
   (0x10D6, [0x1C96]); (0x10D7, [0x1C97]); (0x10D8, [0x1C98]);
   (0x10D9, [0x1C99]); (0x10DA, [0x1C9A]); (0x10DB, [0x1C9B]);
   (0x10DC, [0x1C9C]); (0x10DD, [0x1C9D]); (0x10DE, [0x1C9E]);
   (0x10DF, [0x1C9F]); (0x10E0, [0x1CA0]); (0x10E1, [0x1CA1]);
   (0x10E2, [0x1CA2]); (0x10E3, [0x1CA3]); (0x10E4, [0x1CA4]);
   (0x10E5, [0x1CA5]); (0x10E6, [0x1CA6]); (0x10E7, [0x1CA7]);
   (0x10E8, [0x1CA8]); (0x10E9, [0x1CA9]); (0x10EA, [0x1CAA]);
   (0x10EB, [0x1CAB]); (0x10EC, [0x1CAC]); (0x10ED, [0x1CAD]);
   (0x10EE, [0x1CAE]); (0x10EF, [0x1CAF]); (0x10F0, [0x1CB0]);
   (0x10F1, [0x1CB1]); (0x10F2, [0x1CB2]); (0x10F3, [0x1CB3]);
   (0x10F4, [0x1CB4]); (0x10F5, [0x1CB5]); (0x10F6, [0x1CB6]);
   (0x10F7, [0x1CB7]); (0x10F8, [0x1CB8]); (0x10F9, [0x1CB9]);
   (0x10FA, [0x1CBA]); (0x10FD, [0x1CBD]); (0x10FE, [0x1CBE]);
   (0x10FF, [0x1CBF]); (0x13F8, [0x13F0]); (0x13F9, [0x13F1]);
   (0x13FA, [0x13F2]); (0x13FB, [0x13F3]); (0x13FC, [0x13F4]);
   (0x13FD, [0x13F5]); (0x1C80, [0x412]); (0x1C81, [0x414]);
   (0x1C82, [0x41E]); (0x1C83, [0x421]); (0x1C84, [0x422]); (0x1C85, [0x422]);
   (0x1C86, [0x42A]); (0x1C87, [0x462]); (0x1C88, [0xA64A]);
   (0x1D79, [0xA77D]); (0x1D7D, [0x2C63]); (0x1D8E, [0xA7C6]);
   (0x1E01, [0x1E00]); (0x1E03, [0x1E02]); (0x1E05, [0x1E04]);
   (0x1E07, [0x1E06]); (0x1E09, [0x1E08]); (0x1E0B, [0x1E0A]);
   (0x1E0D, [0x1E0C]); (0x1E0F, [0x1E0E]); (0x1E11, [0x1E10]);
   (0x1E13, [0x1E12]); (0x1E15, [0x1E14]); (0x1E17, [0x1E16]);
   (0x1E19, [0x1E18]); (0x1E1B, [0x1E1A]); (0x1E1D, [0x1E1C]);
   (0x1E1F, [0x1E1E]); (0x1E21, [0x1E20]); (0x1E23, [0x1E22]);
   (0x1E25, [0x1E24]); (0x1E27, [0x1E26]); (0x1E29, [0x1E28]);
   (0x1E2B, [0x1E2A]); (0x1E2D, [0x1E2C]); (0x1E2F, [0x1E2E]);
   (0x1E31, [0x1E30]); (0x1E33, [0x1E32]); (0x1E35, [0x1E34]);
   (0x1E37, [0x1E36]); (0x1E39, [0x1E38]); (0x1E3B, [0x1E3A]);
   (0x1E3D, [0x1E3C]); (0x1E3F, [0x1E3E]); (0x1E41, [0x1E40]);
   (0x1E43, [0x1E42]); (0x1E45, [0x1E44]); (0x1E47, [0x1E46]);
   (0x1E49, [0x1E48]); (0x1E4B, [0x1E4A]); (0x1E4D, [0x1E4C]);
   (0x1E4F, [0x1E4E]); (0x1E51, [0x1E50]); (0x1E53, [0x1E52]);
   (0x1E55, [0x1E54]); (0x1E57, [0x1E56]); (0x1E59, [0x1E58]);
   (0x1E5B, [0x1E5A]); (0x1E5D, [0x1E5C]); (0x1E5F, [0x1E5E]);
   (0x1E61, [0x1E60]); (0x1E63, [0x1E62]); (0x1E65, [0x1E64]);
   (0x1E67, [0x1E66]); (0x1E69, [0x1E68]); (0x1E6B, [0x1E6A]);
   (0x1E6D, [0x1E6C]); (0x1E6F, [0x1E6E]); (0x1E71, [0x1E70]);
   (0x1E73, [0x1E72]); (0x1E75, [0x1E74]); (0x1E77, [0x1E76]);
   (0x1E79, [0x1E78]); (0x1E7B, [0x1E7A]); (0x1E7D, [0x1E7C]);
   (0x1E7F, [0x1E7E]); (0x1E81, [0x1E80]); (0x1E83, [0x1E82]);
   (0x1E85, [0x1E84]); (0x1E87, [0x1E86]); (0x1E89, [0x1E88]);
   (0x1E8B, [0x1E8A]); (0x1E8D, [0x1E8C]); (0x1E8F, [0x1E8E]);
   (0x1E91, [0x1E90]); (0x1E93, [0x1E92]); (0x1E95, [0x1E94]);
   (0x1E96, [0x48; 0x331]); (0x1E97, [0x54; 0x308]); (0x1E98, [0x57; 0x30A]);
   (0x1E99, [0x59; 0x30A]); (0x1E9A, [0x41; 0x2BE]); (0x1E9B, [0x1E60]);
   (0x1EA1, [0x1EA0]); (0x1EA3, [0x1EA2]); (0x1EA5, [0x1EA4]);
   (0x1EA7, [0x1EA6]); (0x1EA9, [0x1EA8]); (0x1EAB, [0x1EAA]);
   (0x1EAD, [0x1EAC]); (0x1EAF, [0x1EAE]); (0x1EB1, [0x1EB0]);
   (0x1EB3, [0x1EB2]); (0x1EB5, [0x1EB4]); (0x1EB7, [0x1EB6]);
   (0x1EB9, [0x1EB8]); (0x1EBB, [0x1EBA]); (0x1EBD, [0x1EBC]);
   (0x1EBF, [0x1EBE]); (0x1EC1, [0x1EC0]); (0x1EC3, [0x1EC2]);
   (0x1EC5, [0x1EC4]); (0x1EC7, [0x1EC6]); (0x1EC9, [0x1EC8]);
   (0x1ECB, [0x1ECA]); (0x1ECD, [0x1ECC]); (0x1ECF, [0x1ECE]);
   (0x1ED1, [0x1ED0]); (0x1ED3, [0x1ED2]); (0x1ED5, [0x1ED4]);
   (0x1ED7, [0x1ED6]); (0x1ED9, [0x1ED8]); (0x1EDB, [0x1EDA]);
   (0x1EDD, [0x1EDC]); (0x1EDF, [0x1EDE]); (0x1EE1, [0x1EE0]);
   (0x1EE3, [0x1EE2]); (0x1EE5, [0x1EE4]); (0x1EE7, [0x1EE6]);
   (0x1EE9, [0x1EE8]); (0x1EEB, [0x1EEA]); (0x1EED, [0x1EEC]);
   (0x1EEF, [0x1EEE]); (0x1EF1, [0x1EF0]); (0x1EF3, [0x1EF2]);
   (0x1EF5, [0x1EF4]); (0x1EF7, [0x1EF6]); (0x1EF9, [0x1EF8]);
   (0x1EFB, [0x1EFA]); (0x1EFD, [0x1EFC]); (0x1EFF, [0x1EFE]);
   (0x1F00, [0x1F08]); (0x1F01, [0x1F09]); (0x1F02, [0x1F0A]);
   (0x1F03, [0x1F0B]); (0x1F04, [0x1F0C]); (0x1F05, [0x1F0D]);
   (0x1F06, [0x1F0E]); (0x1F07, [0x1F0F]); (0x1F10, [0x1F18]);
   (0x1F11, [0x1F19]); (0x1F12, [0x1F1A]); (0x1F13, [0x1F1B]);
   (0x1F14, [0x1F1C]); (0x1F15, [0x1F1D]); (0x1F20, [0x1F28]);
   (0x1F21, [0x1F29]); (0x1F22, [0x1F2A]); (0x1F23, [0x1F2B]);
   (0x1F24, [0x1F2C]); (0x1F25, [0x1F2D]); (0x1F26, [0x1F2E]);
   (0x1F27, [0x1F2F]); (0x1F30, [0x1F38]); (0x1F31, [0x1F39]);
   (0x1F32, [0x1F3A]); (0x1F33, [0x1F3B]); (0x1F34, [0x1F3C]);
   (0x1F35, [0x1F3D]); (0x1F36, [0x1F3E]); (0x1F37, [0x1F3F]);
   (0x1F40, [0x1F48]); (0x1F41, [0x1F49]); (0x1F42, [0x1F4A]);
   (0x1F43, [0x1F4B]); (0x1F44, [0x1F4C]); (0x1F45, [0x1F4D]);
   (0x1F50, [0x3A5; 0x313]); (0x1F51, [0x1F59]);
   (0x1F52, [0x3A5; 0x313; 0x300]); (0x1F53, [0x1F5B]);
   (0x1F54, [0x3A5; 0x313; 0x301]); (0x1F55, [0x1F5D]);
   (0x1F56, [0x3A5; 0x313; 0x342]); (0x1F57, [0x1F5F]); (0x1F60, [0x1F68]);
   (0x1F61, [0x1F69]); (0x1F62, [0x1F6A]); (0x1F63, [0x1F6B]);
   (0x1F64, [0x1F6C]); (0x1F65, [0x1F6D]); (0x1F66, [0x1F6E]);
   (0x1F67, [0x1F6F]); (0x1F70, [0x1FBA]); (0x1F71, [0x1FBB]);
   (0x1F72, [0x1FC8]); (0x1F73, [0x1FC9]); (0x1F74, [0x1FCA]);
   (0x1F75, [0x1FCB]); (0x1F76, [0x1FDA]); (0x1F77, [0x1FDB]);
   (0x1F78, [0x1FF8]); (0x1F79, [0x1FF9]); (0x1F7A, [0x1FEA]);
   (0x1F7B, [0x1FEB]); (0x1F7C, [0x1FFA]); (0x1F7D, [0x1FFB]);
   (0x1F80, [0x1F08; 0x399]); (0x1F81, [0x1F09; 0x399]);
   (0x1F82, [0x1F0A; 0x399]); (0x1F83, [0x1F0B; 0x399]);
   (0x1F84, [0x1F0C; 0x399]); (0x1F85, [0x1F0D; 0x399]);
   (0x1F86, [0x1F0E; 0x399]); (0x1F87, [0x1F0F; 0x399]);
   (0x1F88, [0x1F08; 0x399]); (0x1F89, [0x1F09; 0x399]);
   (0x1F8A, [0x1F0A; 0x399]); (0x1F8B, [0x1F0B; 0x399]);
   (0x1F8C, [0x1F0C; 0x399]); (0x1F8D, [0x1F0D; 0x399]);
   (0x1F8E, [0x1F0E; 0x399]); (0x1F8F, [0x1F0F; 0x399]);
   (0x1F90, [0x1F28; 0x399]); (0x1F91, [0x1F29; 0x399]);
   (0x1F92, [0x1F2A; 0x399]); (0x1F93, [0x1F2B; 0x399]);
   (0x1F94, [0x1F2C; 0x399]); (0x1F95, [0x1F2D; 0x399]);
   (0x1F96, [0x1F2E; 0x399]); (0x1F97, [0x1F2F; 0x399]);
   (0x1F98, [0x1F28; 0x399]); (0x1F99, [0x1F29; 0x399]);
   (0x1F9A, [0x1F2A; 0x399]); (0x1F9B, [0x1F2B; 0x399]);
   (0x1F9C, [0x1F2C; 0x399]); (0x1F9D, [0x1F2D; 0x399]);
   (0x1F9E, [0x1F2E; 0x399]); (0x1F9F, [0x1F2F; 0x399]);
   (0x1FA0, [0x1F68; 0x399]); (0x1FA1, [0x1F69; 0x399]);
   (0x1FA2, [0x1F6A; 0x399]); (0x1FA3, [0x1F6B; 0x399]);
   (0x1FA4, [0x1F6C; 0x399]); (0x1FA5, [0x1F6D; 0x399]);
   (0x1FA6, [0x1F6E; 0x399]); (0x1FA7, [0x1F6F; 0x399]);
   (0x1FA8, [0x1F68; 0x399]); (0x1FA9, [0x1F69; 0x399]);
   (0x1FAA, [0x1F6A; 0x399]); (0x1FAB, [0x1F6B; 0x399]);
   (0x1FAC, [0x1F6C; 0x399]); (0x1FAD, [0x1F6D; 0x399]);
   (0x1FAE, [0x1F6E; 0x399]); (0x1FAF, [0x1F6F; 0x399]); (0x1FB0, [0x1FB8]);
   (0x1FB1, [0x1FB9]); (0x1FB2, [0x1FBA; 0x399]); (0x1FB3, [0x391; 0x399]);
   (0x1FB4, [0x386; 0x399]); (0x1FB6, [0x391; 0x342]);
   (0x1FB7, [0x391; 0x342; 0x399]); (0x1FBC, [0x391; 0x399]);
   (0x1FBE, [0x399]); (0x1FC2, [0x1FCA; 0x399]); (0x1FC3, [0x397; 0x399]);
   (0x1FC4, [0x389; 0x399]); (0x1FC6, [0x397; 0x342]);
   (0x1FC7, [0x397; 0x342; 0x399]); (0x1FCC, [0x397; 0x399]);
   (0x1FD0, [0x1FD8]); (0x1FD1, [0x1FD9]); (0x1FD2, [0x399; 0x308; 0x300]);
   (0x1FD3, [0x399; 0x308; 0x301]); (0x1FD6, [0x399; 0x342]);
   (0x1FD7, [0x399; 0x308; 0x342]); (0x1FE0, [0x1FE8]); (0x1FE1, [0x1FE9]);
   (0x1FE2, [0x3A5; 0x308; 0x300]); (0x1FE3, [0x3A5; 0x308; 0x301]);
   (0x1FE4, [0x3A1; 0x313]); (0x1FE5, [0x1FEC]); (0x1FE6, [0x3A5; 0x342]);
   (0x1FE7, [0x3A5; 0x308; 0x342]); (0x1FF2, [0x1FFA; 0x399]);
   (0x1FF3, [0x3A9; 0x399]); (0x1FF4, [0x38F; 0x399]);
   (0x1FF6, [0x3A9; 0x342]); (0x1FF7, [0x3A9; 0x342; 0x399]);
   (0x1FFC, [0x3A9; 0x399]); (0x214E, [0x2132]); (0x2170, [0x2160]);
   (0x2171, [0x2161]); (0x2172, [0x2162]); (0x2173, [0x2163]);
   (0x2174, [0x2164]); (0x2175, [0x2165]); (0x2176, [0x2166]);
   (0x2177, [0x2167]); (0x2178, [0x2168]); (0x2179, [0x2169]);
   (0x217A, [0x216A]); (0x217B, [0x216B]); (0x217C, [0x216C]);
   (0x217D, [0x216D]); (0x217E, [0x216E]); (0x217F, [0x216F]);
   (0x2184, [0x2183]); (0x24D0, [0x24B6]); (0x24D1, [0x24B7]);
   (0x24D2, [0x24B8]); (0x24D3, [0x24B9]); (0x24D4, [0x24BA]);
   (0x24D5, [0x24BB]); (0x24D6, [0x24BC]); (0x24D7, [0x24BD]);
   (0x24D8, [0x24BE]); (0x24D9, [0x24BF]); (0x24DA, [0x24C0]);
   (0x24DB, [0x24C1]); (0x24DC, [0x24C2]); (0x24DD, [0x24C3]);
   (0x24DE, [0x24C4]); (0x24DF, [0x24C5]); (0x24E0, [0x24C6]);
   (0x24E1, [0x24C7]); (0x24E2, [0x24C8]); (0x24E3, [0x24C9]);
   (0x24E4, [0x24CA]); (0x24E5, [0x24CB]); (0x24E6, [0x24CC]);
   (0x24E7, [0x24CD]); (0x24E8, [0x24CE]); (0x24E9, [0x24CF]);
   (0x2C30, [0x2C00]); (0x2C31, [0x2C01]); (0x2C32, [0x2C02]);
   (0x2C33, [0x2C03]); (0x2C34, [0x2C04]); (0x2C35, [0x2C05]);
   (0x2C36, [0x2C06]); (0x2C37, [0x2C07]); (0x2C38, [0x2C08]);
   (0x2C39, [0x2C09]); (0x2C3A, [0x2C0A]); (0x2C3B, [0x2C0B]);
   (0x2C3C, [0x2C0C]); (0x2C3D, [0x2C0D]); (0x2C3E, [0x2C0E]);
   (0x2C3F, [0x2C0F]); (0x2C40, [0x2C10]); (0x2C41, [0x2C11]);
   (0x2C42, [0x2C12]); (0x2C43, [0x2C13]); (0x2C44, [0x2C14]);
   (0x2C45, [0x2C15]); (0x2C46, [0x2C16]); (0x2C47, [0x2C17]);
   (0x2C48, [0x2C18]); (0x2C49, [0x2C19]); (0x2C4A, [0x2C1A]);
   (0x2C4B, [0x2C1B]); (0x2C4C, [0x2C1C]); (0x2C4D, [0x2C1D]);
   (0x2C4E, [0x2C1E]); (0x2C4F, [0x2C1F]); (0x2C50, [0x2C20]);
   (0x2C51, [0x2C21]); (0x2C52, [0x2C22]); (0x2C53, [0x2C23]);
   (0x2C54, [0x2C24]); (0x2C55, [0x2C25]); (0x2C56, [0x2C26]);
   (0x2C57, [0x2C27]); (0x2C58, [0x2C28]); (0x2C59, [0x2C29]);
   (0x2C5A, [0x2C2A]); (0x2C5B, [0x2C2B]); (0x2C5C, [0x2C2C]);
   (0x2C5D, [0x2C2D]); (0x2C5E, [0x2C2E]); (0x2C5F, [0x2C2F]);
   (0x2C61, [0x2C60]); (0x2C65, [0x23A]); (0x2C66, [0x23E]);
   (0x2C68, [0x2C67]); (0x2C6A, [0x2C69]); (0x2C6C, [0x2C6B]);
   (0x2C73, [0x2C72]); (0x2C76, [0x2C75]); (0x2C81, [0x2C80]);
   (0x2C83, [0x2C82]); (0x2C85, [0x2C84]); (0x2C87, [0x2C86]);
   (0x2C89, [0x2C88]); (0x2C8B, [0x2C8A]); (0x2C8D, [0x2C8C]);
   (0x2C8F, [0x2C8E]); (0x2C91, [0x2C90]); (0x2C93, [0x2C92]);
   (0x2C95, [0x2C94]); (0x2C97, [0x2C96]); (0x2C99, [0x2C98]);
   (0x2C9B, [0x2C9A]); (0x2C9D, [0x2C9C]); (0x2C9F, [0x2C9E]);
   (0x2CA1, [0x2CA0]); (0x2CA3, [0x2CA2]); (0x2CA5, [0x2CA4]);
   (0x2CA7, [0x2CA6]); (0x2CA9, [0x2CA8]); (0x2CAB, [0x2CAA]);
   (0x2CAD, [0x2CAC]); (0x2CAF, [0x2CAE]); (0x2CB1, [0x2CB0]);
   (0x2CB3, [0x2CB2]); (0x2CB5, [0x2CB4]); (0x2CB7, [0x2CB6]);
   (0x2CB9, [0x2CB8]); (0x2CBB, [0x2CBA]); (0x2CBD, [0x2CBC]);
   (0x2CBF, [0x2CBE]); (0x2CC1, [0x2CC0]); (0x2CC3, [0x2CC2]);
   (0x2CC5, [0x2CC4]); (0x2CC7, [0x2CC6]); (0x2CC9, [0x2CC8]);
   (0x2CCB, [0x2CCA]); (0x2CCD, [0x2CCC]); (0x2CCF, [0x2CCE]);
   (0x2CD1, [0x2CD0]); (0x2CD3, [0x2CD2]); (0x2CD5, [0x2CD4]);
   (0x2CD7, [0x2CD6]); (0x2CD9, [0x2CD8]); (0x2CDB, [0x2CDA]);
   (0x2CDD, [0x2CDC]); (0x2CDF, [0x2CDE]); (0x2CE1, [0x2CE0]);
   (0x2CE3, [0x2CE2]); (0x2CEC, [0x2CEB]); (0x2CEE, [0x2CED]);
   (0x2CF3, [0x2CF2]); (0x2D00, [0x10A0]); (0x2D01, [0x10A1]);
   (0x2D02, [0x10A2]); (0x2D03, [0x10A3]); (0x2D04, [0x10A4]);
   (0x2D05, [0x10A5]); (0x2D06, [0x10A6]); (0x2D07, [0x10A7]);
   (0x2D08, [0x10A8]); (0x2D09, [0x10A9]); (0x2D0A, [0x10AA]);
   (0x2D0B, [0x10AB]); (0x2D0C, [0x10AC]); (0x2D0D, [0x10AD]);
   (0x2D0E, [0x10AE]); (0x2D0F, [0x10AF]); (0x2D10, [0x10B0]);
   (0x2D11, [0x10B1]); (0x2D12, [0x10B2]); (0x2D13, [0x10B3]);
   (0x2D14, [0x10B4]); (0x2D15, [0x10B5]); (0x2D16, [0x10B6]);
   (0x2D17, [0x10B7]); (0x2D18, [0x10B8]); (0x2D19, [0x10B9]);
   (0x2D1A, [0x10BA]); (0x2D1B, [0x10BB]); (0x2D1C, [0x10BC]);
   (0x2D1D, [0x10BD]); (0x2D1E, [0x10BE]); (0x2D1F, [0x10BF]);
   (0x2D20, [0x10C0]); (0x2D21, [0x10C1]); (0x2D22, [0x10C2]);
   (0x2D23, [0x10C3]); (0x2D24, [0x10C4]); (0x2D25, [0x10C5]);
   (0x2D27, [0x10C7]); (0x2D2D, [0x10CD]); (0xA641, [0xA640]);
   (0xA643, [0xA642]); (0xA645, [0xA644]); (0xA647, [0xA646]);
   (0xA649, [0xA648]); (0xA64B, [0xA64A]); (0xA64D, [0xA64C]);
   (0xA64F, [0xA64E]); (0xA651, [0xA650]); (0xA653, [0xA652]);
   (0xA655, [0xA654]); (0xA657, [0xA656]); (0xA659, [0xA658]);
   (0xA65B, [0xA65A]); (0xA65D, [0xA65C]); (0xA65F, [0xA65E]);
   (0xA661, [0xA660]); (0xA663, [0xA662]); (0xA665, [0xA664]);
   (0xA667, [0xA666]); (0xA669, [0xA668]); (0xA66B, [0xA66A]);
   (0xA66D, [0xA66C]); (0xA681, [0xA680]); (0xA683, [0xA682]);
   (0xA685, [0xA684]); (0xA687, [0xA686]); (0xA689, [0xA688]);
   (0xA68B, [0xA68A]); (0xA68D, [0xA68C]); (0xA68F, [0xA68E]);
   (0xA691, [0xA690]); (0xA693, [0xA692]); (0xA695, [0xA694]);
   (0xA697, [0xA696]); (0xA699, [0xA698]); (0xA69B, [0xA69A]);
   (0xA723, [0xA722]); (0xA725, [0xA724]); (0xA727, [0xA726]);
   (0xA729, [0xA728]); (0xA72B, [0xA72A]); (0xA72D, [0xA72C]);
   (0xA72F, [0xA72E]); (0xA733, [0xA732]); (0xA735, [0xA734]);
   (0xA737, [0xA736]); (0xA739, [0xA738]); (0xA73B, [0xA73A]);
   (0xA73D, [0xA73C]); (0xA73F, [0xA73E]); (0xA741, [0xA740]);
   (0xA743, [0xA742]); (0xA745, [0xA744]); (0xA747, [0xA746]);
   (0xA749, [0xA748]); (0xA74B, [0xA74A]); (0xA74D, [0xA74C]);
   (0xA74F, [0xA74E]); (0xA751, [0xA750]); (0xA753, [0xA752]);
   (0xA755, [0xA754]); (0xA757, [0xA756]); (0xA759, [0xA758]);
   (0xA75B, [0xA75A]); (0xA75D, [0xA75C]); (0xA75F, [0xA75E]);
   (0xA761, [0xA760]); (0xA763, [0xA762]); (0xA765, [0xA764]);
   (0xA767, [0xA766]); (0xA769, [0xA768]); (0xA76B, [0xA76A]);
   (0xA76D, [0xA76C]); (0xA76F, [0xA76E]); (0xA77A, [0xA779]);
   (0xA77C, [0xA77B]); (0xA77F, [0xA77E]); (0xA781, [0xA780]);
   (0xA783, [0xA782]); (0xA785, [0xA784]); (0xA787, [0xA786]);
   (0xA78C, [0xA78B]); (0xA791, [0xA790]); (0xA793, [0xA792]);
   (0xA794, [0xA7C4]); (0xA797, [0xA796]); (0xA799, [0xA798]);
   (0xA79B, [0xA79A]); (0xA79D, [0xA79C]); (0xA79F, [0xA79E]);
   (0xA7A1, [0xA7A0]); (0xA7A3, [0xA7A2]); (0xA7A5, [0xA7A4]);
   (0xA7A7, [0xA7A6]); (0xA7A9, [0xA7A8]); (0xA7B5, [0xA7B4]);
   (0xA7B7, [0xA7B6]); (0xA7B9, [0xA7B8]); (0xA7BB, [0xA7BA]);
   (0xA7BD, [0xA7BC]); (0xA7BF, [0xA7BE]); (0xA7C1, [0xA7C0]);
   (0xA7C3, [0xA7C2]); (0xA7C8, [0xA7C7]); (0xA7CA, [0xA7C9]);
   (0xA7D1, [0xA7D0]); (0xA7D7, [0xA7D6]); (0xA7D9, [0xA7D8]);
   (0xA7F6, [0xA7F5]); (0xAB53, [0xA7B3]); (0xAB70, [0x13A0]);
   (0xAB71, [0x13A1]); (0xAB72, [0x13A2]); (0xAB73, [0x13A3]);
   (0xAB74, [0x13A4]); (0xAB75, [0x13A5]); (0xAB76, [0x13A6]);
   (0xAB77, [0x13A7]); (0xAB78, [0x13A8]); (0xAB79, [0x13A9]);
   (0xAB7A, [0x13AA]); (0xAB7B, [0x13AB]); (0xAB7C, [0x13AC]);
   (0xAB7D, [0x13AD]); (0xAB7E, [0x13AE]); (0xAB7F, [0x13AF]);
   (0xAB80, [0x13B0]); (0xAB81, [0x13B1]); (0xAB82, [0x13B2]);
   (0xAB83, [0x13B3]); (0xAB84, [0x13B4]); (0xAB85, [0x13B5]);
   (0xAB86, [0x13B6]); (0xAB87, [0x13B7]); (0xAB88, [0x13B8]);
   (0xAB89, [0x13B9]); (0xAB8A, [0x13BA]); (0xAB8B, [0x13BB]);
   (0xAB8C, [0x13BC]); (0xAB8D, [0x13BD]); (0xAB8E, [0x13BE]);
   (0xAB8F, [0x13BF]); (0xAB90, [0x13C0]); (0xAB91, [0x13C1]);
   (0xAB92, [0x13C2]); (0xAB93, [0x13C3]); (0xAB94, [0x13C4]);
   (0xAB95, [0x13C5]); (0xAB96, [0x13C6]); (0xAB97, [0x13C7]);
   (0xAB98, [0x13C8]); (0xAB99, [0x13C9]); (0xAB9A, [0x13CA]);
   (0xAB9B, [0x13CB]); (0xAB9C, [0x13CC]); (0xAB9D, [0x13CD]);
   (0xAB9E, [0x13CE]); (0xAB9F, [0x13CF]); (0xABA0, [0x13D0]);
   (0xABA1, [0x13D1]); (0xABA2, [0x13D2]); (0xABA3, [0x13D3]);
   (0xABA4, [0x13D4]); (0xABA5, [0x13D5]); (0xABA6, [0x13D6]);
   (0xABA7, [0x13D7]); (0xABA8, [0x13D8]); (0xABA9, [0x13D9]);
   (0xABAA, [0x13DA]); (0xABAB, [0x13DB]); (0xABAC, [0x13DC]);
   (0xABAD, [0x13DD]); (0xABAE, [0x13DE]); (0xABAF, [0x13DF]);
   (0xABB0, [0x13E0]); (0xABB1, [0x13E1]); (0xABB2, [0x13E2]);
   (0xABB3, [0x13E3]); (0xABB4, [0x13E4]); (0xABB5, [0x13E5]);
   (0xABB6, [0x13E6]); (0xABB7, [0x13E7]); (0xABB8, [0x13E8]);
   (0xABB9, [0x13E9]); (0xABBA, [0x13EA]); (0xABBB, [0x13EB]);
   (0xABBC, [0x13EC]); (0xABBD, [0x13ED]); (0xABBE, [0x13EE]);
   (0xABBF, [0x13EF]); (0xFB00, [0x46; 0x46]); (0xFB01, [0x46; 0x49]);
   (0xFB02, [0x46; 0x4C]); (0xFB03, [0x46; 0x46; 0x49]);
   (0xFB04, [0x46; 0x46; 0x4C]); (0xFB05, [0x53; 0x54]);
   (0xFB06, [0x53; 0x54]); (0xFB13, [0x544; 0x546]); (0xFB14, [0x544; 0x535]);
   (0xFB15, [0x544; 0x53B]); (0xFB16, [0x54E; 0x546]);
   (0xFB17, [0x544; 0x53D]); (0xFF41, [0xFF21]); (0xFF42, [0xFF22]);
   (0xFF43, [0xFF23]); (0xFF44, [0xFF24]); (0xFF45, [0xFF25]);
   (0xFF46, [0xFF26]); (0xFF47, [0xFF27]); (0xFF48, [0xFF28]);
   (0xFF49, [0xFF29]); (0xFF4A, [0xFF2A]); (0xFF4B, [0xFF2B]);
   (0xFF4C, [0xFF2C]); (0xFF4D, [0xFF2D]); (0xFF4E, [0xFF2E]);
   (0xFF4F, [0xFF2F]); (0xFF50, [0xFF30]); (0xFF51, [0xFF31]);
   (0xFF52, [0xFF32]); (0xFF53, [0xFF33]); (0xFF54, [0xFF34]);
   (0xFF55, [0xFF35]); (0xFF56, [0xFF36]); (0xFF57, [0xFF37]);
   (0xFF58, [0xFF38]); (0xFF59, [0xFF39]); (0xFF5A, [0xFF3A]);
   (0x10428, [0x10400]); (0x10429, [0x10401]); (0x1042A, [0x10402]);
   (0x1042B, [0x10403]); (0x1042C, [0x10404]); (0x1042D, [0x10405]);
   (0x1042E, [0x10406]); (0x1042F, [0x10407]); (0x10430, [0x10408]);
   (0x10431, [0x10409]); (0x10432, [0x1040A]); (0x10433, [0x1040B]);
   (0x10434, [0x1040C]); (0x10435, [0x1040D]); (0x10436, [0x1040E]);
   (0x10437, [0x1040F]); (0x10438, [0x10410]); (0x10439, [0x10411]);
   (0x1043A, [0x10412]); (0x1043B, [0x10413]); (0x1043C, [0x10414]);
   (0x1043D, [0x10415]); (0x1043E, [0x10416]); (0x1043F, [0x10417]);
   (0x10440, [0x10418]); (0x10441, [0x10419]); (0x10442, [0x1041A]);
   (0x10443, [0x1041B]); (0x10444, [0x1041C]); (0x10445, [0x1041D]);
   (0x10446, [0x1041E]); (0x10447, [0x1041F]); (0x10448, [0x10420]);
   (0x10449, [0x10421]); (0x1044A, [0x10422]); (0x1044B, [0x10423]);
   (0x1044C, [0x10424]); (0x1044D, [0x10425]); (0x1044E, [0x10426]);
   (0x1044F, [0x10427]); (0x104D8, [0x104B0]); (0x104D9, [0x104B1]);
   (0x104DA, [0x104B2]); (0x104DB, [0x104B3]); (0x104DC, [0x104B4]);
   (0x104DD, [0x104B5]); (0x104DE, [0x104B6]); (0x104DF, [0x104B7]);
   (0x104E0, [0x104B8]); (0x104E1, [0x104B9]); (0x104E2, [0x104BA]);
   (0x104E3, [0x104BB]); (0x104E4, [0x104BC]); (0x104E5, [0x104BD]);
   (0x104E6, [0x104BE]); (0x104E7, [0x104BF]); (0x104E8, [0x104C0]);
   (0x104E9, [0x104C1]); (0x104EA, [0x104C2]); (0x104EB, [0x104C3]);
   (0x104EC, [0x104C4]); (0x104ED, [0x104C5]); (0x104EE, [0x104C6]);
   (0x104EF, [0x104C7]); (0x104F0, [0x104C8]); (0x104F1, [0x104C9]);
   (0x104F2, [0x104CA]); (0x104F3, [0x104CB]); (0x104F4, [0x104CC]);
   (0x104F5, [0x104CD]); (0x104F6, [0x104CE]); (0x104F7, [0x104CF]);
   (0x104F8, [0x104D0]); (0x104F9, [0x104D1]); (0x104FA, [0x104D2]);
   (0x104FB, [0x104D3]); (0x10597, [0x10570]); (0x10598, [0x10571]);
   (0x10599, [0x10572]); (0x1059A, [0x10573]); (0x1059B, [0x10574]);
   (0x1059C, [0x10575]); (0x1059D, [0x10576]); (0x1059E, [0x10577]);
   (0x1059F, [0x10578]); (0x105A0, [0x10579]); (0x105A1, [0x1057A]);
   (0x105A3, [0x1057C]); (0x105A4, [0x1057D]); (0x105A5, [0x1057E]);
   (0x105A6, [0x1057F]); (0x105A7, [0x10580]); (0x105A8, [0x10581]);
   (0x105A9, [0x10582]); (0x105AA, [0x10583]); (0x105AB, [0x10584]);
   (0x105AC, [0x10585]); (0x105AD, [0x10586]); (0x105AE, [0x10587]);
   (0x105AF, [0x10588]); (0x105B0, [0x10589]); (0x105B1, [0x1058A]);
   (0x105B3, [0x1058C]); (0x105B4, [0x1058D]); (0x105B5, [0x1058E]);
   (0x105B6, [0x1058F]); (0x105B7, [0x10590]); (0x105B8, [0x10591]);
   (0x105B9, [0x10592]); (0x105BB, [0x10594]); (0x105BC, [0x10595]);
   (0x10CC0, [0x10C80]); (0x10CC1, [0x10C81]); (0x10CC2, [0x10C82]);
   (0x10CC3, [0x10C83]); (0x10CC4, [0x10C84]); (0x10CC5, [0x10C85]);
   (0x10CC6, [0x10C86]); (0x10CC7, [0x10C87]); (0x10CC8, [0x10C88]);
   (0x10CC9, [0x10C89]); (0x10CCA, [0x10C8A]); (0x10CCB, [0x10C8B]);
   (0x10CCC, [0x10C8C]); (0x10CCD, [0x10C8D]); (0x10CCE, [0x10C8E]);
   (0x10CCF, [0x10C8F]); (0x10CD0, [0x10C90]); (0x10CD1, [0x10C91]);
   (0x10CD2, [0x10C92]); (0x10CD3, [0x10C93]); (0x10CD4, [0x10C94]);
   (0x10CD5, [0x10C95]); (0x10CD6, [0x10C96]); (0x10CD7, [0x10C97]);
   (0x10CD8, [0x10C98]); (0x10CD9, [0x10C99]); (0x10CDA, [0x10C9A]);
   (0x10CDB, [0x10C9B]); (0x10CDC, [0x10C9C]); (0x10CDD, [0x10C9D]);
   (0x10CDE, [0x10C9E]); (0x10CDF, [0x10C9F]); (0x10CE0, [0x10CA0]);
   (0x10CE1, [0x10CA1]); (0x10CE2, [0x10CA2]); (0x10CE3, [0x10CA3]);
   (0x10CE4, [0x10CA4]); (0x10CE5, [0x10CA5]); (0x10CE6, [0x10CA6]);
   (0x10CE7, [0x10CA7]); (0x10CE8, [0x10CA8]); (0x10CE9, [0x10CA9]);
   (0x10CEA, [0x10CAA]); (0x10CEB, [0x10CAB]); (0x10CEC, [0x10CAC]);
   (0x10CED, [0x10CAD]); (0x10CEE, [0x10CAE]); (0x10CEF, [0x10CAF]);
   (0x10CF0, [0x10CB0]); (0x10CF1, [0x10CB1]); (0x10CF2, [0x10CB2]);
   (0x118C0, [0x118A0]); (0x118C1, [0x118A1]); (0x118C2, [0x118A2]);
   (0x118C3, [0x118A3]); (0x118C4, [0x118A4]); (0x118C5, [0x118A5]);
   (0x118C6, [0x118A6]); (0x118C7, [0x118A7]); (0x118C8, [0x118A8]);
   (0x118C9, [0x118A9]); (0x118CA, [0x118AA]); (0x118CB, [0x118AB]);
   (0x118CC, [0x118AC]); (0x118CD, [0x118AD]); (0x118CE, [0x118AE]);
   (0x118CF, [0x118AF]); (0x118D0, [0x118B0]); (0x118D1, [0x118B1]);
   (0x118D2, [0x118B2]); (0x118D3, [0x118B3]); (0x118D4, [0x118B4]);
   (0x118D5, [0x118B5]); (0x118D6, [0x118B6]); (0x118D7, [0x118B7]);
   (0x118D8, [0x118B8]); (0x118D9, [0x118B9]); (0x118DA, [0x118BA]);
   (0x118DB, [0x118BB]); (0x118DC, [0x118BC]); (0x118DD, [0x118BD]);
   (0x118DE, [0x118BE]); (0x118DF, [0x118BF]); (0x16E60, [0x16E40]);
   (0x16E61, [0x16E41]); (0x16E62, [0x16E42]); (0x16E63, [0x16E43]);
   (0x16E64, [0x16E44]); (0x16E65, [0x16E45]); (0x16E66, [0x16E46]);
   (0x16E67, [0x16E47]); (0x16E68, [0x16E48]); (0x16E69, [0x16E49]);
   (0x16E6A, [0x16E4A]); (0x16E6B, [0x16E4B]); (0x16E6C, [0x16E4C]);
   (0x16E6D, [0x16E4D]); (0x16E6E, [0x16E4E]); (0x16E6F, [0x16E4F]);
   (0x16E70, [0x16E50]); (0x16E71, [0x16E51]); (0x16E72, [0x16E52]);
   (0x16E73, [0x16E53]); (0x16E74, [0x16E54]); (0x16E75, [0x16E55]);
   (0x16E76, [0x16E56]); (0x16E77, [0x16E57]); (0x16E78, [0x16E58]);
   (0x16E79, [0x16E59]); (0x16E7A, [0x16E5A]); (0x16E7B, [0x16E5B]);
   (0x16E7C, [0x16E5C]); (0x16E7D, [0x16E5D]); (0x16E7E, [0x16E5E]);
   (0x16E7F, [0x16E5F]); (0x1E922, [0x1E900]); (0x1E923, [0x1E901]);
   (0x1E924, [0x1E902]); (0x1E925, [0x1E903]); (0x1E926, [0x1E904]);
   (0x1E927, [0x1E905]); (0x1E928, [0x1E906]); (0x1E929, [0x1E907]);
   (0x1E92A, [0x1E908]); (0x1E92B, [0x1E909]); (0x1E92C, [0x1E90A]);
   (0x1E92D, [0x1E90B]); (0x1E92E, [0x1E90C]); (0x1E92F, [0x1E90D]);
   (0x1E930, [0x1E90E]); (0x1E931, [0x1E90F]); (0x1E932, [0x1E910]);
   (0x1E933, [0x1E911]); (0x1E934, [0x1E912]); (0x1E935, [0x1E913]);
   (0x1E936, [0x1E914]); (0x1E937, [0x1E915]); (0x1E938, [0x1E916]);
   (0x1E939, [0x1E917]); (0x1E93A, [0x1E918]); (0x1E93B, [0x1E919]);
   (0x1E93C, [0x1E91A]); (0x1E93D, [0x1E91B]); (0x1E93E, [0x1E91C]);
   (0x1E93F, [0x1E91D]); (0x1E940, [0x1E91E]); (0x1E941, [0x1E91F]);
   (0x1E942, [0x1E920]); (0x1E943, [0x1E921])].

(** The code points that [toLowerCase] changes, with what it puts. *)
Definition LOWERCASE_MAPPING : list (N * list N) :=
  [ (0x41, [0x61]); (0x42, [0x62]); (0x43, [0x63]); (0x44, [0x64]);
   (0x45, [0x65]); (0x46, [0x66]); (0x47, [0x67]); (0x48, [0x68]);
   (0x49, [0x69]); (0x4A, [0x6A]); (0x4B, [0x6B]); (0x4C, [0x6C]);
   (0x4D, [0x6D]); (0x4E, [0x6E]); (0x4F, [0x6F]); (0x50, [0x70]);
   (0x51, [0x71]); (0x52, [0x72]); (0x53, [0x73]); (0x54, [0x74]);
   (0x55, [0x75]); (0x56, [0x76]); (0x57, [0x77]); (0x58, [0x78]);
   (0x59, [0x79]); (0x5A, [0x7A]); (0xC0, [0xE0]); (0xC1, [0xE1]);
   (0xC2, [0xE2]); (0xC3, [0xE3]); (0xC4, [0xE4]); (0xC5, [0xE5]);
   (0xC6, [0xE6]); (0xC7, [0xE7]); (0xC8, [0xE8]); (0xC9, [0xE9]);
   (0xCA, [0xEA]); (0xCB, [0xEB]); (0xCC, [0xEC]); (0xCD, [0xED]);
   (0xCE, [0xEE]); (0xCF, [0xEF]); (0xD0, [0xF0]); (0xD1, [0xF1]);
   (0xD2, [0xF2]); (0xD3, [0xF3]); (0xD4, [0xF4]); (0xD5, [0xF5]);
   (0xD6, [0xF6]); (0xD8, [0xF8]); (0xD9, [0xF9]); (0xDA, [0xFA]);
   (0xDB, [0xFB]); (0xDC, [0xFC]); (0xDD, [0xFD]); (0xDE, [0xFE]);
   (0x100, [0x101]); (0x102, [0x103]); (0x104, [0x105]); (0x106, [0x107]);
   (0x108, [0x109]); (0x10A, [0x10B]); (0x10C, [0x10D]); (0x10E, [0x10F]);
   (0x110, [0x111]); (0x112, [0x113]); (0x114, [0x115]); (0x116, [0x117]);
   (0x118, [0x119]); (0x11A, [0x11B]); (0x11C, [0x11D]); (0x11E, [0x11F]);
   (0x120, [0x121]); (0x122, [0x123]); (0x124, [0x125]); (0x126, [0x127]);
   (0x128, [0x129]); (0x12A, [0x12B]); (0x12C, [0x12D]); (0x12E, [0x12F]);
   (0x130, [0x69; 0x307]); (0x132, [0x133]); (0x134, [0x135]);
   (0x136, [0x137]); (0x139, [0x13A]); (0x13B, [0x13C]); (0x13D, [0x13E]);
   (0x13F, [0x140]); (0x141, [0x142]); (0x143, [0x144]); (0x145, [0x146]);
   (0x147, [0x148]); (0x14A, [0x14B]); (0x14C, [0x14D]); (0x14E, [0x14F]);
   (0x150, [0x151]); (0x152, [0x153]); (0x154, [0x155]); (0x156, [0x157]);
   (0x158, [0x159]); (0x15A, [0x15B]); (0x15C, [0x15D]); (0x15E, [0x15F]);
   (0x160, [0x161]); (0x162, [0x163]); (0x164, [0x165]); (0x166, [0x167]);
   (0x168, [0x169]); (0x16A, [0x16B]); (0x16C, [0x16D]); (0x16E, [0x16F]);
   (0x170, [0x171]); (0x172, [0x173]); (0x174, [0x175]); (0x176, [0x177]);
   (0x178, [0xFF]); (0x179, [0x17A]); (0x17B, [0x17C]); (0x17D, [0x17E]);
   (0x181, [0x253]); (0x182, [0x183]); (0x184, [0x185]); (0x186, [0x254]);
   (0x187, [0x188]); (0x189, [0x256]); (0x18A, [0x257]); (0x18B, [0x18C]);
   (0x18E, [0x1DD]); (0x18F, [0x259]); (0x190, [0x25B]); (0x191, [0x192]);
   (0x193, [0x260]); (0x194, [0x263]); (0x196, [0x269]); (0x197, [0x268]);
   (0x198, [0x199]); (0x19C, [0x26F]); (0x19D, [0x272]); (0x19F, [0x275]);
   (0x1A0, [0x1A1]); (0x1A2, [0x1A3]); (0x1A4, [0x1A5]); (0x1A6, [0x280]);
   (0x1A7, [0x1A8]); (0x1A9, [0x283]); (0x1AC, [0x1AD]); (0x1AE, [0x288]);
   (0x1AF, [0x1B0]); (0x1B1, [0x28A]); (0x1B2, [0x28B]); (0x1B3, [0x1B4]);
   (0x1B5, [0x1B6]); (0x1B7, [0x292]); (0x1B8, [0x1B9]); (0x1BC, [0x1BD]);
   (0x1C4, [0x1C6]); (0x1C5, [0x1C6]); (0x1C7, [0x1C9]); (0x1C8, [0x1C9]);
   (0x1CA, [0x1CC]); (0x1CB, [0x1CC]); (0x1CD, [0x1CE]); (0x1CF, [0x1D0]);
   (0x1D1, [0x1D2]); (0x1D3, [0x1D4]); (0x1D5, [0x1D6]); (0x1D7, [0x1D8]);
   (0x1D9, [0x1DA]); (0x1DB, [0x1DC]); (0x1DE, [0x1DF]); (0x1E0, [0x1E1]);
   (0x1E2, [0x1E3]); (0x1E4, [0x1E5]); (0x1E6, [0x1E7]); (0x1E8, [0x1E9]);
   (0x1EA, [0x1EB]); (0x1EC, [0x1ED]); (0x1EE, [0x1EF]); (0x1F1, [0x1F3]);
   (0x1F2, [0x1F3]); (0x1F4, [0x1F5]); (0x1F6, [0x195]); (0x1F7, [0x1BF]);
   (0x1F8, [0x1F9]); (0x1FA, [0x1FB]); (0x1FC, [0x1FD]); (0x1FE, [0x1FF]);
   (0x200, [0x201]); (0x202, [0x203]); (0x204, [0x205]); (0x206, [0x207]);
   (0x208, [0x209]); (0x20A, [0x20B]); (0x20C, [0x20D]); (0x20E, [0x20F]);
   (0x210, [0x211]); (0x212, [0x213]); (0x214, [0x215]); (0x216, [0x217]);
   (0x218, [0x219]); (0x21A, [0x21B]); (0x21C, [0x21D]); (0x21E, [0x21F]);
   (0x220, [0x19E]); (0x222, [0x223]); (0x224, [0x225]); (0x226, [0x227]);
   (0x228, [0x229]); (0x22A, [0x22B]); (0x22C, [0x22D]); (0x22E, [0x22F]);
   (0x230, [0x231]); (0x232, [0x233]); (0x23A, [0x2C65]); (0x23B, [0x23C]);
   (0x23D, [0x19A]); (0x23E, [0x2C66]); (0x241, [0x242]); (0x243, [0x180]);
   (0x244, [0x289]); (0x245, [0x28C]); (0x246, [0x247]); (0x248, [0x249]);
   (0x24A, [0x24B]); (0x24C, [0x24D]); (0x24E, [0x24F]); (0x370, [0x371]);
   (0x372, [0x373]); (0x376, [0x377]); (0x37F, [0x3F3]); (0x386, [0x3AC]);
   (0x388, [0x3AD]); (0x389, [0x3AE]); (0x38A, [0x3AF]); (0x38C, [0x3CC]);
   (0x38E, [0x3CD]); (0x38F, [0x3CE]); (0x391, [0x3B1]); (0x392, [0x3B2]);
   (0x393, [0x3B3]); (0x394, [0x3B4]); (0x395, [0x3B5]); (0x396, [0x3B6]);
   (0x397, [0x3B7]); (0x398, [0x3B8]); (0x399, [0x3B9]); (0x39A, [0x3BA]);
   (0x39B, [0x3BB]); (0x39C, [0x3BC]); (0x39D, [0x3BD]); (0x39E, [0x3BE]);
   (0x39F, [0x3BF]); (0x3A0, [0x3C0]); (0x3A1, [0x3C1]); (0x3A3, [0x3C3]);
   (0x3A4, [0x3C4]); (0x3A5, [0x3C5]); (0x3A6, [0x3C6]); (0x3A7, [0x3C7]);
   (0x3A8, [0x3C8]); (0x3A9, [0x3C9]); (0x3AA, [0x3CA]); (0x3AB, [0x3CB]);
   (0x3CF, [0x3D7]); (0x3D8, [0x3D9]); (0x3DA, [0x3DB]); (0x3DC, [0x3DD]);
   (0x3DE, [0x3DF]); (0x3E0, [0x3E1]); (0x3E2, [0x3E3]); (0x3E4, [0x3E5]);
   (0x3E6, [0x3E7]); (0x3E8, [0x3E9]); (0x3EA, [0x3EB]); (0x3EC, [0x3ED]);
   (0x3EE, [0x3EF]); (0x3F4, [0x3B8]); (0x3F7, [0x3F8]); (0x3F9, [0x3F2]);
   (0x3FA, [0x3FB]); (0x3FD, [0x37B]); (0x3FE, [0x37C]); (0x3FF, [0x37D]);
   (0x400, [0x450]); (0x401, [0x451]); (0x402, [0x452]); (0x403, [0x453]);
   (0x404, [0x454]); (0x405, [0x455]); (0x406, [0x456]); (0x407, [0x457]);
   (0x408, [0x458]); (0x409, [0x459]); (0x40A, [0x45A]); (0x40B, [0x45B]);
   (0x40C, [0x45C]); (0x40D, [0x45D]); (0x40E, [0x45E]); (0x40F, [0x45F]);
   (0x410, [0x430]); (0x411, [0x431]); (0x412, [0x432]); (0x413, [0x433]);
   (0x414, [0x434]); (0x415, [0x435]); (0x416, [0x436]); (0x417, [0x437]);
   (0x418, [0x438]); (0x419, [0x439]); (0x41A, [0x43A]); (0x41B, [0x43B]);
   (0x41C, [0x43C]); (0x41D, [0x43D]); (0x41E, [0x43E]); (0x41F, [0x43F]);
   (0x420, [0x440]); (0x421, [0x441]); (0x422, [0x442]); (0x423, [0x443]);
   (0x424, [0x444]); (0x425, [0x445]); (0x426, [0x446]); (0x427, [0x447]);
   (0x428, [0x448]); (0x429, [0x449]); (0x42A, [0x44A]); (0x42B, [0x44B]);
   (0x42C, [0x44C]); (0x42D, [0x44D]); (0x42E, [0x44E]); (0x42F, [0x44F]);
   (0x460, [0x461]); (0x462, [0x463]); (0x464, [0x465]); (0x466, [0x467]);
   (0x468, [0x469]); (0x46A, [0x46B]); (0x46C, [0x46D]); (0x46E, [0x46F]);
   (0x470, [0x471]); (0x472, [0x473]); (0x474, [0x475]); (0x476, [0x477]);
   (0x478, [0x479]); (0x47A, [0x47B]); (0x47C, [0x47D]); (0x47E, [0x47F]);
   (0x480, [0x481]); (0x48A, [0x48B]); (0x48C, [0x48D]); (0x48E, [0x48F]);
   (0x490, [0x491]); (0x492, [0x493]); (0x494, [0x495]); (0x496, [0x497]);
   (0x498, [0x499]); (0x49A, [0x49B]); (0x49C, [0x49D]); (0x49E, [0x49F]);
   (0x4A0, [0x4A1]); (0x4A2, [0x4A3]); (0x4A4, [0x4A5]); (0x4A6, [0x4A7]);
   (0x4A8, [0x4A9]); (0x4AA, [0x4AB]); (0x4AC, [0x4AD]); (0x4AE, [0x4AF]);
   (0x4B0, [0x4B1]); (0x4B2, [0x4B3]); (0x4B4, [0x4B5]); (0x4B6, [0x4B7]);
   (0x4B8, [0x4B9]); (0x4BA, [0x4BB]); (0x4BC, [0x4BD]); (0x4BE, [0x4BF]);
   (0x4C0, [0x4CF]); (0x4C1, [0x4C2]); (0x4C3, [0x4C4]); (0x4C5, [0x4C6]);
   (0x4C7, [0x4C8]); (0x4C9, [0x4CA]); (0x4CB, [0x4CC]); (0x4CD, [0x4CE]);
   (0x4D0, [0x4D1]); (0x4D2, [0x4D3]); (0x4D4, [0x4D5]); (0x4D6, [0x4D7]);
   (0x4D8, [0x4D9]); (0x4DA, [0x4DB]); (0x4DC, [0x4DD]); (0x4DE, [0x4DF]);
   (0x4E0, [0x4E1]); (0x4E2, [0x4E3]); (0x4E4, [0x4E5]); (0x4E6, [0x4E7]);
   (0x4E8, [0x4E9]); (0x4EA, [0x4EB]); (0x4EC, [0x4ED]); (0x4EE, [0x4EF]);
   (0x4F0, [0x4F1]); (0x4F2, [0x4F3]); (0x4F4, [0x4F5]); (0x4F6, [0x4F7]);
   (0x4F8, [0x4F9]); (0x4FA, [0x4FB]); (0x4FC, [0x4FD]); (0x4FE, [0x4FF]);
   (0x500, [0x501]); (0x502, [0x503]); (0x504, [0x505]); (0x506, [0x507]);
   (0x508, [0x509]); (0x50A, [0x50B]); (0x50C, [0x50D]); (0x50E, [0x50F]);
   (0x510, [0x511]); (0x512, [0x513]); (0x514, [0x515]); (0x516, [0x517]);
   (0x518, [0x519]); (0x51A, [0x51B]); (0x51C, [0x51D]); (0x51E, [0x51F]);
   (0x520, [0x521]); (0x522, [0x523]); (0x524, [0x525]); (0x526, [0x527]);
   (0x528, [0x529]); (0x52A, [0x52B]); (0x52C, [0x52D]); (0x52E, [0x52F]);
   (0x531, [0x561]); (0x532, [0x562]); (0x533, [0x563]); (0x534, [0x564]);
   (0x535, [0x565]); (0x536, [0x566]); (0x537, [0x567]); (0x538, [0x568]);
   (0x539, [0x569]); (0x53A, [0x56A]); (0x53B, [0x56B]); (0x53C, [0x56C]);
   (0x53D, [0x56D]); (0x53E, [0x56E]); (0x53F, [0x56F]); (0x540, [0x570]);
   (0x541, [0x571]); (0x542, [0x572]); (0x543, [0x573]); (0x544, [0x574]);
   (0x545, [0x575]); (0x546, [0x576]); (0x547, [0x577]); (0x548, [0x578]);
   (0x549, [0x579]); (0x54A, [0x57A]); (0x54B, [0x57B]); (0x54C, [0x57C]);
   (0x54D, [0x57D]); (0x54E, [0x57E]); (0x54F, [0x57F]); (0x550, [0x580]);
   (0x551, [0x581]); (0x552, [0x582]); (0x553, [0x583]); (0x554, [0x584]);
   (0x555, [0x585]); (0x556, [0x586]); (0x10A0, [0x2D00]); (0x10A1, [0x2D01]);
   (0x10A2, [0x2D02]); (0x10A3, [0x2D03]); (0x10A4, [0x2D04]);
   (0x10A5, [0x2D05]); (0x10A6, [0x2D06]); (0x10A7, [0x2D07]);
   (0x10A8, [0x2D08]); (0x10A9, [0x2D09]); (0x10AA, [0x2D0A]);
   (0x10AB, [0x2D0B]); (0x10AC, [0x2D0C]); (0x10AD, [0x2D0D]);
   (0x10AE, [0x2D0E]); (0x10AF, [0x2D0F]); (0x10B0, [0x2D10]);
   (0x10B1, [0x2D11]); (0x10B2, [0x2D12]); (0x10B3, [0x2D13]);
   (0x10B4, [0x2D14]); (0x10B5, [0x2D15]); (0x10B6, [0x2D16]);
   (0x10B7, [0x2D17]); (0x10B8, [0x2D18]); (0x10B9, [0x2D19]);
   (0x10BA, [0x2D1A]); (0x10BB, [0x2D1B]); (0x10BC, [0x2D1C]);
   (0x10BD, [0x2D1D]); (0x10BE, [0x2D1E]); (0x10BF, [0x2D1F]);
   (0x10C0, [0x2D20]); (0x10C1, [0x2D21]); (0x10C2, [0x2D22]);
   (0x10C3, [0x2D23]); (0x10C4, [0x2D24]); (0x10C5, [0x2D25]);
   (0x10C7, [0x2D27]); (0x10CD, [0x2D2D]); (0x13A0, [0xAB70]);
   (0x13A1, [0xAB71]); (0x13A2, [0xAB72]); (0x13A3, [0xAB73]);
   (0x13A4, [0xAB74]); (0x13A5, [0xAB75]); (0x13A6, [0xAB76]);
   (0x13A7, [0xAB77]); (0x13A8, [0xAB78]); (0x13A9, [0xAB79]);
   (0x13AA, [0xAB7A]); (0x13AB, [0xAB7B]); (0x13AC, [0xAB7C]);
   (0x13AD, [0xAB7D]); (0x13AE, [0xAB7E]); (0x13AF, [0xAB7F]);
   (0x13B0, [0xAB80]); (0x13B1, [0xAB81]); (0x13B2, [0xAB82]);
   (0x13B3, [0xAB83]); (0x13B4, [0xAB84]); (0x13B5, [0xAB85]);
   (0x13B6, [0xAB86]); (0x13B7, [0xAB87]); (0x13B8, [0xAB88]);
   (0x13B9, [0xAB89]); (0x13BA, [0xAB8A]); (0x13BB, [0xAB8B]);
   (0x13BC, [0xAB8C]); (0x13BD, [0xAB8D]); (0x13BE, [0xAB8E]);
   (0x13BF, [0xAB8F]); (0x13C0, [0xAB90]); (0x13C1, [0xAB91]);
   (0x13C2, [0xAB92]); (0x13C3, [0xAB93]); (0x13C4, [0xAB94]);
   (0x13C5, [0xAB95]); (0x13C6, [0xAB96]); (0x13C7, [0xAB97]);
   (0x13C8, [0xAB98]); (0x13C9, [0xAB99]); (0x13CA, [0xAB9A]);
   (0x13CB, [0xAB9B]); (0x13CC, [0xAB9C]); (0x13CD, [0xAB9D]);
   (0x13CE, [0xAB9E]); (0x13CF, [0xAB9F]); (0x13D0, [0xABA0]);
   (0x13D1, [0xABA1]); (0x13D2, [0xABA2]); (0x13D3, [0xABA3]);
   (0x13D4, [0xABA4]); (0x13D5, [0xABA5]); (0x13D6, [0xABA6]);
   (0x13D7, [0xABA7]); (0x13D8, [0xABA8]); (0x13D9, [0xABA9]);
   (0x13DA, [0xABAA]); (0x13DB, [0xABAB]); (0x13DC, [0xABAC]);
   (0x13DD, [0xABAD]); (0x13DE, [0xABAE]); (0x13DF, [0xABAF]);
   (0x13E0, [0xABB0]); (0x13E1, [0xABB1]); (0x13E2, [0xABB2]);
   (0x13E3, [0xABB3]); (0x13E4, [0xABB4]); (0x13E5, [0xABB5]);
   (0x13E6, [0xABB6]); (0x13E7, [0xABB7]); (0x13E8, [0xABB8]);
   (0x13E9, [0xABB9]); (0x13EA, [0xABBA]); (0x13EB, [0xABBB]);
   (0x13EC, [0xABBC]); (0x13ED, [0xABBD]); (0x13EE, [0xABBE]);
   (0x13EF, [0xABBF]); (0x13F0, [0x13F8]); (0x13F1, [0x13F9]);
   (0x13F2, [0x13FA]); (0x13F3, [0x13FB]); (0x13F4, [0x13FC]);
   (0x13F5, [0x13FD]); (0x1C90, [0x10D0]); (0x1C91, [0x10D1]);
   (0x1C92, [0x10D2]); (0x1C93, [0x10D3]); (0x1C94, [0x10D4]);
   (0x1C95, [0x10D5]); (0x1C96, [0x10D6]); (0x1C97, [0x10D7]);
   (0x1C98, [0x10D8]); (0x1C99, [0x10D9]); (0x1C9A, [0x10DA]);
   (0x1C9B, [0x10DB]); (0x1C9C, [0x10DC]); (0x1C9D, [0x10DD]);
   (0x1C9E, [0x10DE]); (0x1C9F, [0x10DF]); (0x1CA0, [0x10E0]);
   (0x1CA1, [0x10E1]); (0x1CA2, [0x10E2]); (0x1CA3, [0x10E3]);
   (0x1CA4, [0x10E4]); (0x1CA5, [0x10E5]); (0x1CA6, [0x10E6]);
   (0x1CA7, [0x10E7]); (0x1CA8, [0x10E8]); (0x1CA9, [0x10E9]);
   (0x1CAA, [0x10EA]); (0x1CAB, [0x10EB]); (0x1CAC, [0x10EC]);
   (0x1CAD, [0x10ED]); (0x1CAE, [0x10EE]); (0x1CAF, [0x10EF]);
   (0x1CB0, [0x10F0]); (0x1CB1, [0x10F1]); (0x1CB2, [0x10F2]);
   (0x1CB3, [0x10F3]); (0x1CB4, [0x10F4]); (0x1CB5, [0x10F5]);
   (0x1CB6, [0x10F6]); (0x1CB7, [0x10F7]); (0x1CB8, [0x10F8]);
   (0x1CB9, [0x10F9]); (0x1CBA, [0x10FA]); (0x1CBD, [0x10FD]);
   (0x1CBE, [0x10FE]); (0x1CBF, [0x10FF]); (0x1E00, [0x1E01]);
   (0x1E02, [0x1E03]); (0x1E04, [0x1E05]); (0x1E06, [0x1E07]);
   (0x1E08, [0x1E09]); (0x1E0A, [0x1E0B]); (0x1E0C, [0x1E0D]);
   (0x1E0E, [0x1E0F]); (0x1E10, [0x1E11]); (0x1E12, [0x1E13]);
   (0x1E14, [0x1E15]); (0x1E16, [0x1E17]); (0x1E18, [0x1E19]);
   (0x1E1A, [0x1E1B]); (0x1E1C, [0x1E1D]); (0x1E1E, [0x1E1F]);
   (0x1E20, [0x1E21]); (0x1E22, [0x1E23]); (0x1E24, [0x1E25]);
   (0x1E26, [0x1E27]); (0x1E28, [0x1E29]); (0x1E2A, [0x1E2B]);
   (0x1E2C, [0x1E2D]); (0x1E2E, [0x1E2F]); (0x1E30, [0x1E31]);
   (0x1E32, [0x1E33]); (0x1E34, [0x1E35]); (0x1E36, [0x1E37]);
   (0x1E38, [0x1E39]); (0x1E3A, [0x1E3B]); (0x1E3C, [0x1E3D]);
   (0x1E3E, [0x1E3F]); (0x1E40, [0x1E41]); (0x1E42, [0x1E43]);
   (0x1E44, [0x1E45]); (0x1E46, [0x1E47]); (0x1E48, [0x1E49]);
   (0x1E4A, [0x1E4B]); (0x1E4C, [0x1E4D]); (0x1E4E, [0x1E4F]);
   (0x1E50, [0x1E51]); (0x1E52, [0x1E53]); (0x1E54, [0x1E55]);
   (0x1E56, [0x1E57]); (0x1E58, [0x1E59]); (0x1E5A, [0x1E5B]);
   (0x1E5C, [0x1E5D]); (0x1E5E, [0x1E5F]); (0x1E60, [0x1E61]);
   (0x1E62, [0x1E63]); (0x1E64, [0x1E65]); (0x1E66, [0x1E67]);
   (0x1E68, [0x1E69]); (0x1E6A, [0x1E6B]); (0x1E6C, [0x1E6D]);
   (0x1E6E, [0x1E6F]); (0x1E70, [0x1E71]); (0x1E72, [0x1E73]);
   (0x1E74, [0x1E75]); (0x1E76, [0x1E77]); (0x1E78, [0x1E79]);
   (0x1E7A, [0x1E7B]); (0x1E7C, [0x1E7D]); (0x1E7E, [0x1E7F]);
   (0x1E80, [0x1E81]); (0x1E82, [0x1E83]); (0x1E84, [0x1E85]);
   (0x1E86, [0x1E87]); (0x1E88, [0x1E89]); (0x1E8A, [0x1E8B]);
   (0x1E8C, [0x1E8D]); (0x1E8E, [0x1E8F]); (0x1E90, [0x1E91]);
   (0x1E92, [0x1E93]); (0x1E94, [0x1E95]); (0x1E9E, [0xDF]);
   (0x1EA0, [0x1EA1]); (0x1EA2, [0x1EA3]); (0x1EA4, [0x1EA5]);
   (0x1EA6, [0x1EA7]); (0x1EA8, [0x1EA9]); (0x1EAA, [0x1EAB]);
   (0x1EAC, [0x1EAD]); (0x1EAE, [0x1EAF]); (0x1EB0, [0x1EB1]);
   (0x1EB2, [0x1EB3]); (0x1EB4, [0x1EB5]); (0x1EB6, [0x1EB7]);
   (0x1EB8, [0x1EB9]); (0x1EBA, [0x1EBB]); (0x1EBC, [0x1EBD]);
   (0x1EBE, [0x1EBF]); (0x1EC0, [0x1EC1]); (0x1EC2, [0x1EC3]);
   (0x1EC4, [0x1EC5]); (0x1EC6, [0x1EC7]); (0x1EC8, [0x1EC9]);
   (0x1ECA, [0x1ECB]); (0x1ECC, [0x1ECD]); (0x1ECE, [0x1ECF]);
   (0x1ED0, [0x1ED1]); (0x1ED2, [0x1ED3]); (0x1ED4, [0x1ED5]);
   (0x1ED6, [0x1ED7]); (0x1ED8, [0x1ED9]); (0x1EDA, [0x1EDB]);
   (0x1EDC, [0x1EDD]); (0x1EDE, [0x1EDF]); (0x1EE0, [0x1EE1]);
   (0x1EE2, [0x1EE3]); (0x1EE4, [0x1EE5]); (0x1EE6, [0x1EE7]);
   (0x1EE8, [0x1EE9]); (0x1EEA, [0x1EEB]); (0x1EEC, [0x1EED]);
   (0x1EEE, [0x1EEF]); (0x1EF0, [0x1EF1]); (0x1EF2, [0x1EF3]);
   (0x1EF4, [0x1EF5]); (0x1EF6, [0x1EF7]); (0x1EF8, [0x1EF9]);
   (0x1EFA, [0x1EFB]); (0x1EFC, [0x1EFD]); (0x1EFE, [0x1EFF]);
   (0x1F08, [0x1F00]); (0x1F09, [0x1F01]); (0x1F0A, [0x1F02]);
   (0x1F0B, [0x1F03]); (0x1F0C, [0x1F04]); (0x1F0D, [0x1F05]);
   (0x1F0E, [0x1F06]); (0x1F0F, [0x1F07]); (0x1F18, [0x1F10]);
   (0x1F19, [0x1F11]); (0x1F1A, [0x1F12]); (0x1F1B, [0x1F13]);
   (0x1F1C, [0x1F14]); (0x1F1D, [0x1F15]); (0x1F28, [0x1F20]);
   (0x1F29, [0x1F21]); (0x1F2A, [0x1F22]); (0x1F2B, [0x1F23]);
   (0x1F2C, [0x1F24]); (0x1F2D, [0x1F25]); (0x1F2E, [0x1F26]);
   (0x1F2F, [0x1F27]); (0x1F38, [0x1F30]); (0x1F39, [0x1F31]);
   (0x1F3A, [0x1F32]); (0x1F3B, [0x1F33]); (0x1F3C, [0x1F34]);
   (0x1F3D, [0x1F35]); (0x1F3E, [0x1F36]); (0x1F3F, [0x1F37]);
   (0x1F48, [0x1F40]); (0x1F49, [0x1F41]); (0x1F4A, [0x1F42]);
   (0x1F4B, [0x1F43]); (0x1F4C, [0x1F44]); (0x1F4D, [0x1F45]);
   (0x1F59, [0x1F51]); (0x1F5B, [0x1F53]); (0x1F5D, [0x1F55]);
   (0x1F5F, [0x1F57]); (0x1F68, [0x1F60]); (0x1F69, [0x1F61]);
   (0x1F6A, [0x1F62]); (0x1F6B, [0x1F63]); (0x1F6C, [0x1F64]);
   (0x1F6D, [0x1F65]); (0x1F6E, [0x1F66]); (0x1F6F, [0x1F67]);
   (0x1F88, [0x1F80]); (0x1F89, [0x1F81]); (0x1F8A, [0x1F82]);
   (0x1F8B, [0x1F83]); (0x1F8C, [0x1F84]); (0x1F8D, [0x1F85]);
   (0x1F8E, [0x1F86]); (0x1F8F, [0x1F87]); (0x1F98, [0x1F90]);
   (0x1F99, [0x1F91]); (0x1F9A, [0x1F92]); (0x1F9B, [0x1F93]);
   (0x1F9C, [0x1F94]); (0x1F9D, [0x1F95]); (0x1F9E, [0x1F96]);
   (0x1F9F, [0x1F97]); (0x1FA8, [0x1FA0]); (0x1FA9, [0x1FA1]);
   (0x1FAA, [0x1FA2]); (0x1FAB, [0x1FA3]); (0x1FAC, [0x1FA4]);
   (0x1FAD, [0x1FA5]); (0x1FAE, [0x1FA6]); (0x1FAF, [0x1FA7]);
   (0x1FB8, [0x1FB0]); (0x1FB9, [0x1FB1]); (0x1FBA, [0x1F70]);
   (0x1FBB, [0x1F71]); (0x1FBC, [0x1FB3]); (0x1FC8, [0x1F72]);
   (0x1FC9, [0x1F73]); (0x1FCA, [0x1F74]); (0x1FCB, [0x1F75]);
   (0x1FCC, [0x1FC3]); (0x1FD8, [0x1FD0]); (0x1FD9, [0x1FD1]);
   (0x1FDA, [0x1F76]); (0x1FDB, [0x1F77]); (0x1FE8, [0x1FE0]);
   (0x1FE9, [0x1FE1]); (0x1FEA, [0x1F7A]); (0x1FEB, [0x1F7B]);
   (0x1FEC, [0x1FE5]); (0x1FF8, [0x1F78]); (0x1FF9, [0x1F79]);
   (0x1FFA, [0x1F7C]); (0x1FFB, [0x1F7D]); (0x1FFC, [0x1FF3]);
   (0x2126, [0x3C9]); (0x212A, [0x6B]); (0x212B, [0xE5]); (0x2132, [0x214E]);
   (0x2160, [0x2170]); (0x2161, [0x2171]); (0x2162, [0x2172]);
   (0x2163, [0x2173]); (0x2164, [0x2174]); (0x2165, [0x2175]);
   (0x2166, [0x2176]); (0x2167, [0x2177]); (0x2168, [0x2178]);
   (0x2169, [0x2179]); (0x216A, [0x217A]); (0x216B, [0x217B]);
   (0x216C, [0x217C]); (0x216D, [0x217D]); (0x216E, [0x217E]);
   (0x216F, [0x217F]); (0x2183, [0x2184]); (0x24B6, [0x24D0]);
   (0x24B7, [0x24D1]); (0x24B8, [0x24D2]); (0x24B9, [0x24D3]);
   (0x24BA, [0x24D4]); (0x24BB, [0x24D5]); (0x24BC, [0x24D6]);
   (0x24BD, [0x24D7]); (0x24BE, [0x24D8]); (0x24BF, [0x24D9]);
   (0x24C0, [0x24DA]); (0x24C1, [0x24DB]); (0x24C2, [0x24DC]);
   (0x24C3, [0x24DD]); (0x24C4, [0x24DE]); (0x24C5, [0x24DF]);
   (0x24C6, [0x24E0]); (0x24C7, [0x24E1]); (0x24C8, [0x24E2]);
   (0x24C9, [0x24E3]); (0x24CA, [0x24E4]); (0x24CB, [0x24E5]);
   (0x24CC, [0x24E6]); (0x24CD, [0x24E7]); (0x24CE, [0x24E8]);
   (0x24CF, [0x24E9]); (0x2C00, [0x2C30]); (0x2C01, [0x2C31]);
   (0x2C02, [0x2C32]); (0x2C03, [0x2C33]); (0x2C04, [0x2C34]);
   (0x2C05, [0x2C35]); (0x2C06, [0x2C36]); (0x2C07, [0x2C37]);
   (0x2C08, [0x2C38]); (0x2C09, [0x2C39]); (0x2C0A, [0x2C3A]);
   (0x2C0B, [0x2C3B]); (0x2C0C, [0x2C3C]); (0x2C0D, [0x2C3D]);
   (0x2C0E, [0x2C3E]); (0x2C0F, [0x2C3F]); (0x2C10, [0x2C40]);
   (0x2C11, [0x2C41]); (0x2C12, [0x2C42]); (0x2C13, [0x2C43]);
   (0x2C14, [0x2C44]); (0x2C15, [0x2C45]); (0x2C16, [0x2C46]);
   (0x2C17, [0x2C47]); (0x2C18, [0x2C48]); (0x2C19, [0x2C49]);
   (0x2C1A, [0x2C4A]); (0x2C1B, [0x2C4B]); (0x2C1C, [0x2C4C]);
   (0x2C1D, [0x2C4D]); (0x2C1E, [0x2C4E]); (0x2C1F, [0x2C4F]);
   (0x2C20, [0x2C50]); (0x2C21, [0x2C51]); (0x2C22, [0x2C52]);
   (0x2C23, [0x2C53]); (0x2C24, [0x2C54]); (0x2C25, [0x2C55]);
   (0x2C26, [0x2C56]); (0x2C27, [0x2C57]); (0x2C28, [0x2C58]);
   (0x2C29, [0x2C59]); (0x2C2A, [0x2C5A]); (0x2C2B, [0x2C5B]);
   (0x2C2C, [0x2C5C]); (0x2C2D, [0x2C5D]); (0x2C2E, [0x2C5E]);
   (0x2C2F, [0x2C5F]); (0x2C60, [0x2C61]); (0x2C62, [0x26B]);
   (0x2C63, [0x1D7D]); (0x2C64, [0x27D]); (0x2C67, [0x2C68]);
   (0x2C69, [0x2C6A]); (0x2C6B, [0x2C6C]); (0x2C6D, [0x251]);
   (0x2C6E, [0x271]); (0x2C6F, [0x250]); (0x2C70, [0x252]);
   (0x2C72, [0x2C73]); (0x2C75, [0x2C76]); (0x2C7E, [0x23F]);
   (0x2C7F, [0x240]); (0x2C80, [0x2C81]); (0x2C82, [0x2C83]);
   (0x2C84, [0x2C85]); (0x2C86, [0x2C87]); (0x2C88, [0x2C89]);
   (0x2C8A, [0x2C8B]); (0x2C8C, [0x2C8D]); (0x2C8E, [0x2C8F]);
   (0x2C90, [0x2C91]); (0x2C92, [0x2C93]); (0x2C94, [0x2C95]);
   (0x2C96, [0x2C97]); (0x2C98, [0x2C99]); (0x2C9A, [0x2C9B]);
   (0x2C9C, [0x2C9D]); (0x2C9E, [0x2C9F]); (0x2CA0, [0x2CA1]);
   (0x2CA2, [0x2CA3]); (0x2CA4, [0x2CA5]); (0x2CA6, [0x2CA7]);
   (0x2CA8, [0x2CA9]); (0x2CAA, [0x2CAB]); (0x2CAC, [0x2CAD]);
   (0x2CAE, [0x2CAF]); (0x2CB0, [0x2CB1]); (0x2CB2, [0x2CB3]);
   (0x2CB4, [0x2CB5]); (0x2CB6, [0x2CB7]); (0x2CB8, [0x2CB9]);
   (0x2CBA, [0x2CBB]); (0x2CBC, [0x2CBD]); (0x2CBE, [0x2CBF]);
   (0x2CC0, [0x2CC1]); (0x2CC2, [0x2CC3]); (0x2CC4, [0x2CC5]);
   (0x2CC6, [0x2CC7]); (0x2CC8, [0x2CC9]); (0x2CCA, [0x2CCB]);
   (0x2CCC, [0x2CCD]); (0x2CCE, [0x2CCF]); (0x2CD0, [0x2CD1]);
   (0x2CD2, [0x2CD3]); (0x2CD4, [0x2CD5]); (0x2CD6, [0x2CD7]);
   (0x2CD8, [0x2CD9]); (0x2CDA, [0x2CDB]); (0x2CDC, [0x2CDD]);
   (0x2CDE, [0x2CDF]); (0x2CE0, [0x2CE1]); (0x2CE2, [0x2CE3]);
   (0x2CEB, [0x2CEC]); (0x2CED, [0x2CEE]); (0x2CF2, [0x2CF3]);
   (0xA640, [0xA641]); (0xA642, [0xA643]); (0xA644, [0xA645]);
   (0xA646, [0xA647]); (0xA648, [0xA649]); (0xA64A, [0xA64B]);
   (0xA64C, [0xA64D]); (0xA64E, [0xA64F]); (0xA650, [0xA651]);
   (0xA652, [0xA653]); (0xA654, [0xA655]); (0xA656, [0xA657]);
   (0xA658, [0xA659]); (0xA65A, [0xA65B]); (0xA65C, [0xA65D]);
   (0xA65E, [0xA65F]); (0xA660, [0xA661]); (0xA662, [0xA663]);
   (0xA664, [0xA665]); (0xA666, [0xA667]); (0xA668, [0xA669]);
   (0xA66A, [0xA66B]); (0xA66C, [0xA66D]); (0xA680, [0xA681]);
   (0xA682, [0xA683]); (0xA684, [0xA685]); (0xA686, [0xA687]);
   (0xA688, [0xA689]); (0xA68A, [0xA68B]); (0xA68C, [0xA68D]);
   (0xA68E, [0xA68F]); (0xA690, [0xA691]); (0xA692, [0xA693]);
   (0xA694, [0xA695]); (0xA696, [0xA697]); (0xA698, [0xA699]);
   (0xA69A, [0xA69B]); (0xA722, [0xA723]); (0xA724, [0xA725]);
   (0xA726, [0xA727]); (0xA728, [0xA729]); (0xA72A, [0xA72B]);
   (0xA72C, [0xA72D]); (0xA72E, [0xA72F]); (0xA732, [0xA733]);
   (0xA734, [0xA735]); (0xA736, [0xA737]); (0xA738, [0xA739]);
   (0xA73A, [0xA73B]); (0xA73C, [0xA73D]); (0xA73E, [0xA73F]);
   (0xA740, [0xA741]); (0xA742, [0xA743]); (0xA744, [0xA745]);
   (0xA746, [0xA747]); (0xA748, [0xA749]); (0xA74A, [0xA74B]);
   (0xA74C, [0xA74D]); (0xA74E, [0xA74F]); (0xA750, [0xA751]);
   (0xA752, [0xA753]); (0xA754, [0xA755]); (0xA756, [0xA757]);
   (0xA758, [0xA759]); (0xA75A, [0xA75B]); (0xA75C, [0xA75D]);
   (0xA75E, [0xA75F]); (0xA760, [0xA761]); (0xA762, [0xA763]);
   (0xA764, [0xA765]); (0xA766, [0xA767]); (0xA768, [0xA769]);
   (0xA76A, [0xA76B]); (0xA76C, [0xA76D]); (0xA76E, [0xA76F]);
   (0xA779, [0xA77A]); (0xA77B, [0xA77C]); (0xA77D, [0x1D79]);
   (0xA77E, [0xA77F]); (0xA780, [0xA781]); (0xA782, [0xA783]);
   (0xA784, [0xA785]); (0xA786, [0xA787]); (0xA78B, [0xA78C]);
   (0xA78D, [0x265]); (0xA790, [0xA791]); (0xA792, [0xA793]);
   (0xA796, [0xA797]); (0xA798, [0xA799]); (0xA79A, [0xA79B]);
   (0xA79C, [0xA79D]); (0xA79E, [0xA79F]); (0xA7A0, [0xA7A1]);
   (0xA7A2, [0xA7A3]); (0xA7A4, [0xA7A5]); (0xA7A6, [0xA7A7]);
   (0xA7A8, [0xA7A9]); (0xA7AA, [0x266]); (0xA7AB, [0x25C]);
   (0xA7AC, [0x261]); (0xA7AD, [0x26C]); (0xA7AE, [0x26A]); (0xA7B0, [0x29E]);
   (0xA7B1, [0x287]); (0xA7B2, [0x29D]); (0xA7B3, [0xAB53]);
   (0xA7B4, [0xA7B5]); (0xA7B6, [0xA7B7]); (0xA7B8, [0xA7B9]);
   (0xA7BA, [0xA7BB]); (0xA7BC, [0xA7BD]); (0xA7BE, [0xA7BF]);
   (0xA7C0, [0xA7C1]); (0xA7C2, [0xA7C3]); (0xA7C4, [0xA794]);
   (0xA7C5, [0x282]); (0xA7C6, [0x1D8E]); (0xA7C7, [0xA7C8]);
   (0xA7C9, [0xA7CA]); (0xA7D0, [0xA7D1]); (0xA7D6, [0xA7D7]);
   (0xA7D8, [0xA7D9]); (0xA7F5, [0xA7F6]); (0xFF21, [0xFF41]);
   (0xFF22, [0xFF42]); (0xFF23, [0xFF43]); (0xFF24, [0xFF44]);
   (0xFF25, [0xFF45]); (0xFF26, [0xFF46]); (0xFF27, [0xFF47]);
   (0xFF28, [0xFF48]); (0xFF29, [0xFF49]); (0xFF2A, [0xFF4A]);
   (0xFF2B, [0xFF4B]); (0xFF2C, [0xFF4C]); (0xFF2D, [0xFF4D]);
   (0xFF2E, [0xFF4E]); (0xFF2F, [0xFF4F]); (0xFF30, [0xFF50]);
   (0xFF31, [0xFF51]); (0xFF32, [0xFF52]); (0xFF33, [0xFF53]);
   (0xFF34, [0xFF54]); (0xFF35, [0xFF55]); (0xFF36, [0xFF56]);
   (0xFF37, [0xFF57]); (0xFF38, [0xFF58]); (0xFF39, [0xFF59]);
   (0xFF3A, [0xFF5A]); (0x10400, [0x10428]); (0x10401, [0x10429]);
   (0x10402, [0x1042A]); (0x10403, [0x1042B]); (0x10404, [0x1042C]);
   (0x10405, [0x1042D]); (0x10406, [0x1042E]); (0x10407, [0x1042F]);
   (0x10408, [0x10430]); (0x10409, [0x10431]); (0x1040A, [0x10432]);
   (0x1040B, [0x10433]); (0x1040C, [0x10434]); (0x1040D, [0x10435]);
   (0x1040E, [0x10436]); (0x1040F, [0x10437]); (0x10410, [0x10438]);
   (0x10411, [0x10439]); (0x10412, [0x1043A]); (0x10413, [0x1043B]);
   (0x10414, [0x1043C]); (0x10415, [0x1043D]); (0x10416, [0x1043E]);
   (0x10417, [0x1043F]); (0x10418, [0x10440]); (0x10419, [0x10441]);
   (0x1041A, [0x10442]); (0x1041B, [0x10443]); (0x1041C, [0x10444]);
   (0x1041D, [0x10445]); (0x1041E, [0x10446]); (0x1041F, [0x10447]);
   (0x10420, [0x10448]); (0x10421, [0x10449]); (0x10422, [0x1044A]);
   (0x10423, [0x1044B]); (0x10424, [0x1044C]); (0x10425, [0x1044D]);
   (0x10426, [0x1044E]); (0x10427, [0x1044F]); (0x104B0, [0x104D8]);
   (0x104B1, [0x104D9]); (0x104B2, [0x104DA]); (0x104B3, [0x104DB]);
   (0x104B4, [0x104DC]); (0x104B5, [0x104DD]); (0x104B6, [0x104DE]);
   (0x104B7, [0x104DF]); (0x104B8, [0x104E0]); (0x104B9, [0x104E1]);
   (0x104BA, [0x104E2]); (0x104BB, [0x104E3]); (0x104BC, [0x104E4]);
   (0x104BD, [0x104E5]); (0x104BE, [0x104E6]); (0x104BF, [0x104E7]);
   (0x104C0, [0x104E8]); (0x104C1, [0x104E9]); (0x104C2, [0x104EA]);
   (0x104C3, [0x104EB]); (0x104C4, [0x104EC]); (0x104C5, [0x104ED]);
   (0x104C6, [0x104EE]); (0x104C7, [0x104EF]); (0x104C8, [0x104F0]);
   (0x104C9, [0x104F1]); (0x104CA, [0x104F2]); (0x104CB, [0x104F3]);
   (0x104CC, [0x104F4]); (0x104CD, [0x104F5]); (0x104CE, [0x104F6]);
   (0x104CF, [0x104F7]); (0x104D0, [0x104F8]); (0x104D1, [0x104F9]);
   (0x104D2, [0x104FA]); (0x104D3, [0x104FB]); (0x10570, [0x10597]);
   (0x10571, [0x10598]); (0x10572, [0x10599]); (0x10573, [0x1059A]);
   (0x10574, [0x1059B]); (0x10575, [0x1059C]); (0x10576, [0x1059D]);
   (0x10577, [0x1059E]); (0x10578, [0x1059F]); (0x10579, [0x105A0]);
   (0x1057A, [0x105A1]); (0x1057C, [0x105A3]); (0x1057D, [0x105A4]);
   (0x1057E, [0x105A5]); (0x1057F, [0x105A6]); (0x10580, [0x105A7]);
   (0x10581, [0x105A8]); (0x10582, [0x105A9]); (0x10583, [0x105AA]);
   (0x10584, [0x105AB]); (0x10585, [0x105AC]); (0x10586, [0x105AD]);
   (0x10587, [0x105AE]); (0x10588, [0x105AF]); (0x10589, [0x105B0]);
   (0x1058A, [0x105B1]); (0x1058C, [0x105B3]); (0x1058D, [0x105B4]);
   (0x1058E, [0x105B5]); (0x1058F, [0x105B6]); (0x10590, [0x105B7]);
   (0x10591, [0x105B8]); (0x10592, [0x105B9]); (0x10594, [0x105BB]);
   (0x10595, [0x105BC]); (0x10C80, [0x10CC0]); (0x10C81, [0x10CC1]);
   (0x10C82, [0x10CC2]); (0x10C83, [0x10CC3]); (0x10C84, [0x10CC4]);
   (0x10C85, [0x10CC5]); (0x10C86, [0x10CC6]); (0x10C87, [0x10CC7]);
   (0x10C88, [0x10CC8]); (0x10C89, [0x10CC9]); (0x10C8A, [0x10CCA]);
   (0x10C8B, [0x10CCB]); (0x10C8C, [0x10CCC]); (0x10C8D, [0x10CCD]);
   (0x10C8E, [0x10CCE]); (0x10C8F, [0x10CCF]); (0x10C90, [0x10CD0]);
   (0x10C91, [0x10CD1]); (0x10C92, [0x10CD2]); (0x10C93, [0x10CD3]);
   (0x10C94, [0x10CD4]); (0x10C95, [0x10CD5]); (0x10C96, [0x10CD6]);
   (0x10C97, [0x10CD7]); (0x10C98, [0x10CD8]); (0x10C99, [0x10CD9]);
   (0x10C9A, [0x10CDA]); (0x10C9B, [0x10CDB]); (0x10C9C, [0x10CDC]);
   (0x10C9D, [0x10CDD]); (0x10C9E, [0x10CDE]); (0x10C9F, [0x10CDF]);
   (0x10CA0, [0x10CE0]); (0x10CA1, [0x10CE1]); (0x10CA2, [0x10CE2]);
   (0x10CA3, [0x10CE3]); (0x10CA4, [0x10CE4]); (0x10CA5, [0x10CE5]);
   (0x10CA6, [0x10CE6]); (0x10CA7, [0x10CE7]); (0x10CA8, [0x10CE8]);
   (0x10CA9, [0x10CE9]); (0x10CAA, [0x10CEA]); (0x10CAB, [0x10CEB]);
   (0x10CAC, [0x10CEC]); (0x10CAD, [0x10CED]); (0x10CAE, [0x10CEE]);
   (0x10CAF, [0x10CEF]); (0x10CB0, [0x10CF0]); (0x10CB1, [0x10CF1]);
   (0x10CB2, [0x10CF2]); (0x118A0, [0x118C0]); (0x118A1, [0x118C1]);
   (0x118A2, [0x118C2]); (0x118A3, [0x118C3]); (0x118A4, [0x118C4]);
   (0x118A5, [0x118C5]); (0x118A6, [0x118C6]); (0x118A7, [0x118C7]);
   (0x118A8, [0x118C8]); (0x118A9, [0x118C9]); (0x118AA, [0x118CA]);
   (0x118AB, [0x118CB]); (0x118AC, [0x118CC]); (0x118AD, [0x118CD]);
   (0x118AE, [0x118CE]); (0x118AF, [0x118CF]); (0x118B0, [0x118D0]);
   (0x118B1, [0x118D1]); (0x118B2, [0x118D2]); (0x118B3, [0x118D3]);
   (0x118B4, [0x118D4]); (0x118B5, [0x118D5]); (0x118B6, [0x118D6]);
   (0x118B7, [0x118D7]); (0x118B8, [0x118D8]); (0x118B9, [0x118D9]);
   (0x118BA, [0x118DA]); (0x118BB, [0x118DB]); (0x118BC, [0x118DC]);
   (0x118BD, [0x118DD]); (0x118BE, [0x118DE]); (0x118BF, [0x118DF]);
   (0x16E40, [0x16E60]); (0x16E41, [0x16E61]); (0x16E42, [0x16E62]);
   (0x16E43, [0x16E63]); (0x16E44, [0x16E64]); (0x16E45, [0x16E65]);
   (0x16E46, [0x16E66]); (0x16E47, [0x16E67]); (0x16E48, [0x16E68]);
   (0x16E49, [0x16E69]); (0x16E4A, [0x16E6A]); (0x16E4B, [0x16E6B]);
   (0x16E4C, [0x16E6C]); (0x16E4D, [0x16E6D]); (0x16E4E, [0x16E6E]);
   (0x16E4F, [0x16E6F]); (0x16E50, [0x16E70]); (0x16E51, [0x16E71]);
   (0x16E52, [0x16E72]); (0x16E53, [0x16E73]); (0x16E54, [0x16E74]);
   (0x16E55, [0x16E75]); (0x16E56, [0x16E76]); (0x16E57, [0x16E77]);
   (0x16E58, [0x16E78]); (0x16E59, [0x16E79]); (0x16E5A, [0x16E7A]);
   (0x16E5B, [0x16E7B]); (0x16E5C, [0x16E7C]); (0x16E5D, [0x16E7D]);
   (0x16E5E, [0x16E7E]); (0x16E5F, [0x16E7F]); (0x1E900, [0x1E922]);
   (0x1E901, [0x1E923]); (0x1E902, [0x1E924]); (0x1E903, [0x1E925]);
   (0x1E904, [0x1E926]); (0x1E905, [0x1E927]); (0x1E906, [0x1E928]);
   (0x1E907, [0x1E929]); (0x1E908, [0x1E92A]); (0x1E909, [0x1E92B]);
   (0x1E90A, [0x1E92C]); (0x1E90B, [0x1E92D]); (0x1E90C, [0x1E92E]);
   (0x1E90D, [0x1E92F]); (0x1E90E, [0x1E930]); (0x1E90F, [0x1E931]);
   (0x1E910, [0x1E932]); (0x1E911, [0x1E933]); (0x1E912, [0x1E934]);
   (0x1E913, [0x1E935]); (0x1E914, [0x1E936]); (0x1E915, [0x1E937]);
   (0x1E916, [0x1E938]); (0x1E917, [0x1E939]); (0x1E918, [0x1E93A]);
   (0x1E919, [0x1E93B]); (0x1E91A, [0x1E93C]); (0x1E91B, [0x1E93D]);
   (0x1E91C, [0x1E93E]); (0x1E91D, [0x1E93F]); (0x1E91E, [0x1E940]);
   (0x1E91F, [0x1E941]); (0x1E920, [0x1E942]); (0x1E921, [0x1E943])].

(** The code points with the property Cased, as ranges. *)
Definition CASED : list (N * N) :=
  [ (0x41, 0x5A); (0x61, 0x7A); (0xAA, 0xAA); (0xB5, 0xB5); (0xBA, 0xBA);
   (0xC0, 0xD6); (0xD8, 0xF6); (0xF8, 0x1BA); (0x1BC, 0x1BF); (0x1C4, 0x293);
   (0x295, 0x2B8); (0x2C0, 0x2C1); (0x2E0, 0x2E4); (0x345, 0x345);
   (0x370, 0x373); (0x376, 0x377); (0x37A, 0x37D); (0x37F, 0x37F);
   (0x386, 0x386); (0x388, 0x38A); (0x38C, 0x38C); (0x38E, 0x3A1);
   (0x3A3, 0x3F5); (0x3F7, 0x481); (0x48A, 0x52F); (0x531, 0x556);
   (0x560, 0x588); (0x10A0, 0x10C5); (0x10C7, 0x10C7); (0x10CD, 0x10CD);
   (0x10D0, 0x10FA); (0x10FD, 0x10FF); (0x13A0, 0x13F5); (0x13F8, 0x13FD);
   (0x1C80, 0x1C88); (0x1C90, 0x1CBA); (0x1CBD, 0x1CBF); (0x1D00, 0x1DBF);
   (0x1E00, 0x1F15); (0x1F18, 0x1F1D); (0x1F20, 0x1F45); (0x1F48, 0x1F4D);
   (0x1F50, 0x1F57); (0x1F59, 0x1F59); (0x1F5B, 0x1F5B); (0x1F5D, 0x1F5D);
   (0x1F5F, 0x1F7D); (0x1F80, 0x1FB4); (0x1FB6, 0x1FBC); (0x1FBE, 0x1FBE);
   (0x1FC2, 0x1FC4); (0x1FC6, 0x1FCC); (0x1FD0, 0x1FD3); (0x1FD6, 0x1FDB);
   (0x1FE0, 0x1FEC); (0x1FF2, 0x1FF4); (0x1FF6, 0x1FFC); (0x2071, 0x2071);
   (0x207F, 0x207F); (0x2090, 0x209C); (0x2102, 0x2102); (0x2107, 0x2107);
   (0x210A, 0x2113); (0x2115, 0x2115); (0x2119, 0x211D); (0x2124, 0x2124);
   (0x2126, 0x2126); (0x2128, 0x2128); (0x212A, 0x212D); (0x212F, 0x2134);
   (0x2139, 0x2139); (0x213C, 0x213F); (0x2145, 0x2149); (0x214E, 0x214E);
   (0x2160, 0x217F); (0x2183, 0x2184); (0x24B6, 0x24E9); (0x2C00, 0x2CE4);
   (0x2CEB, 0x2CEE); (0x2CF2, 0x2CF3); (0x2D00, 0x2D25); (0x2D27, 0x2D27);
   (0x2D2D, 0x2D2D); (0xA640, 0xA66D); (0xA680, 0xA69D); (0xA722, 0xA787);
   (0xA78B, 0xA78E); (0xA790, 0xA7CA); (0xA7D0, 0xA7D1); (0xA7D3, 0xA7D3);
   (0xA7D5, 0xA7D9); (0xA7F5, 0xA7F6); (0xA7F8, 0xA7FA); (0xAB30, 0xAB5A);
   (0xAB5C, 0xAB68); (0xAB70, 0xABBF); (0xFB00, 0xFB06); (0xFB13, 0xFB17);
   (0xFF21, 0xFF3A); (0xFF41, 0xFF5A); (0x10400, 0x1044F); (0x104B0, 0x104D3);
   (0x104D8, 0x104FB); (0x10570, 0x1057A); (0x1057C, 0x1058A);
   (0x1058C, 0x10592); (0x10594, 0x10595); (0x10597, 0x105A1);
   (0x105A3, 0x105B1); (0x105B3, 0x105B9); (0x105BB, 0x105BC);
   (0x10780, 0x10780); (0x10783, 0x10785); (0x10787, 0x107B0);
   (0x107B2, 0x107BA); (0x10C80, 0x10CB2); (0x10CC0, 0x10CF2);
   (0x118A0, 0x118DF); (0x16E40, 0x16E7F); (0x1D400, 0x1D454);
   (0x1D456, 0x1D49C); (0x1D49E, 0x1D49F); (0x1D4A2, 0x1D4A2);
   (0x1D4A5, 0x1D4A6); (0x1D4A9, 0x1D4AC); (0x1D4AE, 0x1D4B9);
   (0x1D4BB, 0x1D4BB); (0x1D4BD, 0x1D4C3); (0x1D4C5, 0x1D505);
   (0x1D507, 0x1D50A); (0x1D50D, 0x1D514); (0x1D516, 0x1D51C);
   (0x1D51E, 0x1D539); (0x1D53B, 0x1D53E); (0x1D540, 0x1D544);
   (0x1D546, 0x1D546); (0x1D54A, 0x1D550); (0x1D552, 0x1D6A5);
   (0x1D6A8, 0x1D6C0); (0x1D6C2, 0x1D6DA); (0x1D6DC, 0x1D6FA);
   (0x1D6FC, 0x1D714); (0x1D716, 0x1D734); (0x1D736, 0x1D74E);
   (0x1D750, 0x1D76E); (0x1D770, 0x1D788); (0x1D78A, 0x1D7A8);
   (0x1D7AA, 0x1D7C2); (0x1D7C4, 0x1D7CB); (0x1DF00, 0x1DF09);
   (0x1DF0B, 0x1DF1E); (0x1E900, 0x1E943); (0x1F130, 0x1F149);
   (0x1F150, 0x1F169); (0x1F170, 0x1F189)].

(** The code points with the property Case_Ignorable, as ranges. *)
Definition CASE_IGNORABLE : list (N * N) :=
  [ (0x27, 0x27); (0x2E, 0x2E); (0x3A, 0x3A); (0x5E, 0x5E); (0x60, 0x60);
   (0xA8, 0xA8); (0xAD, 0xAD); (0xAF, 0xAF); (0xB4, 0xB4); (0xB7, 0xB8);
   (0x2B0, 0x36F); (0x374, 0x375); (0x37A, 0x37A); (0x384, 0x385);
   (0x387, 0x387); (0x483, 0x489); (0x559, 0x559); (0x55F, 0x55F);
   (0x591, 0x5BD); (0x5BF, 0x5BF); (0x5C1, 0x5C2); (0x5C4, 0x5C5);
   (0x5C7, 0x5C7); (0x5F4, 0x5F4); (0x600, 0x605); (0x610, 0x61A);
   (0x61C, 0x61C); (0x640, 0x640); (0x64B, 0x65F); (0x670, 0x670);
   (0x6D6, 0x6DD); (0x6DF, 0x6E8); (0x6EA, 0x6ED); (0x70F, 0x70F);
   (0x711, 0x711); (0x730, 0x74A); (0x7A6, 0x7B0); (0x7EB, 0x7F5);
   (0x7FA, 0x7FA); (0x7FD, 0x7FD); (0x816, 0x82D); (0x859, 0x85B);
   (0x888, 0x888); (0x890, 0x891); (0x898, 0x89F); (0x8C9, 0x902);
   (0x93A, 0x93A); (0x93C, 0x93C); (0x941, 0x948); (0x94D, 0x94D);
   (0x951, 0x957); (0x962, 0x963); (0x971, 0x971); (0x981, 0x981);
   (0x9BC, 0x9BC); (0x9C1, 0x9C4); (0x9CD, 0x9CD); (0x9E2, 0x9E3);
   (0x9FE, 0x9FE); (0xA01, 0xA02); (0xA3C, 0xA3C); (0xA41, 0xA42);
   (0xA47, 0xA48); (0xA4B, 0xA4D); (0xA51, 0xA51); (0xA70, 0xA71);
   (0xA75, 0xA75); (0xA81, 0xA82); (0xABC, 0xABC); (0xAC1, 0xAC5);
   (0xAC7, 0xAC8); (0xACD, 0xACD); (0xAE2, 0xAE3); (0xAFA, 0xAFF);
   (0xB01, 0xB01); (0xB3C, 0xB3C); (0xB3F, 0xB3F); (0xB41, 0xB44);
   (0xB4D, 0xB4D); (0xB55, 0xB56); (0xB62, 0xB63); (0xB82, 0xB82);
   (0xBC0, 0xBC0); (0xBCD, 0xBCD); (0xC00, 0xC00); (0xC04, 0xC04);
   (0xC3C, 0xC3C); (0xC3E, 0xC40); (0xC46, 0xC48); (0xC4A, 0xC4D);
   (0xC55, 0xC56); (0xC62, 0xC63); (0xC81, 0xC81); (0xCBC, 0xCBC);
   (0xCBF, 0xCBF); (0xCC6, 0xCC6); (0xCCC, 0xCCD); (0xCE2, 0xCE3);
   (0xD00, 0xD01); (0xD3B, 0xD3C); (0xD41, 0xD44); (0xD4D, 0xD4D);
   (0xD62, 0xD63); (0xD81, 0xD81); (0xDCA, 0xDCA); (0xDD2, 0xDD4);
   (0xDD6, 0xDD6); (0xE31, 0xE31); (0xE34, 0xE3A); (0xE46, 0xE4E);
   (0xEB1, 0xEB1); (0xEB4, 0xEBC); (0xEC6, 0xEC6); (0xEC8, 0xECD);
   (0xF18, 0xF19); (0xF35, 0xF35); (0xF37, 0xF37); (0xF39, 0xF39);
   (0xF71, 0xF7E); (0xF80, 0xF84); (0xF86, 0xF87); (0xF8D, 0xF97);
   (0xF99, 0xFBC); (0xFC6, 0xFC6); (0x102D, 0x1030); (0x1032, 0x1037);
   (0x1039, 0x103A); (0x103D, 0x103E); (0x1058, 0x1059); (0x105E, 0x1060);
   (0x1071, 0x1074); (0x1082, 0x1082); (0x1085, 0x1086); (0x108D, 0x108D);
   (0x109D, 0x109D); (0x10FC, 0x10FC); (0x135D, 0x135F); (0x1712, 0x1714);
   (0x1732, 0x1733); (0x1752, 0x1753); (0x1772, 0x1773); (0x17B4, 0x17B5);
   (0x17B7, 0x17BD); (0x17C6, 0x17C6); (0x17C9, 0x17D3); (0x17D7, 0x17D7);
   (0x17DD, 0x17DD); (0x180B, 0x180F); (0x1843, 0x1843); (0x1885, 0x1886);
   (0x18A9, 0x18A9); (0x1920, 0x1922); (0x1927, 0x1928); (0x1932, 0x1932);
   (0x1939, 0x193B); (0x1A17, 0x1A18); (0x1A1B, 0x1A1B); (0x1A56, 0x1A56);
   (0x1A58, 0x1A5E); (0x1A60, 0x1A60); (0x1A62, 0x1A62); (0x1A65, 0x1A6C);
   (0x1A73, 0x1A7C); (0x1A7F, 0x1A7F); (0x1AA7, 0x1AA7); (0x1AB0, 0x1ACE);
   (0x1B00, 0x1B03); (0x1B34, 0x1B34); (0x1B36, 0x1B3A); (0x1B3C, 0x1B3C);
   (0x1B42, 0x1B42); (0x1B6B, 0x1B73); (0x1B80, 0x1B81); (0x1BA2, 0x1BA5);
   (0x1BA8, 0x1BA9); (0x1BAB, 0x1BAD); (0x1BE6, 0x1BE6); (0x1BE8, 0x1BE9);
   (0x1BED, 0x1BED); (0x1BEF, 0x1BF1); (0x1C2C, 0x1C33); (0x1C36, 0x1C37);
   (0x1C78, 0x1C7D); (0x1CD0, 0x1CD2); (0x1CD4, 0x1CE0); (0x1CE2, 0x1CE8);
   (0x1CED, 0x1CED); (0x1CF4, 0x1CF4); (0x1CF8, 0x1CF9); (0x1D2C, 0x1D6A);
   (0x1D78, 0x1D78); (0x1D9B, 0x1DFF); (0x1FBD, 0x1FBD); (0x1FBF, 0x1FC1);
   (0x1FCD, 0x1FCF); (0x1FDD, 0x1FDF); (0x1FED, 0x1FEF); (0x1FFD, 0x1FFE);
   (0x200B, 0x200F); (0x2018, 0x2019); (0x2024, 0x2024); (0x2027, 0x2027);
   (0x202A, 0x202E); (0x2060, 0x2064); (0x2066, 0x206F); (0x2071, 0x2071);
   (0x207F, 0x207F); (0x2090, 0x209C); (0x20D0, 0x20F0); (0x2C7C, 0x2C7D);
   (0x2CEF, 0x2CF1); (0x2D6F, 0x2D6F); (0x2D7F, 0x2D7F); (0x2DE0, 0x2DFF);
   (0x2E2F, 0x2E2F); (0x3005, 0x3005); (0x302A, 0x302D); (0x3031, 0x3035);
   (0x303B, 0x303B); (0x3099, 0x309E); (0x30FC, 0x30FE); (0xA015, 0xA015);
   (0xA4F8, 0xA4FD); (0xA60C, 0xA60C); (0xA66F, 0xA672); (0xA674, 0xA67D);
   (0xA67F, 0xA67F); (0xA69C, 0xA69F); (0xA6F0, 0xA6F1); (0xA700, 0xA721);
   (0xA770, 0xA770); (0xA788, 0xA78A); (0xA7F2, 0xA7F4); (0xA7F8, 0xA7F9);
   (0xA802, 0xA802); (0xA806, 0xA806); (0xA80B, 0xA80B); (0xA825, 0xA826);
   (0xA82C, 0xA82C); (0xA8C4, 0xA8C5); (0xA8E0, 0xA8F1); (0xA8FF, 0xA8FF);
   (0xA926, 0xA92D); (0xA947, 0xA951); (0xA980, 0xA982); (0xA9B3, 0xA9B3);
   (0xA9B6, 0xA9B9); (0xA9BC, 0xA9BD); (0xA9CF, 0xA9CF); (0xA9E5, 0xA9E6);
   (0xAA29, 0xAA2E); (0xAA31, 0xAA32); (0xAA35, 0xAA36); (0xAA43, 0xAA43);
   (0xAA4C, 0xAA4C); (0xAA70, 0xAA70); (0xAA7C, 0xAA7C); (0xAAB0, 0xAAB0);
   (0xAAB2, 0xAAB4); (0xAAB7, 0xAAB8); (0xAABE, 0xAABF); (0xAAC1, 0xAAC1);
   (0xAADD, 0xAADD); (0xAAEC, 0xAAED); (0xAAF3, 0xAAF4); (0xAAF6, 0xAAF6);
   (0xAB5B, 0xAB5F); (0xAB69, 0xAB6B); (0xABE5, 0xABE5); (0xABE8, 0xABE8);
   (0xABED, 0xABED); (0xFB1E, 0xFB1E); (0xFBB2, 0xFBC2); (0xFE00, 0xFE0F);
   (0xFE13, 0xFE13); (0xFE20, 0xFE2F); (0xFE52, 0xFE52); (0xFE55, 0xFE55);
   (0xFEFF, 0xFEFF); (0xFF07, 0xFF07); (0xFF0E, 0xFF0E); (0xFF1A, 0xFF1A);
   (0xFF3E, 0xFF3E); (0xFF40, 0xFF40); (0xFF70, 0xFF70); (0xFF9E, 0xFF9F);
   (0xFFE3, 0xFFE3); (0xFFF9, 0xFFFB); (0x101FD, 0x101FD); (0x102E0, 0x102E0);
   (0x10376, 0x1037A); (0x10780, 0x10785); (0x10787, 0x107B0);
   (0x107B2, 0x107BA); (0x10A01, 0x10A03); (0x10A05, 0x10A06);
   (0x10A0C, 0x10A0F); (0x10A38, 0x10A3A); (0x10A3F, 0x10A3F);
   (0x10AE5, 0x10AE6); (0x10D24, 0x10D27); (0x10EAB, 0x10EAC);
   (0x10F46, 0x10F50); (0x10F82, 0x10F85); (0x11001, 0x11001);
   (0x11038, 0x11046); (0x11070, 0x11070); (0x11073, 0x11074);
   (0x1107F, 0x11081); (0x110B3, 0x110B6); (0x110B9, 0x110BA);
   (0x110BD, 0x110BD); (0x110C2, 0x110C2); (0x110CD, 0x110CD);
   (0x11100, 0x11102); (0x11127, 0x1112B); (0x1112D, 0x11134);
   (0x11173, 0x11173); (0x11180, 0x11181); (0x111B6, 0x111BE);
   (0x111C9, 0x111CC); (0x111CF, 0x111CF); (0x1122F, 0x11231);
   (0x11234, 0x11234); (0x11236, 0x11237); (0x1123E, 0x1123E);
   (0x112DF, 0x112DF); (0x112E3, 0x112EA); (0x11300, 0x11301);
   (0x1133B, 0x1133C); (0x11340, 0x11340); (0x11366, 0x1136C);
   (0x11370, 0x11374); (0x11438, 0x1143F); (0x11442, 0x11444);
   (0x11446, 0x11446); (0x1145E, 0x1145E); (0x114B3, 0x114B8);
   (0x114BA, 0x114BA); (0x114BF, 0x114C0); (0x114C2, 0x114C3);
   (0x115B2, 0x115B5); (0x115BC, 0x115BD); (0x115BF, 0x115C0);
   (0x115DC, 0x115DD); (0x11633, 0x1163A); (0x1163D, 0x1163D);
   (0x1163F, 0x11640); (0x116AB, 0x116AB); (0x116AD, 0x116AD);
   (0x116B0, 0x116B5); (0x116B7, 0x116B7); (0x1171D, 0x1171F);
   (0x11722, 0x11725); (0x11727, 0x1172B); (0x1182F, 0x11837);
   (0x11839, 0x1183A); (0x1193B, 0x1193C); (0x1193E, 0x1193E);
   (0x11943, 0x11943); (0x119D4, 0x119D7); (0x119DA, 0x119DB);
   (0x119E0, 0x119E0); (0x11A01, 0x11A0A); (0x11A33, 0x11A38);
   (0x11A3B, 0x11A3E); (0x11A47, 0x11A47); (0x11A51, 0x11A56);
   (0x11A59, 0x11A5B); (0x11A8A, 0x11A96); (0x11A98, 0x11A99);
   (0x11C30, 0x11C36); (0x11C38, 0x11C3D); (0x11C3F, 0x11C3F);
   (0x11C92, 0x11CA7); (0x11CAA, 0x11CB0); (0x11CB2, 0x11CB3);
   (0x11CB5, 0x11CB6); (0x11D31, 0x11D36); (0x11D3A, 0x11D3A);
   (0x11D3C, 0x11D3D); (0x11D3F, 0x11D45); (0x11D47, 0x11D47);
   (0x11D90, 0x11D91); (0x11D95, 0x11D95); (0x11D97, 0x11D97);
   (0x11EF3, 0x11EF4); (0x13430, 0x13438); (0x16AF0, 0x16AF4);
   (0x16B30, 0x16B36); (0x16B40, 0x16B43); (0x16F4F, 0x16F4F);
   (0x16F8F, 0x16F9F); (0x16FE0, 0x16FE1); (0x16FE3, 0x16FE4);
   (0x1AFF0, 0x1AFF3); (0x1AFF5, 0x1AFFB); (0x1AFFD, 0x1AFFE);
   (0x1BC9D, 0x1BC9E); (0x1BCA0, 0x1BCA3); (0x1CF00, 0x1CF2D);
   (0x1CF30, 0x1CF46); (0x1D167, 0x1D169); (0x1D173, 0x1D182);
   (0x1D185, 0x1D18B); (0x1D1AA, 0x1D1AD); (0x1D242, 0x1D244);
   (0x1DA00, 0x1DA36); (0x1DA3B, 0x1DA6C); (0x1DA75, 0x1DA75);
   (0x1DA84, 0x1DA84); (0x1DA9B, 0x1DA9F); (0x1DAA1, 0x1DAAF);
   (0x1E000, 0x1E006); (0x1E008, 0x1E018); (0x1E01B, 0x1E021);
   (0x1E023, 0x1E024); (0x1E026, 0x1E02A); (0x1E130, 0x1E13D);
   (0x1E2AE, 0x1E2AE); (0x1E2EC, 0x1E2EF); (0x1E8D0, 0x1E8D6);
   (0x1E944, 0x1E94B); (0x1F3FB, 0x1F3FF); (0xE0001, 0xE0001);
   (0xE0020, 0xE007F); (0xE0100, 0xE01EF)].

Definition isCased (cp : N) : bool := inRanges CASED cp.
Definition isCaseIgnorable (cp : N) : bool := inRanges CASE_IGNORABLE cp.

(** Going away from a sigma through [cps], the first code point that is not
    case-ignorable is cased. *)
Definition reachesCased (cps : list N) : bool :=
  match dropWhile isCaseIgnorable cps with
  | cp :: _ => isCased cp
  | [] => false
  end.

Definition CAPITAL_SIGMA : N := 0x3A3.
Definition SMALL_SIGMA : N := 0x3C3.
Definition SMALL_FINAL_SIGMA : N := 0x3C2.

(** Final_Sigma: a capital sigma that ends a word (a cased letter before it,
    none after it) becomes the final small sigma.  [before] holds the code
    points already read, the nearest first. *)
Fixpoint toLowercase (before cps : list N) : list N :=
  match cps with
  | [] => []
  | cp :: rest =>
      (if cp =? CAPITAL_SIGMA
       then if reachesCased before && negb (reachesCased rest)
            then [SMALL_FINAL_SIGMA] else [SMALL_SIGMA]
       else caseMapping LOWERCASE_MAPPING cp)
      ++ toLowercase (cp :: before) rest
  end.

Definition toUppercase (cps : list N) : list N :=
  flat_map (caseMapping UPPERCASE_MAPPING) cps.

Definition toUpperCase (s : jsstring) : jsstring :=
  CodePointsToString (toUppercase (StringToCodePoints s)).

Definition toLowerCase (s : jsstring) : jsstring :=
  CodePointsToString (toLowercase [] (StringToCodePoints s)).

(** Case folding of a code unit of Basic Latin. *)
Definition upperUnit (c : N) : N := if isLowerAZ c then c - 32 else c.

(** Canonicalize of ECMAScript for a pattern with the [i] flag and without
    the [u] flag. *)
Definition Canonicalize (ch : N) : N :=
  match toUpperCase [ch] with
  | [cu] => if (128 <=? ch) && (cu <? 128) then ch else cu
  | _ => ch
  end.

Definition isSurrogate (c : N) : bool := (0xD800 <=? c) && (c <=? 0xDFFF).

(** The code units that the mappings of a table can write. *)
Definition mappedUnits (table : list (N * list N)) : jsstring :=
  flat_map (fun kv => CodePointsToString (snd kv)) table.

(** ** Regular expressions *)

Inductive regex : Type :=
| Eps                                   (* empty pattern *)
| Chr (c : N)                           (* a literal character *)
| Cls (p : N -> bool)                   (* a class: \s, \d, [...] *)
| Bol                                   (* ^ *)
| Eol                                   (* $ *)
| WordB                                 (* \b *)
| Seq (a b : regex)
| Alt (a b : regex)
| Rep (lo : nat) (hi : option nat) (a : regex).  (* greedy a{lo,hi} *)

Definition Star (a : regex) : regex := Rep 0 None a.
Definition Plus (a : regex) : regex := Rep 1 None a.
Definition Opt (a : regex) : regex := Rep 0 (Some 1%nat) a.

Fixpoint lit (s : jsstring) : regex :=
  match s with
  | [] => Eps
  | c :: t => Seq (Chr c) (lit t)
  end.

Definition seq (rs : list regex) : regex := fold_right Seq Eps rs.
Definition alt (rs : list regex) : regex :=
  match rs with
  | [] => Eps
  | r :: rs' => fold_left Alt rs' r
  end.

(** A position of the matcher: the code unit before it (if any) and the rest
    of the input from it. *)
Definition state : Type := option N * jsstring.

Section Matcher.
Variables (ignoreCase multiline : bool).

(** How the [i] flag compares code units.  [Canonicalize] never takes a
    code unit outside ASCII to an ASCII one, so against the ASCII literals
    of this program it compares as ASCII case folding does (lemma
    [Canonicalize_ascii]). *)
Definition canonicalize (c : N) : N :=
  if ignoreCase then upperUnit c else c.

Definition wordAt (o : option N) : bool :=
  match o with Some c => isWordChar c | None => false end.

(** RepeatMatcher: one more iteration first, then the continuation.  An
    iteration that consumes nothing is rejected once [lo] is [0]. *)
Fixpoint repeatMatcher (step : state -> list state) (fuel lo : nat)
         (hi : option nat) (x : state) : list state :=
  match fuel with
  | O => if Nat.eqb lo 0 then [x] else []
  | S fuel' =>
      match hi with
      | Some O => [x]
      | _ =>
          let more :=
            flat_map
              (fun y =>
                 if Nat.eqb lo 0
                    && Nat.eqb (List.length (snd y)) (List.length (snd x))
                 then []
                 else repeatMatcher step fuel' (Nat.pred lo)
                        (option_map Nat.pred hi) y)
              (step x) in
          if Nat.eqb lo 0 then more ++ [x] else more
      end
  end.

(** All the ways [r] matches at [x], in the order the backtracking matcher
    tries them; the head is the match JavaScript reports. *)
Fixpoint matcher (r : regex) (x : state) : list state :=
  match r with
  | Eps => [x]
  | Chr c =>
      match snd x with
      | ch :: t =>
          if canonicalize ch =? canonicalize c then [(Some ch, t)] else []
      | [] => []
      end
  | Cls p =>
      match snd x with
      | ch :: t => if p ch then [(Some ch, t)] else []
      | [] => []
      end
  | Bol =>
      match fst x with
      | None => [x]
      | Some ch => if multiline && isLineTerminator ch then [x] else []
      end
  | Eol =>
      match snd x with
      | [] => [x]
      | ch :: _ => if multiline && isLineTerminator ch then [x] else []
      end
  | WordB =>
      if xorb (wordAt (fst x)) (wordAt (hd_error (snd x))) then [x] else []
  | Seq a b => flat_map (matcher b) (matcher a x)
  | Alt a b => matcher a x ++ matcher b x
  | Rep lo hi a =>
      repeatMatcher (matcher a) (lo + List.length (snd x) + 1) lo hi x
  end.

(** The match at one position, if any. *)
Definition matchAt (r : regex) (x : state) : option state :=
  hd_error (matcher r x).
End Matcher.

Record RegExp : Type := mkRegExp {
  source : regex;
  flag_i : bool;
  flag_m : bool;
  flag_g : bool
}.

Definition re_ (r : regex) : RegExp := mkRegExp r false false false.
Definition re_i (r : regex) : RegExp := mkRegExp r true false false.
Definition re_g (r : regex) : RegExp := mkRegExp r false false true.
Definition re_gm (r : regex) : RegExp := mkRegExp r false true true.

Definition execAt (re : RegExp) (x : state) : option state :=
  matchAt (flag_i re) (flag_m re) (source re) x.

(** Every position of a string, left to right, the end included. *)
Fixpoint positions (prev : option N) (s : jsstring) : list state :=
  (prev, s) ::
  match s with
  | [] => []
  | c :: t => positions (Some c) t
  end.

Definition isSome {A} (o : option A) : bool :=
  match o with Some _ => true | None => false end.

(** [re.test(s)] for a regular expression without the [g] flag. *)
Definition test (re : RegExp) (s : jsstring) : bool :=
  existsb (fun x => isSome (execAt re x)) (positions None s).

(** Copy one code unit and go on with [k]. *)
Definition stepOver (k : state -> jsstring) (x : state) : jsstring :=
  match snd x with
  | [] => []
  | c :: t => c :: k (Some c, t)
  end.

Fixpoint replaceFrom (re : RegExp) (repl : jsstring) (fuel : nat) (x : state)
  : jsstring :=
  match fuel with
  | O => snd x
  | S fuel' =>
      match execAt re x with
      | None => stepOver (replaceFrom re repl fuel') x
      | Some y =>
          if negb (flag_g re) then repl ++ snd y
          else if Nat.eqb (List.length (snd y)) (List.length (snd x))
               then repl ++ stepOver (replaceFrom re repl fuel') x
               else repl ++ replaceFrom re repl fuel' y
      end
  end.

(** [s.replace(re, repl)] for a replacement without [$] patterns: the first
    match, or every match under the [g] flag. *)
Definition replace (s : jsstring) (re : RegExp) (repl : jsstring) : jsstring :=
  replaceFrom re repl (S (List.length s)) (None, s).

(** ** Patterns of the program *)

Definition chr (a : ascii) : N := N_of_ascii a.
Definition ws : regex := Cls isWhiteSpace.
Definition digit : regex := Cls isDigit.

(** [/\bstaging\b/i], [/^update staging\b/i], [/^staging\b/i] *)
Definition STAGING_WORD_RE : RegExp :=
  re_i (seq [WordB; lit (js "staging"); WordB]).
Definition UPDATE_STAGING_RE : RegExp :=
  re_i (seq [Bol; lit (js "update staging"); WordB]).
Definition STAGING_START_RE : RegExp :=
  re_i (seq [Bol; lit (js "staging"); WordB]).

Definition EXCLUDE_TITLE_PATTERNS : list RegExp :=
  [ STAGING_WORD_RE; UPDATE_STAGING_RE; STAGING_START_RE ].

(** [/^#{2,3}\s*<word>\s*$/i] *)
Definition headingPattern (word : string) : RegExp :=
  re_i (seq [Bol; Rep 2 (Some 3%nat) (Chr (chr "#")); Star ws;
             lit (js word); Star ws; Eol]).

Definition SUMMARY_HEADING_PATTERNS : list RegExp :=
  [ headingPattern "summary"; headingPattern "tldr";
    headingPattern "tl;dr"; headingPattern "overview" ].

(** The marker pattern: start of line, any number of groups of [*_#]* and
    \s*, then summary \s+ by \s+ coderabbit \s*, one group of [*_]* and \s*,
    end of line; case-insensitive. *)
Definition CODERABBIT_MARKER_RE : RegExp :=
  re_i (seq [Bol;
             Star (seq [Star (Cls (oneOf (js "*_#"))); Star ws]);
             lit (js "summary"); Plus ws; lit (js "by"); Plus ws;
             lit (js "coderabbit"); Star ws;
             seq [Star (Cls (oneOf (js "*_"))); Star ws];
             Eol]).

Definition CODERABBIT_SECTION_TITLES_LIST : list jsstring :=
  List.map js
    [ "New Features"; "Bug Fixes"; "Improvements"; "Refactor"; "Chores";
      "Data"; "Validation"; "Documentation"; "Tests"; "Style"; "Performance";
      "Other Changes"; "Enhancements"; "Breaking Changes" ]%string.

(** [CODERABBIT_SECTION_TITLES.has(s)] *)
Definition CODERABBIT_SECTION_TITLES_has (s : jsstring) : bool :=
  existsb (str_eqb s) CODERABBIT_SECTION_TITLES_LIST.

(** [/^#{2,6}\s+/]: a markdown heading of level 2 to 6. *)
Definition MD_HEADING_RE : RegExp :=
  re_ (seq [Bol; Rep 2 (Some 6%nat) (Chr (chr "#")); Plus ws]).

(** [/^[-*]\s+/] and its [gm] form. *)
Definition bullet : regex := seq [Bol; Cls (oneOf (js "-*")); Plus ws].
(** [/^\d+\.\s+/] *)
Definition numbered : regex := seq [Bol; Plus digit; Chr (chr "."); Plus ws].

Definition CRLF_RE : RegExp := re_g (lit [CR; LF]).
Definition BULLET_GM_RE : RegExp := re_gm bullet.
Definition NUMBERED_GM_RE : RegExp := re_gm numbered.
(** [/\n{3,}/g] *)
Definition BLANK_RUN_RE : RegExp := re_g (Rep 3 None (Chr LF)).
(** [/\s+/g] *)
Definition SPACES_RE : RegExp := re_g (Plus ws).
(** [/-/g] *)
Definition HYPHEN_RE : RegExp := re_g (Chr (chr "-")).

(** [/^(?:feat|fix|chore|refactor|docs|ci|style|perf|test|build)\s*(?:\([^)]*\))?\s*:\s*/i] *)
Definition CONVENTIONAL_PREFIX_RE : RegExp :=
  re_i (seq [Bol;
             alt (List.map (fun w => lit (js w))
                    [ "feat"; "fix"; "chore"; "refactor"; "docs"; "ci";
                      "style"; "perf"; "test"; "build" ]%string);
             Star ws;
             Opt (seq [Chr (chr "("); Star (Cls (noneOf (js ")")));
                       Chr (chr ")")]);
             Star ws; Chr (chr ":"); Star ws]).

(** [/^[A-Z]{2,}-\d+\//] *)
Definition BRANCH_NAME_RE : RegExp :=
  re_ (seq [Bol; Rep 2 None (Cls isUpperAZ); Chr (chr "-"); Plus digit;
            Chr (chr "/")]).
(** [/^[A-Z]{2,}-\d+$/] *)
Definition TICKET_RE : RegExp :=
  re_ (seq [Bol; Rep 2 None (Cls isUpperAZ); Chr (chr "-"); Plus digit; Eol]).
(** [/^[A-Z][a-z]+-[A-Z][a-z]+$/] *)
Definition AUTHOR_RE : RegExp :=
  re_ (seq [Bol; Cls isUpperAZ; Plus (Cls isLowerAZ); Chr (chr "-");
            Cls isUpperAZ; Plus (Cls isLowerAZ); Eol]).

(** [/^fix/i], [/\bfix\b/i], [/^sprint\s+\d+/i], [/^Sprint\s+\d+$/i] *)
Definition FIX_START_RE : RegExp := re_i (seq [Bol; lit (js "fix")]).
Definition FIX_WORD_RE : RegExp := re_i (seq [WordB; lit (js "fix"); WordB]).
Definition SPRINT_RE : RegExp :=
  re_i (seq [Bol; lit (js "sprint"); Plus ws; Plus digit]).
Definition SPRINT_ONLY_RE : RegExp :=
  re_i (seq [Bol; lit (js "Sprint"); Plus ws; Plus digit; Eol]).

(** ** The program: generate-release-notes.mjs *)

(** [line.replace(/^[*_#]+\s*/, '').replace(/\s*[*_]+$/, '').trim()], then
    the lookup in the set of titles; [None] is JavaScript's [null]. *)
Definition isCodeRabbitSectionTitle (line : jsstring) : option jsstring :=
  let cleaned :=
    trim (replace
            (replace line
               (re_ (seq [Bol; Plus (Cls (oneOf (js "*_#"))); Star ws])) [])
            (re_ (seq [Star ws; Plus (Cls (oneOf (js "*_"))); Eol])) []) in
  if CODERABBIT_SECTION_TITLES_has cleaned then Some cleaned else None.

(** [segments.indexOf(s)] *)
Fixpoint indexOf (l : list jsstring) (s : jsstring) (i : Z) : Z :=
  match l with
  | [] => (-1)%Z
  | x :: t => if str_eqb x s then i else indexOf t s (i + 1)%Z
  end.

Definition cleanPRTitle (raw : jsstring) : jsstring :=
  let t := trim raw in
  let t := replace t CONVENTIONAL_PREFIX_RE [] in
  let t :=
    if test BRANCH_NAME_RE t then
      let segments := split (chr "/") t in
      let meaningful :=
        filter
          (fun s =>
             if test TICKET_RE s then false
             else if (indexOf segments s 0 =? Z.of_nat (List.length segments) - 1)%Z
                     && test AUTHOR_RE s then false
             else true)
          segments in
      if (0 <? List.length meaningful)%nat then join [SP] meaningful else t
    else t in
  let t := trim (replace (replace t HYPHEN_RE [SP]) SPACES_RE [SP]) in
  if str_eqb t (toUpperCase t) && (3 <? List.length t)%nat
  then toUpperCase (charAt0 t) ++ toLowerCase (slice1 t)
  else toUpperCase (charAt0 t) ++ slice1 t.

Definition shouldExcludePRTitle (title : jsstring) : bool :=
  existsb (fun re => test re title) EXCLUDE_TITLE_PATTERNS.

Definition normalizeSummaryText (text : jsstring) : jsstring :=
  trim
    (replace
       (replace
          (replace
             (replace text CRLF_RE [LF])
             BULLET_GM_RE [])
          NUMBERED_GM_RE [])
       BLANK_RUN_RE [LF; LF]).

(** [body.replace(/\r\n/g, '\n').split('\n')] *)
Definition bodyLines (body : jsstring) : list jsstring :=
  split LF (replace body CRLF_RE [LF]).

(** The first loop of [extractSectionUnderHeading] and the [findIndex] of
    [extractCodeRabbitSummary]: the lines after the first line whose trimmed
    text satisfies [p], or [None] when the index stays [-1]. *)
Fixpoint linesAfterFirst (p : jsstring -> bool) (lines : list jsstring)
  : option (list jsstring) :=
  match lines with
  | [] => None
  | l :: rest => if p (trim l) then Some rest else linesAfterFirst p rest
  end.

(** The second loop: the lines up to the next level 2-6 heading. *)
Fixpoint linesUntilHeading (lines : list jsstring) : list jsstring :=
  match lines with
  | [] => []
  | l :: rest =>
      if test MD_HEADING_RE (trim l) then [] else l :: linesUntilHeading rest
  end.

Definition extractSectionUnderHeading (body : jsstring)
           (headingMatchFn : jsstring -> bool) : jsstring :=
  if is_empty body then []
  else
    match linesAfterFirst headingMatchFn (bodyLines body) with
    | None => []
    | Some rest => join [LF] (linesUntilHeading rest)
    end.

Record SummaryItem : Type := mkItem { section : jsstring; text : jsstring }.

(** The capture loop: blank lines are kept as [''], the block stops at
    another marker, at a heading or at a line that reads [image]. *)
Fixpoint captureBlock (lines : list jsstring) : list jsstring :=
  match lines with
  | [] => []
  | l :: rest =>
      let t := trim l in
      if is_empty t then [] :: captureBlock rest
      else if test CODERABBIT_MARKER_RE t then []
      else if test MD_HEADING_RE t then []
      else if str_eqb (toLowerCase t) (js "image") then []
      else l :: captureBlock rest
  end.

(** The parsing loop, with [currentSection] as an accumulator. *)
Fixpoint parseItems (currentSection : option jsstring)
         (blockLines : list jsstring) : list SummaryItem :=
  match blockLines with
  | [] => []
  | raw :: rest =>
      let line := trim raw in
      if is_empty line then parseItems currentSection rest
      else
        match isCodeRabbitSectionTitle line with
        | Some sectionMatch => parseItems (Some sectionMatch) rest
        | None =>
            match currentSection with
            | None => parseItems currentSection rest
            | Some sec =>
                mkItem sec (trim (replace line (re_ bullet) []))
                  :: parseItems currentSection rest
            end
        end
  end.

Definition sectionPriority : list (jsstring * Z) :=
  List.map (fun p => (js (fst p), snd p))
    [ ("New Features", 0); ("Enhancements", 0); ("Bug Fixes", 1);
      ("Improvements", 2); ("Validation", 3); ("Refactor", 4);
      ("Performance", 4); ("Chores", 5); ("Data", 6); ("Documentation", 7);
      ("Tests", 7); ("Style", 8); ("Other Changes", 9);
      ("Breaking Changes", 0) ]%string%Z.

Fixpoint lookup (k : jsstring) (tbl : list (jsstring * Z)) : option Z :=
  match tbl with
  | [] => None
  | (k', v) :: rest => if str_eqb k' k then Some v else lookup k rest
  end.

(** [sectionPriority[s] ?? 99] *)
Definition priorityOf (s : jsstring) : Z :=
  match lookup s sectionPriority with Some v => v | None => 99%Z end.

(** [items.sort((a, b) => priority(a) - priority(b))]: the sort of the
    runtime is stable; insertion from the right keeps source order among
    items of equal priority. *)
Fixpoint insertByPriority (x : SummaryItem) (l : list SummaryItem)
  : list SummaryItem :=
  match l with
  | [] => [x]
  | y :: rest =>
      if (priorityOf (section x) - priorityOf (section y) <=? 0)%Z
      then x :: l
      else y :: insertByPriority x rest
  end.

Definition sortByPriority (items : list SummaryItem) : list SummaryItem :=
  fold_right insertByPriority [] items.

(** [selected.filter((s) => s.section === key).length] *)
Definition countInSection (selected : list SummaryItem) (key : jsstring) : nat :=
  List.length (filter (fun s => str_eqb (section s) key) selected).

(** The selection loop: [break] at four selected items, [continue] past an
    item whose section already has two. *)
Fixpoint selectLoop (selected items : list SummaryItem) : list SummaryItem :=
  match items with
  | [] => selected
  | item :: rest =>
      if (4 <=? List.length selected)%nat then selected
      else if (2 <=? countInSection selected (section item))%nat
           then selectLoop selected rest
           else selectLoop (selected ++ [item]) rest
  end.

Definition selectItems (items : list SummaryItem) : list SummaryItem :=
  selectLoop [] items.

(** The text of an item as it enters the sentence: first character
    lower-cased, cut to 80 characters. *)
Definition itemText (item : SummaryItem) : jsstring :=
  let t := toLowerCase (charAt0 (text item)) ++ slice1 (text item) in
  if (80 <? List.length t)%nat then
    let cut := lastIndexOfUpTo SP t 77 in
    slice0 t (if (40 <? cut)%Z then cut else 77%Z) ++ js "..."
  else t.

(** The [switch] on the section. *)
Definition renderItem (item : SummaryItem) : jsstring :=
  let t := itemText item in
  let s := section item in
  if str_eqb s (js "New Features") || str_eqb s (js "Enhancements") then t
  else if str_eqb s (js "Bug Fixes") then js "fixed " ++ t
  else if str_eqb s (js "Improvements") then js "improved " ++ t
  else if str_eqb s (js "Validation") then js "added validation for " ++ t
  else if str_eqb s (js "Performance") then js "performance: " ++ t
  else t.

Definition capitalize (s : jsstring) : jsstring :=
  toUpperCase (charAt0 s) ++ slice1 s.

(** The three shapes of the sentence.  [parts] is not empty where this is
    called, since the first item of a non-empty list is always selected; the
    empty case stands for the TypeError of [parts[0].charAt]. *)
Definition joinParts (parts : list jsstring) : jsstring :=
  match parts with
  | [] => []
  | [p] => capitalize p
  | [p; q] => capitalize p ++ js " and " ++ q
  | p :: more =>
      capitalize p ++ js ", " ++ join (js ", ") (removelast more)
        ++ js ", and " ++ last more []
  end.

(** The items the sentence is built from. *)
Definition summaryItems (blockLines : list jsstring) : list SummaryItem :=
  selectItems (sortByPriority (parseItems None blockLines)).

Definition extractCodeRabbitSummary (body : jsstring) : jsstring :=
  if is_empty body then []
  else
    match linesAfterFirst (test CODERABBIT_MARKER_RE) (bodyLines body) with
    | None => []
    | Some rest =>
        let blockLines := captureBlock rest in
        let block := trim (join [LF] blockLines) in
        if is_empty block then []
        else if negb (existsb (fun l => isSome (isCodeRabbitSectionTitle (trim l)))
                        blockLines)
        then normalizeSummaryText block
        else
          let items := parseItems None blockLines in
          if Nat.eqb (List.length items) 0 then []
          else
            normalizeSummaryText
              (joinParts (List.map renderItem
                            (selectItems (sortByPriority items))))
    end.

(** The loop over [SUMMARY_HEADING_PATTERNS]. *)
Fixpoint firstHeadingSection (body : jsstring) (patterns : list RegExp)
  : jsstring :=
  match patterns with
  | [] => []
  | re :: rest =>
      let normalized :=
        normalizeSummaryText
          (extractSectionUnderHeading body (fun line => test re line)) in
      if is_empty normalized then firstHeadingSection body rest
      else normalized
  end.

(** [body] is [null] for a pull request without description. *)
Definition extractPreferredSummaryFromBody (body : option jsstring) : jsstring :=
  match body with
  | None => []
  | Some b =>
      if is_empty b then []
      else
        let codeRabbitSummary := extractCodeRabbitSummary b in
        if negb (is_empty codeRabbitSummary) then codeRabbitSummary
        else firstHeadingSection b SUMMARY_HEADING_PATTERNS
  end.

(** [lastSpace > maxLen * 0.6] is compared as [5 * lastSpace > 3 * maxLen];
    at the default [maxLen] of 200 the product is exactly 120. *)
Definition toSingleLineSummary (text : jsstring) (maxLen : nat) : jsstring :=
  let oneLine := replace (normalizeSummaryText text) SPACES_RE [SP] in
  if is_empty oneLine then []
  else if (List.length oneLine <=? maxLen)%nat then oneLine
  else
    let truncated := slice0 oneLine (Z.of_nat maxLen) in
    let lastSpace := lastIndexOf SP truncated in
    if (3 * Z.of_nat maxLen <? 5 * lastSpace)%Z
    then slice0 truncated lastSpace ++ [ELLIPSIS]
    else slice0 truncated (Z.of_nat maxLen - 1) ++ [ELLIPSIS].

Definition DEFAULT_MAX_LEN : nat := 200.

(** *** The per-pull-request step of [main] *)

(** The fields of the GitHub pull request that [main] reads. *)
Record PullRequest : Type := mkPullRequest {
  pr_number : N;
  pr_title : jsstring;
  pr_body : option jsstring;
  pr_html_url : jsstring;
  pr_merged_at : option jsstring
}.

(** The object pushed to [grouped[repo]]. *)
Record DisplayEntry : Type := mkDisplayEntry {
  number : N;
  title : jsstring;
  url : jsstring;
  mergedAt : jsstring;
  isFix : bool;
  isSprint : bool
}.

(** [/^fix/i.test(t) || /\bfix\b/i.test(t)] *)
Definition detectFix (originalTitle : jsstring) : bool :=
  test FIX_START_RE originalTitle || test FIX_WORD_RE originalTitle.

(** [/^sprint\s+\d+/i.test(t)] *)
Definition detectSprint (originalTitle : jsstring) : bool :=
  test SPRINT_RE originalTitle.

(** [toSingleLineSummary(preferredSummary) || cleanPRTitle(originalTitle)] *)
Definition displaySummary (originalTitle : jsstring) (body : option jsstring)
  : jsstring :=
  or_else
    (toSingleLineSummary (extractPreferredSummaryFromBody body) DEFAULT_MAX_LEN)
    (cleanPRTitle originalTitle).

Definition RELEASE_BUNDLE : jsstring := js " release bundle".

(** The summary with the suffix that makes sprint pull requests more
    descriptive. *)
Definition displayTitle (originalTitle : jsstring) (body : option jsstring)
  : jsstring :=
  let d := displaySummary originalTitle body in
  if detectSprint originalTitle && test SPRINT_ONLY_RE d
  then d ++ RELEASE_BUNDLE
  else d.

(** One turn of the loop of [main] once the pull request is fetched: [None]
    is a [continue]. *)
Definition buildDisplayEntry (pr : PullRequest) : option DisplayEntry :=
  match pr_merged_at pr with
  | None => None
  | Some merged =>
      if is_empty merged then None
      else if shouldExcludePRTitle (pr_title pr) then None
      else
        let originalTitle := pr_title pr in
        Some (mkDisplayEntry (pr_number pr)
                (displayTitle originalTitle (pr_body pr))
                (pr_html_url pr) merged
                (detectFix originalTitle) (detectSprint originalTitle))
  end.

(** ** The program: backfill-releases.mjs

    The script carries its own copy of the helpers.  [normalizeSummaryText],
    [extractSectionUnderHeading], [toSingleLineSummary], [cleanPRTitle],
    [shouldExcludePRTitle], the patterns, the priority table, the sort and
    the selection loop are the same text as above and are shared here; the
    functions that differ are embedded again. *)

Module Backfill.

(** [[\s*_#-]], [[\s*_#]], [[\s*_-]], [[\s*_]] *)
Definition wsOr (set : string) (c : N) : bool :=
  isWhiteSpace c || oneOf (js set) c.

Definition isCodeRabbitSectionTitle (line : jsstring) : option jsstring :=
  let cleaned := replace line (re_ (seq [Bol; Plus (Cls (wsOr "*_#-"))])) [] in
  let cleaned := replace cleaned (re_ (seq [Plus (Cls (wsOr "*_#")); Eol])) [] in
  if CODERABBIT_SECTION_TITLES_has cleaned then Some cleaned else None.

(** The capture loop, which also skips HTML comments and stops at the
    comment that ends the generated part. *)
Fixpoint captureBlock (lines : list jsstring) : list jsstring :=
  match lines with
  | [] => []
  | l :: rest =>
      let t := trim l in
      if is_empty t then [] :: captureBlock rest
      else if startsWith t (js "<!--") && includes t (js "end of auto-generated")
           then []
      else if startsWith t (js "<!--") then captureBlock rest
      else if test CODERABBIT_MARKER_RE t then []
      else if test MD_HEADING_RE t then []
      else if str_eqb (toLowerCase t) (js "image") then []
      else l :: captureBlock rest
  end.

Fixpoint parseItems (currentSection : option jsstring)
         (blockLines : list jsstring) : list SummaryItem :=
  match blockLines with
  | [] => []
  | raw :: rest =>
      let line := trim raw in
      if is_empty line then parseItems currentSection rest
      else
        match isCodeRabbitSectionTitle line with
        | Some sectionMatch => parseItems (Some sectionMatch) rest
        | None =>
            match currentSection with
            | None => parseItems currentSection rest
            | Some sec =>
                let itemText :=
                  trim (replace
                          (replace line
                             (re_ (seq [Bol; Plus (Cls (wsOr "*_-"))])) [])
                          (re_ (seq [Plus (Cls (wsOr "*_")); Eol])) []) in
                if is_empty itemText then parseItems currentSection rest
                else mkItem sec itemText :: parseItems currentSection rest
            end
        end
  end.

(** The [switch] of this script has no case for Performance. *)
Definition renderItem (item : SummaryItem) : jsstring :=
  let t := itemText item in
  let s := section item in
  if str_eqb s (js "New Features") || str_eqb s (js "Enhancements") then t
  else if str_eqb s (js "Bug Fixes") then js "fixed " ++ t
  else if str_eqb s (js "Improvements") then js "improved " ++ t
  else if str_eqb s (js "Validation") then js "added validation for " ++ t
  else t.

Definition summaryItems (blockLines : list jsstring) : list SummaryItem :=
  selectItems (sortByPriority (parseItems None blockLines)).

Definition extractCodeRabbitSummary (body : jsstring) : jsstring :=
  if is_empty body then []
  else
    match linesAfterFirst (test CODERABBIT_MARKER_RE) (bodyLines body) with
    | None => []
    | Some rest =>
        let blockLines := captureBlock rest in
        let block := trim (join [LF] blockLines) in
        if is_empty block then []
        else if negb (existsb
                        (fun l => isSome (isCodeRabbitSectionTitle (trim l)))
                        blockLines)
        then normalizeSummaryText block
        else
          let items := parseItems None blockLines in
          if Nat.eqb (List.length items) 0 then []
          else
            normalizeSummaryText
              (joinParts (List.map renderItem
                            (selectItems (sortByPriority items))))
    end.

Definition extractPreferredSummaryFromBody (body : option jsstring)
  : jsstring :=
  match body with
  | None => []
  | Some b =>
      if is_empty b then []
      else
        let cr := extractCodeRabbitSummary b in
        if negb (is_empty cr) then cr
        else firstHeadingSection b SUMMARY_HEADING_PATTERNS
  end.

Definition displaySummary (originalTitle : jsstring) (body : option jsstring)
  : jsstring :=
  or_else
    (toSingleLineSummary (extractPreferredSummaryFromBody body) DEFAULT_MAX_LEN)
    (cleanPRTitle originalTitle).

Definition displayTitle (originalTitle : jsstring) (body : option jsstring)
  : jsstring :=
  let d := displaySummary originalTitle body in
  if detectSprint originalTitle && test SPRINT_ONLY_RE d
  then d ++ RELEASE_BUNDLE
  else d.

(** One turn of the loop of [buildGrouped]; [mergedAt] is the string that
    let the pull request through the filter of [main]. *)
Definition buildEntry (pr : PullRequest) (merged : jsstring) : DisplayEntry :=
  let originalTitle := pr_title pr in
  mkDisplayEntry (pr_number pr)
    (displayTitle originalTitle (pr_body pr))
    (pr_html_url pr) merged
    (detectFix originalTitle) (detectSprint originalTitle).

(** The filter of [main] followed by [buildGrouped]. *)
Definition buildDisplayEntry (pr : PullRequest) : option DisplayEntry :=
  match pr_merged_at pr with
  | None => None
  | Some merged =>
      if is_empty merged then None
      else if shouldExcludePRTitle (pr_title pr) then None
      else Some (buildEntry pr merged)
  end.

End Backfill.

(** ** Vocabulary of the statements *)

(** One turn of the selection loop, seen from the items selected so far. *)
Definition selectStep (selected : list SummaryItem) (item : SummaryItem)
  : list SummaryItem :=
  if (4 <=? List.length selected)%nat then selected
  else if (2 <=? countInSection selected (section item))%nat then selected
  else selected ++ [item].

(** The body of the CodeRabbit scenario. *)
Definition scenarioBody : jsstring :=
  js "Summary by CodeRabbit" ++ [LF; LF]
  ++ js "New Features" ++ [LF] ++ js "- Added dark mode" ++ [LF; LF]
  ++ js "Bug Fixes" ++ [LF] ++ js "- Fixed crash on save" ++ [LF].

(** The sections the claim sets apart, and Performance. *)
Definition PREFIXED_SECTIONS : list jsstring :=
  List.map js
    [ "New Features"; "Enhancements"; "Bug Fixes"; "Improvements";
      "Validation" ]%string.

Definition PERFORMANCE : jsstring := js "Performance".

(** Some line of the body, trimmed as the scanners trim it, matches [re]. *)
Definition someLineMatches (re : RegExp) (body : jsstring) : bool :=
  existsb (fun l => test re (trim l)) (bodyLines body).

(** No line is a CodeRabbit marker and none is a summary heading. *)
Definition noSummarySource (body : jsstring) : bool :=
  negb (someLineMatches CODERABBIT_MARKER_RE body)
  && forallb (fun re => negb (someLineMatches re body)) SUMMARY_HEADING_PATTERNS.

(** A merged pull request with a fix title and the given body. *)
Definition samplePull (body : option jsstring) : PullRequest :=
  mkPullRequest 42 (js "Fix login redirect") body
    (js "https://github.com/Revive-Home/revive-api/pull/42")
    (Some (js "2025-03-01T10:00:00Z")).

(** What a class, or a literal without the [i] flag, does at one
    position. *)
Definition classStep (q : N -> bool) (x : state) : list state :=
  match snd x with
  | ch :: t => if q ch then [(Some ch, t)] else []
  | [] => []
  end.

(** The code unit the matcher stands behind after reading [w] from a
    position behind [p]. *)
Definition lastOf (p : option N) (w : jsstring) : option N :=
  fold_left (fun _ c => Some c) w p.

Definition isLF (c : N) : bool := c =? LF.

(** No position of [s] starts a run of three or more line feeds. *)
Fixpoint noBlankRun (s : jsstring) : bool :=
  (List.length (takeWhile isLF s) <? 3)%nat
  && match s with
     | [] => true
     | _ :: t => noBlankRun t
     end.

(** No code unit of [s] is a line terminator. *)
Definition singleLine (s : jsstring) : bool :=
  forallb (fun c => negb (isLineTerminator c)) s.

(** A code unit that is not a line terminator. *)
Definition inLine (c : N) : Prop := isLineTerminator c = false.

(** A code unit that [/\s+/g] leaves in place, or the space it writes. *)
Definition spaceOrInk (c : N) : Prop := isWhiteSpace c = false \/ c = SP.

(** A pull request without description whose title is longer than the
    maximum, and one whose title is made of hyphens. *)
Definition longTitlePull : PullRequest :=
  mkPullRequest 7 (js "Add " ++ List.repeat (chr "x") 250) None
    (js "https://github.com/Revive-Home/revive-api/pull/7")
    (Some (js "2025-03-01T10:00:00Z")).

Definition hyphenTitlePull : PullRequest :=
  mkPullRequest 8 (js "---") None
    (js "https://github.com/Revive-Home/revive-api/pull/8")
    (Some (js "2025-03-01T10:00:00Z")).

(** A sprint pull request whose description has a summary section. *)
Definition sprintPull : PullRequest :=
  mkPullRequest 9 (js "Sprint 12")
    (Some (js "## Summary" ++ [LF] ++ js "Sprint 12" ++ [LF]))
    (js "https://github.com/Revive-Home/revive-api/pull/9")
    (Some (js "2025-03-01T10:00:00Z")).

Definition sprintEntry : DisplayEntry :=
  mkDisplayEntry 9 (js "Sprint 12 release bundle")
    (js "https://github.com/Revive-Home/revive-api/pull/9")
    (js "2025-03-01T10:00:00Z") false true.

(** ** Vocabulary of the further properties *)

(** Equal up to the case of the letters a-z, which is how the [i] flag
    compares code units against the ASCII literals of the patterns. *)
Definition sameIgnoringCase (w word : jsstring) : Prop :=
  List.map upperUnit w = List.map upperUnit word.

(** [title] holds [word], in any letter case, with no word character right
    before it and none right after it. *)
Definition containsWord (word title : jsstring) : Prop :=
  exists pre w post,
    title = pre ++ w ++ post
    /\ sameIgnoringCase w word
    /\ wordAt (lastOf None pre) = false
    /\ wordAt (hd_error post) = false.

(** [title] starts with [word], in any letter case. *)
Definition startsWithWord (word title : jsstring) : Prop :=
  exists w rest, title = w ++ rest /\ sameIgnoringCase w word.

(** [title] starts with [word], then white space, then a digit. *)
Definition startsWithNumbered (word title : jsstring) : Prop :=
  exists w sp d rest,
    title = w ++ sp ++ d :: rest
    /\ sameIgnoringCase w word
    /\ sp <> []
    /\ Forall (fun c => isWhiteSpace c = true) sp
    /\ isDigit d = true.

(** [text] is [sprint] in any letter case, then white space, then digits up
    to its end. *)
Definition readsSprintNumber (text : jsstring) : Prop :=
  exists w sp ds,
    text = w ++ sp ++ ds
    /\ sameIgnoringCase w (js "Sprint")
    /\ sp <> []
    /\ Forall (fun c => isWhiteSpace c = true) sp
    /\ ds <> []
    /\ Forall (fun c => isDigit c = true) ds.

(** No two neighbouring code units of [s] are both spaces. *)
Fixpoint noDoubleSpace (s : jsstring) : bool :=
  match s with
  | c :: ((d :: _) as t) => negb ((c =? SP) && (d =? SP)) && noDoubleSpace t
  | _ => true
  end.

(** [s] neither starts nor ends with white space. *)
Definition trimmed (s : jsstring) : Prop :=
  (forall c t, s = c :: t -> isWhiteSpace c = false)
  /\ (forall c t, s = t ++ [c] -> isWhiteSpace c = false).

(** The hyphen of [/-/g]. *)
Definition HYPHEN : N := chr "-".

(** A code unit that is not white space. *)
Definition ink (c : N) : Prop := isWhiteSpace c = false.

(** [b] is [a] with every run of code units that are not white space
    replaced by another such run: the spaces are the same and stand between
    the same runs. *)
Inductive sameLayout : jsstring -> jsstring -> Prop :=
| sameLayout_nil : sameLayout [] []
| sameLayout_space (a b : jsstring) :
    sameLayout a b -> sameLayout (SP :: a) (SP :: b)
| sameLayout_ink (u v a b : jsstring) :
    u <> [] -> v <> [] -> Forall ink u -> Forall ink v ->
    sameLayout a b -> sameLayout (u ++ a) (v ++ b).

(** [a] is [b] with some elements left out, the order kept. *)
Inductive Subsequence {A : Type} : list A -> list A -> Prop :=
| Subsequence_nil : Subsequence [] []
| Subsequence_take (x : A) (a b : list A) :
    Subsequence a b -> Subsequence (x :: a) (x :: b)
| Subsequence_skip (x : A) (a b : list A) :
    Subsequence a b -> Subsequence a (x :: b).

(** The items of priority [k]. *)
Definition ofPriority (k : Z) (items : list SummaryItem) : list SummaryItem :=
  filter (fun i => (priorityOf (section i) =? k)%Z) items.

(** [l] is a level 2-6 markdown heading once trimmed. *)
Definition isHeadingLine (l : jsstring) : bool := test MD_HEADING_RE (trim l).

(** The order of the ranked list. *)
Definition byPriority (a b : SummaryItem) : Prop :=
  (priorityOf (section a) <= priorityOf (section b))%Z.

(** An item whose section is one of the fourteen titles, with the priority
    the table gives it. *)
Definition knownItem (i : SummaryItem) : Prop :=
  In (section i) CODERABBIT_SECTION_TITLES_LIST
  /\ (0 <= priorityOf (section i) <= 9)%Z.

(** ** The program: the release document and the index page *)

Definition ORG : jsstring := js "Revive-Home".
Definition REPOS : list jsstring :=
  List.map js
    [ "revive-dashboard"; "revive-admin"; "revive-mobile"; "revive-api" ]%string.

Definition QUOTE : N := 34.

(** The digits of a number, as a template literal prints an integer. *)
Fixpoint uintUnits (d : Decimal.uint) : jsstring :=
  match d with
  | Decimal.Nil => []
  | Decimal.D0 d' => 48 :: uintUnits d'
  | Decimal.D1 d' => 49 :: uintUnits d'
  | Decimal.D2 d' => 50 :: uintUnits d'
  | Decimal.D3 d' => 51 :: uintUnits d'
  | Decimal.D4 d' => 52 :: uintUnits d'
  | Decimal.D5 d' => 53 :: uintUnits d'
  | Decimal.D6 d' => 54 :: uintUnits d'
  | Decimal.D7 d' => 55 :: uintUnits d'
  | Decimal.D8 d' => 56 :: uintUnits d'
  | Decimal.D9 d' => 57 :: uintUnits d'
  end.

Definition decimal (n : N) : jsstring := uintUnits (N.to_uint n).

(** The object [grouped]: the entries of each repository, by name. *)
Definition Grouped : Type := list (jsstring * list DisplayEntry).

(** [grouped[repo] || []] *)
Fixpoint groupOf (grouped : Grouped) (repo : jsstring) : list DisplayEntry :=
  match grouped with
  | [] => []
  | (r, prs) :: rest => if str_eqb r repo then prs else groupOf rest repo
  end.

(** [REPOS.flatMap((r) => (grouped[r] || []))] *)
Definition allPRs (grouped : Grouped) : list DisplayEntry :=
  flat_map (groupOf grouped) REPOS.

Definition fixes (grouped : Grouped) : list DisplayEntry :=
  filter isFix (allPRs grouped).

Definition features (grouped : Grouped) : list DisplayEntry :=
  filter (fun pr => negb (isFix pr) && negb (isSprint pr)) (allPRs grouped).

(** [`- ${pr.title} ([#${pr.number}](${pr.url}))`] *)
Definition entryBullet (pr : DisplayEntry) : jsstring :=
  js "- " ++ title pr ++ js " ([#" ++ decimal (number pr) ++ js "]("
  ++ url pr ++ js "))".

(** [`- ${pr.title}`] *)
Definition highlightBullet (pr : DisplayEntry) : jsstring :=
  js "- " ++ title pr.

Definition ONLY_FIXES : jsstring := js "- Bug fixes and stability improvements".
Definition ROUTINE : jsstring := js "- Routine maintenance release".
Definition NO_UPDATES : jsstring := js "No updates in this release.".
Definition NO_FIXES : jsstring := js "No bug fixes in this release.".

(** The lines pushed under [## Highlights]. *)
Definition highlightLines (grouped : Grouped) : list jsstring :=
  if (0 <? List.length (features grouped))%nat
  then List.map highlightBullet (firstn 6 (features grouped))
  else if (0 <? List.length (fixes grouped))%nat then [ONLY_FIXES]
  else [ROUTINE].

(** The lines pushed for one repository. *)
Definition repoLines (grouped : Grouped) (repo : jsstring) : list jsstring :=
  let prs := groupOf grouped repo in
  [js "### " ++ repo; []]
  ++ (if Nat.eqb (List.length prs) 0 then [NO_UPDATES; []]
      else List.map entryBullet prs ++ [[]]).

(** The lines pushed under [## Fixes]. *)
Definition fixLines (grouped : Grouped) : list jsstring :=
  if (0 <? List.length (fixes grouped))%nat
  then List.map entryBullet (fixes grouped)
  else [NO_FIXES].

(** The array [lines] of [toReleaseNotesMdx]. *)
Definition releaseNotesLines (version : jsstring) (grouped : Grouped)
  : list jsstring :=
  [ js "---";
    js "title: " ++ [QUOTE] ++ version ++ [QUOTE];
    js "description: " ++ [QUOTE] ++ js "Revive platform production release"
      ++ [QUOTE];
    js "---"; []; js "## Highlights"; [] ]
  ++ highlightLines grouped
  ++ [ []; js "## Changes shipped to production"; [] ]
  ++ flat_map (repoLines grouped) REPOS
  ++ [ js "## Fixes"; [] ]
  ++ fixLines grouped
  ++ [ []; js "## Breaking changes"; []; js "No breaking changes."; [] ].

(** [toReleaseNotesMdx]; [version] is a module constant in
    generate-release-notes.mjs and a parameter in backfill-releases.mjs. *)
Definition toReleaseNotesMdx (version : jsstring) (grouped : Grouped)
  : jsstring :=
  join [LF] (releaseNotesLines version grouped).

(** [current.indexOf(p)]: the first index where [p] occurs. *)
Fixpoint indexOfSub (s p : jsstring) : option nat :=
  if isPrefixOf p s then Some 0%nat
  else match s with
       | [] => None
       | _ :: t => option_map S (indexOfSub t p)
       end.

(** What [updateIndexMdx] does with the page it has read: nothing, a write
    of the new content, or the error it throws. *)
Inductive IndexUpdate : Type :=
| IndexUnchanged
| IndexWritten (content : jsstring)
| IndexError.

Definition hrefOf (version : jsstring) : jsstring :=
  js "/release-notes/" ++ version.

(** [`href="${href}"`] *)
Definition hrefAttribute (version : jsstring) : jsstring :=
  js "href=" ++ [QUOTE] ++ hrefOf version ++ [QUOTE].

Definition GROUP_TAG : jsstring := js "<CardGroup cols={1}>".

(** The card inserted after the group tag. *)
Definition cardInsertion (version : jsstring) : jsstring :=
  let cardLine :=
    js "  <Card title=" ++ [QUOTE] ++ version ++ [QUOTE]
    ++ js " icon=" ++ [QUOTE] ++ js "rocket" ++ [QUOTE] ++ js " "
    ++ hrefAttribute version ++ js ">" in
  [LF] ++ cardLine ++ [LF] ++ js "    See what shipped in " ++ version
  ++ js "." ++ [LF] ++ js "  </Card>".

Definition updateIndexMdx (version current : jsstring) : IndexUpdate :=
  if includes current (hrefAttribute version) then IndexUnchanged
  else
    match indexOfSub current GROUP_TAG with
    | None => IndexError
    | Some idx =>
        let insertAt := (idx + List.length GROUP_TAG)%nat in
        IndexWritten (firstn insertAt current ++ cardInsertion version
                      ++ skipn insertAt current)
    end.

(** [text.split('\n')]: the lines of a text. *)
Definition linesOf (text : jsstring) : list jsstring := split LF text.

(** [s] holds no line feed. *)
Definition noLineFeed (s : jsstring) : bool :=
  forallb (fun c => negb (c =? LF)) s.

(** The version, and the title and the address of every entry of a
    configured repository, hold no line feed. *)
Definition singleLineInputs (version : jsstring) (grouped : Grouped) : bool :=
  noLineFeed version
  && forallb (fun e => noLineFeed (title e) && noLineFeed (url e))
       (allPRs grouped).

(** Line predicates of the document. *)
Definition isH2 (l : jsstring) : bool := startsWith l (js "## ").
Definition isH3 (l : jsstring) : bool := startsWith l (js "### ").

(** An entry that can be a highlight. *)
Definition isFeature (pr : DisplayEntry) : bool :=
  negb (isFix pr) && negb (isSprint pr).

Definition str_dec : forall a b : jsstring, {a = b} + {a <> b} :=
  list_eq_dec N.eq_dec.

(** How many lines of [lines] are [l]. *)
Definition occurrences (l : jsstring) (lines : list jsstring) : nat :=
  count_occ str_dec lines l.

(** The four second-level headings of the document. *)
Definition DOCUMENT_SECTIONS : list jsstring :=
  List.map js
    [ "## Highlights"; "## Changes shipped to production"; "## Fixes";
      "## Breaking changes" ]%string.

(** A line that starts like a bullet. *)
Definition bulletLike (l : jsstring) : Prop := exists t, l = chr "-" :: SP :: t.

(** A release with one feature and one fix in the dashboard. *)
Definition sampleFeature : DisplayEntry :=
  mkDisplayEntry 12 (js "Add dark mode")
    (js "https://github.com/Revive-Home/revive-dashboard/pull/12")
    (js "2025-03-02T10:00:00Z") false false.

Definition sampleFix : DisplayEntry :=
  mkDisplayEntry 15 (js "Fix crash on save")
    (js "https://github.com/Revive-Home/revive-dashboard/pull/15")
    (js "2025-03-01T10:00:00Z") true false.

Definition sampleGrouped : Grouped :=
  [ (js "revive-dashboard", [sampleFeature; sampleFix]);
    (js "revive-admin", []); (js "revive-mobile", []); (js "revive-api", []) ].

(** ** The program: the navigation of docs.json *)

Set Warnings "-register-all".

(** An element of a [pages] array: a page path, or a group object with its
    own pages. *)
Inductive NavPage : Type :=
| PagePath (path : jsstring)
| PageGroup (name : jsstring) (subpages : list NavPage).

(** An element of [tab.groups]. *)
Record NavGroup : Type := mkNavGroup {
  group : jsstring;
  pages : list NavPage
}.

(** [config.navigation.tabs], each tab by its [groups]. *)
Definition NavTabs : Type := list (list NavGroup).

(** [yearGroup.pages.includes(pagePath)]: only a string element can be
    equal to the path. *)
Definition hasPage (ps : list NavPage) (pagePath : jsstring) : bool :=
  existsb (fun p => match p with
                    | PagePath s => str_eqb s pagePath
                    | PageGroup _ _ => false
                    end) ps.

(** The [find] of the year group, the [push] of a new one when there is
    none, and the [unshift] of the page when it is not there yet. *)
Fixpoint addToYear (yearGroupName pagePath : jsstring) (ps : list NavPage)
  : list NavPage :=
  match ps with
  | [] => [PageGroup yearGroupName [PagePath pagePath]]
  | PageGroup n sub :: rest =>
      if str_eqb n yearGroupName
      then PageGroup n (if hasPage sub pagePath then sub
                        else PagePath pagePath :: sub) :: rest
      else PageGroup n sub :: addToYear yearGroupName pagePath rest
  | p :: rest => p :: addToYear yearGroupName pagePath rest
  end.

Definition RELEASES : jsstring := js "Releases".

(** The inner loop over [tab.groups]: the first group named Releases is
    the one updated. *)
Fixpoint updateGroups (yearGroupName pagePath : jsstring) (gs : list NavGroup)
  : option (list NavGroup) :=
  match gs with
  | [] => None
  | g :: rest =>
      if str_eqb (group g) RELEASES
      then Some (mkNavGroup (group g)
                   (addToYear yearGroupName pagePath (pages g)) :: rest)
      else option_map (cons g) (updateGroups yearGroupName pagePath rest)
  end.

(** The outer loop over the tabs. *)
Fixpoint updateTabs (yearGroupName pagePath : jsstring) (tabs : NavTabs)
  : option NavTabs :=
  match tabs with
  | [] => None
  | gs :: rest =>
      match updateGroups yearGroupName pagePath gs with
      | Some gs' => Some (gs' :: rest)
      | None => option_map (cons gs) (updateTabs yearGroupName pagePath rest)
      end
  end.

(** [updateDocsJson] on the parsed navigation; [year] is the year the clock
    gives.  [None] is the early return that writes nothing. *)
Definition updateDocsJson (year version : jsstring) (tabs : NavTabs)
  : option NavTabs :=
  updateTabs (year ++ js " Release Notes") (js "release-notes/" ++ version) tabs.

(** The pages of the first group named Releases, as the two loops find
    it. *)
Fixpoint releasesPages (tabs : NavTabs) : option (list NavPage) :=
  match tabs with
  | [] => None
  | gs :: rest =>
      match find (fun g => str_eqb (group g) RELEASES) gs with
      | Some g => Some (pages g)
      | None => releasesPages rest
      end
  end.

(** The pages of the first group object named [name] in [ps]. *)
Fixpoint yearPages (name : jsstring) (ps : list NavPage)
  : option (list NavPage) :=
  match ps with
  | [] => None
  | PageGroup n sub :: rest =>
      if str_eqb n name then Some sub else yearPages name rest
  | _ :: rest => yearPages name rest
  end.

(** ** The program: the loops that fill [grouped]

    The search results and the pull requests come from the GitHub API; the
    loops are embedded over the list of search items and a function
    [ghJson] from the URL of a pull request to what the API returns for it,
    [None] when the request fails.  The sort by merge date that follows the
    loop compares with [localeCompare] and is not part of the embedding. *)

(** [s.split(sep)] for a separator of one or more code units. *)
Fixpoint splitOn (fuel : nat) (sep s : jsstring) : list jsstring :=
  match fuel with
  | O => [s]
  | S fuel' =>
      match indexOfSub s sep with
      | None => [s]
      | Some i =>
          firstn i s :: splitOn fuel' sep (skipn (i + List.length sep) s)
      end
  end.

Definition splitBy (sep s : jsstring) : list jsstring :=
  splitOn (S (List.length s)) sep s.

(** The fields of a search item that the loops read. *)
Record SearchItem : Type := mkSearchItem {
  repository_url : option jsstring;
  item_number : N
}.

(** What a variable holding a string or [undefined] prints in a template
    literal, and the key it stands for in [grouped[repo]]. *)
Definition textOf (repo : option jsstring) : jsstring :=
  match repo with Some r => r | None => js "undefined" end.

(** [`https://api.github.com/repos/${ORG}/${repo}/pulls/${number}`] *)
Definition pullUrl (repo : option jsstring) (n : N) : jsstring :=
  js "https://api.github.com/repos/" ++ ORG ++ js "/" ++ textOf repo
  ++ js "/pulls/" ++ decimal n.

(** [item.repository_url?.split('/repos/')[1]] *)
Definition fullRepoOf (item : SearchItem) : option jsstring :=
  match repository_url item with
  | None => None
  | Some u => nth_error (splitBy (js "/repos/") u) 1
  end.

(** What one turn of a loop does: [continue], throw, or push an entry to
    [grouped[key]]. *)
Inductive Route : Type :=
| Skip
| Throw
| Push (key : jsstring) (e : DisplayEntry).

(** One turn of the loop of [main] in generate-release-notes.mjs, up to the
    push: a failed request is not caught. *)
Definition routeItem (ghJson : jsstring -> option PullRequest)
           (item : SearchItem) : Route :=
  match fullRepoOf item with
  | None => Skip
  | Some fullRepo =>
      if is_empty fullRepo then Skip
      else
        let parts := split (chr "/") fullRepo in
        let org := hd [] parts in
        let repo := nth_error parts 1 in
        if negb (str_eqb org ORG) then Skip
        else
          match ghJson (pullUrl repo (item_number item)) with
          | None => Throw
          | Some pr =>
              match buildDisplayEntry pr with
              | None => Skip
              | Some e => Push (textOf repo) e
              end
          end
  end.

(** [REPOS.includes(repo)] *)
Definition isRepo (repo : option jsstring) : bool :=
  match repo with
  | Some r => existsb (str_eqb r) REPOS
  | None => false
  end.

(** One turn of the loop of [main] in backfill-releases.mjs followed by the
    turn of [buildGrouped] for the same pull request: repositories outside
    [REPOS] are skipped and a failed request is caught. *)
Definition backfillRouteItem (ghJson : jsstring -> option PullRequest)
           (item : SearchItem) : Route :=
  match fullRepoOf item with
  | None => Skip
  | Some fullRepo =>
      if is_empty fullRepo then Skip
      else
        let parts := split (chr "/") fullRepo in
        let org := hd [] parts in
        let repo := nth_error parts 1 in
        if negb (str_eqb org ORG) || negb (isRepo repo) then Skip
        else
          match ghJson (pullUrl repo (item_number item)) with
          | None => Skip
          | Some pr =>
              match Backfill.buildDisplayEntry pr with
              | None => Skip
              | Some e => Push (textOf repo) e
              end
          end
  end.

(** [grouped[key].push(e)]; [None] is the TypeError raised when [key] is
    not one of the keys the object was built with. *)
Fixpoint pushEntry (grouped : Grouped) (key : jsstring) (e : DisplayEntry)
  : option Grouped :=
  match grouped with
  | [] => None
  | (r, prs) :: rest =>
      if str_eqb r key then Some ((r, prs ++ [e]) :: rest)
      else option_map (cons (r, prs)) (pushEntry rest key e)
  end.

(** [Object.fromEntries(REPOS.map((r) => [r, []]))] *)
Definition emptyGrouped : Grouped := List.map (fun r => (r, [])) REPOS.

(** The loop over the items; [None] when a turn throws. *)
Fixpoint fillGrouped (route : SearchItem -> Route) (grouped : Grouped)
         (items : list SearchItem) : option Grouped :=
  match items with
  | [] => Some grouped
  | item :: rest =>
      match route item with
      | Skip => fillGrouped route grouped rest
      | Throw => None
      | Push key e =>
          match pushEntry grouped key e with
          | None => None
          | Some grouped' => fillGrouped route grouped' rest
          end
      end
  end.

(** The entry a turn adds to the group of [repo], if any. *)
Definition landsIn (repo : jsstring) (r : Route) : list DisplayEntry :=
  match r with
  | Push key e => if str_eqb key repo then [e] else []
  | _ => []
  end.

(** A turn that makes the loop throw. *)
Definition throws (r : Route) : Prop :=
  r = Throw \/ exists key e, r = Push key e /\ ~ In key REPOS.

(** A search result for pull request 42 of revive-api, an API that knows
    that pull request only, and the entry built from it. *)
Definition sampleItem : SearchItem :=
  mkSearchItem (Some (js "https://api.github.com/repos/Revive-Home/revive-api"))
    42.

Definition sampleApi (u : jsstring) : option PullRequest :=
  if str_eqb u
       (js "https://api.github.com/repos/Revive-Home/revive-api/pulls/42")
  then Some (samplePull None) else None.

Definition sampleEntry : DisplayEntry :=
  mkDisplayEntry 42 (js "Fix login redirect")
    (js "https://github.com/Revive-Home/revive-api/pull/42")
    (js "2025-03-01T10:00:00Z") true false.
(** * Properties *)

(** Case analysis on the comparisons of code units. *)
Ltac chars :=
  unfold isWordChar, isUpperAZ, isLowerAZ, isDigit, isLineTerminator,
    isWhiteSpace, upperUnit, isUpperAZ, isLowerAZ in *;
  repeat match goal with
         | |- context [(?a <=? ?b)%N] => destruct (N.leb_spec a b)
         | |- context [(?a =? ?b)%N] => destruct (N.eqb_spec a b)
         | H : context [(?a <=? ?b)%N] |- _ => destruct (N.leb_spec a b)
         | H : context [(?a =? ?b)%N] |- _ => destruct (N.eqb_spec a b)
         end;
  cbn in *; try reflexivity; try discriminate; try lia.


(** ** Strings and lists *)

Lemma str_eqb_eq (a b : jsstring) : str_eqb a b = true <-> a = b.
Proof.
  revert b; induction a as [|x a IH]; intros [|y b]; simpl; split;
    intros H; try discriminate; try reflexivity.
  - apply andb_true_iff in H as [Hx Hab].
    apply N.eqb_eq in Hx; apply IH in Hab; congruence.
  - injection H as -> ->. rewrite N.eqb_refl. simpl. now apply IH.
Qed.

Lemma str_eqb_neq (a b : jsstring) : str_eqb a b = false <-> a <> b.
Proof.
  split; intros H.
  - intros E. apply str_eqb_eq in E. congruence.
  - destruct (str_eqb a b) eqn:E; [|reflexivity].
    apply str_eqb_eq in E. contradiction.
Qed.

Lemma slice0_length (s : jsstring) (n : Z) :
  (0 <= n)%Z -> (List.length (slice0 s n) <= Z.to_nat n)%nat.
Proof.
  intros Hn. unfold slice0.
  destruct (n <? 0)%Z eqn:E; [apply Z.ltb_lt in E; lia|].
  rewrite length_firstn. lia.
Qed.

Lemma slice0_prefix (s : jsstring) (n : Z) :
  exists k, slice0 s n = firstn k s.
Proof. unfold slice0. destruct (n <? 0)%Z; eauto. Qed.

Lemma lastIndexOf_from_bound (c : N) (s : jsstring) (i acc : Z) :
  (acc < i)%Z ->
  (lastIndexOf_from c s i acc < i + Z.of_nat (List.length s))%Z.
Proof.
  revert i acc; induction s as [|x s IH]; intros i acc H; simpl.
  - lia.
  - specialize (IH (i + 1)%Z (if x =? c then i else acc)).
    destruct (x =? c); lia.
Qed.

Lemma lastIndexOf_bound (c : N) (s : jsstring) :
  (lastIndexOf c s < Z.of_nat (List.length s))%Z.
Proof.
  unfold lastIndexOf.
  pose proof (lastIndexOf_from_bound c s 0 (-1)). lia.
Qed.

(** ** Case conversion *)

Lemma codePoints_ind (P : jsstring -> Prop) :
  P [] ->
  (forall c, P [c]) ->
  (forall c d t,
      isLeadSurrogate c && isTrailSurrogate d = true -> P t -> P (c :: d :: t)) ->
  (forall c d t,
      isLeadSurrogate c && isTrailSurrogate d = false ->
      P (d :: t) -> P (c :: d :: t)) ->
  forall s, P s.
Proof.
  intros H0 H1 Hp Hu s.
  assert (H : forall n s, (List.length s <= n)%nat -> P s).
  { clear s. induction n as [|n IH]; intros [|c [|d t]] L; cbn in L;
      try exact H0; try apply H1; try lia.
    destruct (isLeadSurrogate c && isTrailSurrogate d) eqn:E.
    - apply Hp; [exact E|]. apply IH. lia.
    - apply Hu; [exact E|]. apply IH. cbn. lia. }
  apply (H (List.length s)). lia.
Qed.

Lemma StringToCodePoints_pair (c d : N) (t : jsstring) :
  isLeadSurrogate c && isTrailSurrogate d = true ->
  StringToCodePoints (c :: d :: t)
  = (0x10000 + (c - 0xD800) * 0x400 + (d - 0xDC00)) :: StringToCodePoints t.
Proof. intros E. cbn [StringToCodePoints]. now rewrite E. Qed.

Lemma StringToCodePoints_unit (c d : N) (t : jsstring) :
  isLeadSurrogate c && isTrailSurrogate d = false ->
  StringToCodePoints (c :: d :: t) = c :: StringToCodePoints (d :: t).
Proof. intros E. cbn [StringToCodePoints]. now rewrite E. Qed.

Lemma CodePointsToString_app (a b : list N) :
  CodePointsToString (a ++ b) = CodePointsToString a ++ CodePointsToString b.
Proof. apply flat_map_app. Qed.

Lemma CodePointsToString_cons (cp : N) (cps : list N) :
  CodePointsToString (cp :: cps)
  = UTF16EncodeCodePoint cp ++ CodePointsToString cps.
Proof. reflexivity. Qed.

Lemma surrogate_pair_range (c d : N) :
  isLeadSurrogate c && isTrailSurrogate d = true ->
  0x10000 <= 0x10000 + (c - 0xD800) * 0x400 + (d - 0xDC00) <= 0x10FFFF.
Proof.
  unfold isLeadSurrogate, isTrailSurrogate. intros E.
  apply andb_true_iff in E as [E1 E2].
  apply andb_true_iff in E1 as [E1 E1'], E2 as [E2 E2'].
  apply N.leb_le in E1, E1', E2, E2'. lia.
Qed.

(** A code point is written as itself or as surrogates. *)
Lemma UTF16EncodeCodePoint_units (cp u : N) :
  In u (UTF16EncodeCodePoint cp) ->
  (u = cp /\ (cp < 0x10000 \/ 0x10FFFF < cp)) \/ isSurrogate u = true.
Proof.
  unfold UTF16EncodeCodePoint.
  destruct (cp <? 0x10000) eqn:E1; [|destruct (0x10FFFF <? cp) eqn:E2];
    cbn [orb In].
  - apply N.ltb_lt in E1. intros [<-|[]]. left. split; [reflexivity | now left].
  - apply N.ltb_lt in E2. intros [<-|[]]. left. split; [reflexivity | now right].
  - apply N.ltb_ge in E1, E2. intros H. right. unfold isSurrogate.
    assert (Hq : (cp - 0x10000) / 0x400 < 0x400).
    { apply N.Div0.div_lt_upper_bound. lia. }
    assert (Hr : (cp - 0x10000) mod 0x400 < 0x400).
    { apply N.mod_lt. discriminate. }
    revert H Hq Hr.
    generalize ((cp - 0x10000) / 0x400), ((cp - 0x10000) mod 0x400).
    intros q r [<-|[<-|[]]] Hq Hr; apply andb_true_iff; split;
      apply N.leb_le; lia.
Qed.

Lemma UTF16EncodeCodePoint_not_nil (cp : N) : UTF16EncodeCodePoint cp <> [].
Proof.
  unfold UTF16EncodeCodePoint.
  now destruct ((cp <? 0x10000) || (0x10FFFF <? cp)).
Qed.

Lemma caseMapping_cases (table : list (N * list N)) (cp : N) :
  caseMapping table cp = [cp]
  \/ In (cp, caseMapping table cp) table.
Proof.
  induction table as [|[k v] table IH]; cbn [caseMapping]; [now left|].
  destruct (N.eqb_spec cp k) as [->|_]; [right; now left|].
  destruct IH as [IH|IH]; [now left | right; now right].
Qed.

Lemma mappedUnits_In (table : list (N * list N)) (k u : N) (v : list N) :
  In (k, v) table -> In u (CodePointsToString v) -> In u (mappedUnits table).
Proof.
  intros Hkv Hu. unfold mappedUnits. apply in_flat_map.
  exists (k, v). now split.
Qed.

Section Units.
Variable P : N -> Prop.
Hypothesis surrogates : forall u, isSurrogate u = true -> P u.

Lemma encoded_unit (c : N) : P c -> Forall P (UTF16EncodeCodePoint c).
Proof.
  intros Hc. apply Forall_forall. intros u Hu.
  apply UTF16EncodeCodePoint_units in Hu as [[-> _]|Hu]; auto.
Qed.

Lemma encoded_pair (c d : N) :
  isLeadSurrogate c && isTrailSurrogate d = true ->
  Forall P (UTF16EncodeCodePoint
              (0x10000 + (c - 0xD800) * 0x400 + (d - 0xDC00))).
Proof.
  intros E. apply surrogate_pair_range in E.
  apply Forall_forall. intros u Hu.
  apply UTF16EncodeCodePoint_units in Hu as [[_ Hu]|Hu]; [lia | auto].
Qed.

Lemma caseMapping_units (table : list (N * list N)) (cp : N) :
  Forall P (mappedUnits table) ->
  Forall P (UTF16EncodeCodePoint cp) ->
  Forall P (CodePointsToString (caseMapping table cp)).
Proof.
  intros Ht Hcp.
  destruct (caseMapping_cases table cp) as [E|E].
  - rewrite E. cbn. now rewrite app_nil_r.
  - apply Forall_forall. intros u Hu. rewrite Forall_forall in Ht.
    eapply Ht, mappedUnits_In; eauto.
Qed.

Lemma toUppercase_units (cps : list N) :
  Forall P (mappedUnits UPPERCASE_MAPPING) ->
  Forall (fun cp => Forall P (UTF16EncodeCodePoint cp)) cps ->
  Forall P (CodePointsToString (toUppercase cps)).
Proof.
  intros Ht. induction 1 as [|cp cps Hcp _ IH]; [constructor|].
  unfold toUppercase. cbn [flat_map]. rewrite CodePointsToString_app.
  apply Forall_app. split; [now apply caseMapping_units | exact IH].
Qed.

Lemma toLowercase_units (cps : list N) :
  Forall P (mappedUnits LOWERCASE_MAPPING) ->
  P SMALL_FINAL_SIGMA ->
  Forall (fun cp => Forall P (UTF16EncodeCodePoint cp)) cps ->
  forall before, Forall P (CodePointsToString (toLowercase before cps)).
Proof.
  intros Ht Hf. induction 1 as [|cp cps Hcp _ IH]; intros before;
    [constructor|].
  cbn [toLowercase]. rewrite CodePointsToString_app.
  apply Forall_app. split; [|apply IH].
  destruct (cp =? CAPITAL_SIGMA) eqn:E; [|now apply caseMapping_units].
  apply N.eqb_eq in E. subst cp.
  destruct (reachesCased before && negb (reachesCased cps)).
  - repeat constructor. exact Hf.
  - change [SMALL_SIGMA] with (caseMapping LOWERCASE_MAPPING CAPITAL_SIGMA).
    now apply caseMapping_units.
Qed.

Lemma StringToCodePoints_units (s : jsstring) :
  Forall P s ->
  Forall (fun cp => Forall P (UTF16EncodeCodePoint cp)) (StringToCodePoints s).
Proof.
  induction s as [| c | c d t E IH | c d t E IH] using codePoints_ind;
    intros H.
  - constructor.
  - inversion H; subst. repeat constructor. now apply encoded_unit.
  - rewrite StringToCodePoints_pair by exact E.
    inversion H as [|? ? _ H']; subst. inversion H'; subst.
    constructor; [now apply encoded_pair | auto].
  - rewrite StringToCodePoints_unit by exact E.
    inversion H; subst. constructor; [now apply encoded_unit | auto].
Qed.

(** What holds of the code units of a string, of the surrogates and of the
    code units the table can write holds of the converted string. *)
Lemma toUpperCase_units (s : jsstring) :
  Forall P (mappedUnits UPPERCASE_MAPPING) ->
  Forall P s -> Forall P (toUpperCase s).
Proof.
  intros Ht H. apply toUppercase_units; [exact Ht|].
  now apply StringToCodePoints_units.
Qed.

Lemma toLowerCase_units (s : jsstring) :
  Forall P (mappedUnits LOWERCASE_MAPPING) ->
  P SMALL_FINAL_SIGMA ->
  Forall P s -> Forall P (toLowerCase s).
Proof.
  intros Ht Hf H. apply toLowercase_units; auto.
  now apply StringToCodePoints_units.
Qed.

End Units.

Lemma Canonicalize_low (c : N) :
  c < 128 -> Canonicalize c = upperUnit c /\ upperUnit c < 128.
Proof.
  intros H.
  assert (T : forallb (fun n => (Canonicalize (N.of_nat n)
                                 =? upperUnit (N.of_nat n))
                                && (upperUnit (N.of_nat n) <? 128))
                (List.seq 0 128) = true) by (vm_compute; reflexivity).
  rewrite forallb_forall in T. specialize (T (N.to_nat c)).
  rewrite N2Nat.id in T.
  assert (Hin : In (N.to_nat c) (List.seq 0 128)) by (apply in_seq; lia).
  apply T, andb_true_iff in Hin as [E L].
  apply N.eqb_eq in E. apply N.ltb_lt in L. now split.
Qed.

Lemma Canonicalize_high (ch : N) : 128 <= ch -> 128 <= Canonicalize ch.
Proof.
  intros H. unfold Canonicalize.
  destruct (toUpperCase [ch]) as [|cu [|]]; try exact H.
  replace (128 <=? ch) with true by (symmetry; apply N.leb_le; exact H).
  cbn [andb]. destruct (N.ltb_spec cu 128); [exact H | assumption].
Qed.

(** Against an ASCII code unit of a pattern, [Canonicalize] compares as
    ASCII case folding does. *)
Lemma Canonicalize_ascii (ch c : N) :
  c < 128 -> (Canonicalize ch = Canonicalize c <-> upperUnit ch = upperUnit c).
Proof.
  intros Hc. destruct (Canonicalize_low c Hc) as [-> Hu].
  destruct (N.lt_ge_cases ch 128) as [H|H].
  - now destruct (Canonicalize_low ch H) as [-> _].
  - pose proof (Canonicalize_high ch H) as Hh.
    assert (E : upperUnit ch = ch).
    { unfold upperUnit, isLowerAZ.
      replace (ch <=? 122) with false by (symmetry; apply N.leb_gt; lia).
      now rewrite andb_false_r. }
    rewrite E. split; intros; lia.
Qed.

Lemma Forall_forallb (p : N -> bool) (l : jsstring) :
  forallb p l = true -> Forall (fun u => p u = true) l.
Proof. intros H. apply Forall_forall. now apply forallb_forall. Qed.

(** ** Selection (C3) *)

Lemma selectLoop_cons (selected rest : list SummaryItem) (item : SummaryItem) :
  selectLoop selected (item :: rest)
  = if (4 <=? List.length selected)%nat then selected
    else if (2 <=? countInSection selected (section item))%nat
         then selectLoop selected rest
         else selectLoop (selected ++ [item]) rest.
Proof. reflexivity. Qed.

Lemma selectLoop_snoc (selected pre : list SummaryItem) (item : SummaryItem) :
  selectLoop selected (pre ++ [item])
  = selectStep (selectLoop selected pre) item.
Proof.
  revert selected; induction pre as [|x pre IH]; intros selected.
  - reflexivity.
  - rewrite <- app_comm_cons, !selectLoop_cons.
    destruct (4 <=? List.length selected)%nat eqn:E4.
    + unfold selectStep. now rewrite E4.
    + destruct (2 <=? countInSection selected (section x))%nat; apply IH.
Qed.

Lemma countInSection_app (a b : list SummaryItem) (key : jsstring) :
  countInSection (a ++ b) key
  = (countInSection a key + countInSection b key)%nat.
Proof. unfold countInSection. now rewrite filter_app, length_app. Qed.

Lemma countInSection_one (x : SummaryItem) (key : jsstring) :
  countInSection [x] key = if str_eqb (section x) key then 1%nat else 0%nat.
Proof.
  unfold countInSection. cbn [filter].
  now destruct (str_eqb (section x) key).
Qed.

(** The loop keeps both caps once they hold. *)
Lemma selectLoop_caps (items selected : list SummaryItem) :
  (List.length selected <= 4)%nat ->
  (forall key, (countInSection selected key <= 2)%nat) ->
  (List.length (selectLoop selected items) <= 4)%nat
  /\ (forall key, (countInSection (selectLoop selected items) key <= 2)%nat).
Proof.
  revert selected; induction items as [|x items IH]; intros selected Hl Hc.
  - now split.
  - rewrite selectLoop_cons.
    destruct (4 <=? List.length selected)%nat eqn:E4; [now split|].
    apply Nat.leb_gt in E4.
    destruct (2 <=? countInSection selected (section x))%nat eqn:E2.
    + now apply IH.
    + apply Nat.leb_gt in E2. apply IH.
      * rewrite length_app. cbn [List.length]. lia.
      * intros key. rewrite countInSection_app, countInSection_one.
        destruct (str_eqb (section x) key) eqn:Ek.
        -- apply str_eqb_eq in Ek. subst key. lia.
        -- specialize (Hc key). lia.
Qed.

(** C3: the sentence is built from at most four items and at most two of
    each section; the loop is a left-to-right pass in which an item is taken
    exactly when fewer than four items and fewer than two of its section
    were taken before it, so an item skipped for its section leaves the
    count of four untouched and the items after it are still looked at: of
    three New Features items followed by a Bug Fixes item, the third is
    skipped and the fourth is taken. *)
Theorem selection_caps_and_skips :
  (forall items,
      (List.length (List.map renderItem (selectItems items)) <= 4)%nat
      /\ (List.length (List.map Backfill.renderItem (selectItems items)) <= 4)%nat
      /\ (forall key, (countInSection (selectItems items) key <= 2)%nat))
  /\ (forall pre item,
         selectItems (pre ++ [item])
         = if (4 <=? List.length (selectItems pre))%nat then selectItems pre
           else if (2 <=? countInSection (selectItems pre) (section item))%nat
                then selectItems pre
                else selectItems pre ++ [item])
  /\ (forall t1 t2 t3 t4,
         selectItems [ mkItem (js "New Features") t1;
                       mkItem (js "New Features") t2;
                       mkItem (js "New Features") t3;
                       mkItem (js "Bug Fixes") t4 ]
         = [ mkItem (js "New Features") t1; mkItem (js "New Features") t2;
             mkItem (js "Bug Fixes") t4 ]).
Proof.
  split; [|split].
  - intros items.
    destruct (selectLoop_caps items [] (Nat.le_0_l _) (fun _ => Nat.le_0_l _))
      as [Hl Hc].
    rewrite !length_map. auto.
  - intros pre item. unfold selectItems. apply selectLoop_snoc.
  - intros t1 t2 t3 t4. reflexivity.
Qed.

(** ** The CodeRabbit scenario (C4) *)

(** C4: on the scenario body the extractor parses the two items, of
    priorities 0 and 1, selects both and returns the sentence with the
    doubled "fixed"; the copy in the backfill script returns the same. *)
Theorem coderabbit_scenario :
  option_map (fun rest => summaryItems (captureBlock rest))
    (linesAfterFirst (test CODERABBIT_MARKER_RE) (bodyLines scenarioBody))
  = Some [ mkItem (js "New Features") (js "Added dark mode");
           mkItem (js "Bug Fixes") (js "Fixed crash on save") ]
  /\ priorityOf (js "New Features") = 0%Z
  /\ priorityOf (js "Bug Fixes") = 1%Z
  /\ List.map renderItem
       [ mkItem (js "New Features") (js "Added dark mode");
         mkItem (js "Bug Fixes") (js "Fixed crash on save") ]
     = [ js "added dark mode"; js "fixed fixed crash on save" ]
  /\ extractCodeRabbitSummary scenarioBody
     = js "Added dark mode and fixed fixed crash on save"
  /\ Backfill.extractCodeRabbitSummary scenarioBody
     = js "Added dark mode and fixed fixed crash on save".
Proof. repeat split; vm_compute; reflexivity. Qed.

(** ** The branch-name scenario (C5) *)

(** C5, the code at the example of its own doc comment: the ticket and the
    author segments are dropped and the hyphens become spaces, but the words
    keep their capitals, since only an all-capitals title is lower-cased;
    the result is not the documented "Weekly update character limit". *)
Theorem cleanPRTitle_branch_name :
  cleanPRTitle (js "TEC-7097/Weekly-Update-Character-Limit/Carlo-Sanchez")
  = js "Weekly Update Character Limit"
  /\ cleanPRTitle (js "TEC-7097/Weekly-Update-Character-Limit/Carlo-Sanchez")
     <> js "Weekly update character limit".
Proof. split; vm_compute; [reflexivity | discriminate]. Qed.

(** ** Rendering (C6) *)

Lemma In_str_eqb_false (s x : jsstring) (l : list jsstring) :
  ~ In s l -> In x l -> str_eqb s x = false.
Proof. intros Hn Hx. apply str_eqb_neq. intros ->. contradiction. Qed.

(** C6 as stated fails in generate-release-notes.mjs: a Performance item is
    rendered with the label "performance: ". *)
Lemma render_performance_labelled :
  ~ In PERFORMANCE PREFIXED_SECTIONS
  /\ renderItem (mkItem PERFORMANCE (js "Faster queries"))
     = js "performance: faster queries"
  /\ renderItem (mkItem PERFORMANCE (js "Faster queries"))
     <> itemText (mkItem PERFORMANCE (js "Faster queries")).
Proof.
  split; [|split].
  - vm_compute. intuition discriminate.
  - vm_compute. reflexivity.
  - vm_compute. discriminate.
Qed.

(** C6, amended: outside the five sections of the claim and Performance the
    fragment is the item text as it is; a Performance item gets the label
    "performance: " in generate-release-notes.mjs, and none in
    backfill-releases.mjs, where the claim holds as stated. *)
Theorem render_other_sections_unchanged (item : SummaryItem) :
  ~ In (section item) PREFIXED_SECTIONS ->
  (section item <> PERFORMANCE -> renderItem item = itemText item)
  /\ (section item = PERFORMANCE ->
      renderItem item = js "performance: " ++ itemText item)
  /\ Backfill.renderItem item = itemText item.
Proof.
  intros Hn.
  assert (F : forall x, In x PREFIXED_SECTIONS -> str_eqb (section item) x = false).
  { intros x Hx. now apply (In_str_eqb_false _ _ PREFIXED_SECTIONS). }
  pose proof (F (js "New Features")) as F1.
  pose proof (F (js "Enhancements")) as F2.
  pose proof (F (js "Bug Fixes")) as F3.
  pose proof (F (js "Improvements")) as F4.
  pose proof (F (js "Validation")) as F5.
  unfold PREFIXED_SECTIONS in F1, F2, F3, F4, F5.
  cbn [List.map In] in F1, F2, F3, F4, F5.
  unfold renderItem, Backfill.renderItem.
  rewrite F1, F2, F3, F4, F5 by tauto.
  cbn [orb]. split; [|split].
  - intros Hp. apply str_eqb_neq in Hp. fold PERFORMANCE. now rewrite Hp.
  - intros Hp. fold PERFORMANCE. rewrite Hp.
    now replace (str_eqb PERFORMANCE PERFORMANCE) with true by reflexivity.
  - reflexivity.
Qed.

Lemma render_other_sections_unchanged_witness :
  renderItem (mkItem (js "Refactor") (js "Moved the parser"))
  = js "moved the parser"
  /\ Backfill.renderItem (mkItem (js "Refactor") (js "Moved the parser"))
     = js "moved the parser".
Proof.
  assert (Hn : ~ In (section (mkItem (js "Refactor") (js "Moved the parser")))
                 PREFIXED_SECTIONS).
  { vm_compute. intuition discriminate. }
  destruct (render_other_sections_unchanged _ Hn) as [H1 [_ H3]].
  split.
  - rewrite H1; [reflexivity | vm_compute; discriminate].
  - rewrite H3. reflexivity.
Defined.

(** ** Truncation (C7) *)

Lemma toSingleLineSummary_bound (text : jsstring) (maxLen : nat) :
  (0 < maxLen)%nat ->
  (List.length (toSingleLineSummary text maxLen) <= maxLen)%nat.
Proof.
  intros Hpos. unfold toSingleLineSummary.
  set (oneLine := replace (normalizeSummaryText text) SPACES_RE [SP]).
  destruct (is_empty oneLine); [cbn; lia|].
  destruct (List.length oneLine <=? maxLen)%nat eqn:E.
  - now apply Nat.leb_le in E.
  - set (truncated := slice0 oneLine (Z.of_nat maxLen)).
    assert (Ht : (List.length truncated <= maxLen)%nat).
    { pose proof (slice0_length oneLine (Z.of_nat maxLen)). fold truncated in H. lia. }
    pose proof (lastIndexOf_bound SP truncated) as Hb.
    destruct (3 * Z.of_nat maxLen <? 5 * lastIndexOf SP truncated)%Z eqn:E6;
      rewrite length_app; cbn [List.length].
    + apply Z.ltb_lt in E6.
      pose proof (slice0_length truncated (lastIndexOf SP truncated)). lia.
    + pose proof (slice0_length truncated (Z.of_nat maxLen - 1)). lia.
Qed.

(** C7: for a positive [maxLen] the result is at most [maxLen] code units
    long, the ellipsis being one of them. *)
Theorem toSingleLineSummary_length (text : jsstring) (maxLen : nat) :
  (0 < maxLen)%nat ->
  (List.length (toSingleLineSummary text maxLen) <= maxLen)%nat.
Proof. apply toSingleLineSummary_bound. Qed.

Lemma toSingleLineSummary_length_witness :
  (List.length
     (toSingleLineSummary (js "  one two  three four five six seven") 20)
   <= 20)%nat.
Proof. apply toSingleLineSummary_length. lia. Defined.

(** ** The fallback chain (C8) *)

Lemma linesAfterFirst_none (p : jsstring -> bool) (lines : list jsstring) :
  existsb (fun l => p (trim l)) lines = false ->
  linesAfterFirst p lines = None.
Proof.
  induction lines as [|l lines IH]; cbn [existsb linesAfterFirst]; intros H.
  - reflexivity.
  - apply orb_false_iff in H as [Hl Hr]. rewrite Hl. now apply IH.
Qed.

Lemma normalizeSummaryText_empty : normalizeSummaryText [] = [].
Proof. reflexivity. Qed.

Lemma firstHeadingSection_none (body : jsstring) (patterns : list RegExp) :
  forallb (fun re => negb (someLineMatches re body)) patterns = true ->
  firstHeadingSection body patterns = [].
Proof.
  induction patterns as [|re patterns IH]; cbn [forallb firstHeadingSection];
    intros H.
  - reflexivity.
  - apply andb_true_iff in H as [Hre Hrest].
    apply negb_true_iff in Hre. unfold someLineMatches in Hre.
    unfold extractSectionUnderHeading.
    rewrite (linesAfterFirst_none (fun line => test re line) _ Hre).
    destruct (is_empty body); rewrite normalizeSummaryText_empty;
      cbn [is_empty]; now apply IH.
Qed.

(** C8: a body without a marker line and without a summary heading line
    yields the empty summary, and the display summary is then the cleaned
    original title. *)
Theorem no_summary_source_falls_back (body : jsstring) :
  noSummarySource body = true ->
  extractPreferredSummaryFromBody (Some body) = []
  /\ forall originalTitle,
       displaySummary originalTitle (Some body) = cleanPRTitle originalTitle.
Proof.
  intros H. apply andb_true_iff in H as [Hm Hh].
  apply negb_true_iff in Hm. unfold someLineMatches in Hm.
  assert (E : extractPreferredSummaryFromBody (Some body) = []).
  { unfold extractPreferredSummaryFromBody, extractCodeRabbitSummary.
    rewrite (linesAfterFirst_none _ _ Hm).
    destruct (is_empty body); [reflexivity|].
    cbn [is_empty negb]. now apply firstHeadingSection_none. }
  split; [exact E|].
  intros originalTitle. unfold displaySummary. rewrite E. reflexivity.
Qed.

Lemma no_summary_source_falls_back_witness :
  extractPreferredSummaryFromBody
    (Some (js "Adds a retry to the upload job." ++ [LF] ++ js "# Summary of tests"))
  = [].
Proof.
  refine (proj1 (no_summary_source_falls_back _ _)).
  vm_compute. reflexivity.
Defined.

(** ** Classification (C9) *)

(** C9: the fix flag, the sprint flag and the exclusion are computed from
    the original title; two pull requests with the same title get the same
    decision and the same flags whatever their bodies, in both scripts. *)
Theorem classification_depends_on_title_only (pr1 pr2 : PullRequest) :
  pr_title pr1 = pr_title pr2 ->
  shouldExcludePRTitle (pr_title pr1) = shouldExcludePRTitle (pr_title pr2)
  /\ (forall e1 e2,
         buildDisplayEntry pr1 = Some e1 -> buildDisplayEntry pr2 = Some e2 ->
         isFix e1 = isFix e2 /\ isSprint e1 = isSprint e2)
  /\ (forall e1 e2,
         Backfill.buildDisplayEntry pr1 = Some e1 ->
         Backfill.buildDisplayEntry pr2 = Some e2 ->
         isFix e1 = isFix e2 /\ isSprint e1 = isSprint e2)
  /\ (forall merged1 merged2,
         buildDisplayEntry pr1 = None ->
         pr_merged_at pr1 = Some merged1 -> is_empty merged1 = false ->
         pr_merged_at pr2 = Some merged2 -> is_empty merged2 = false ->
         buildDisplayEntry pr2 = None).
Proof.
  intros Ht. split; [now rewrite Ht|]. split; [|split].
  - intros e1 e2. unfold buildDisplayEntry.
    destruct (pr_merged_at pr1) as [m1|]; [|discriminate].
    destruct (pr_merged_at pr2) as [m2|]; [|discriminate].
    destruct (is_empty m1); [discriminate|].
    destruct (is_empty m2); [discriminate|].
    destruct (shouldExcludePRTitle (pr_title pr1)); [discriminate|].
    destruct (shouldExcludePRTitle (pr_title pr2)); [discriminate|].
    intros [= <-] [= <-]. cbn [isFix isSprint]. now rewrite Ht.
  - intros e1 e2. unfold Backfill.buildDisplayEntry, Backfill.buildEntry.
    destruct (pr_merged_at pr1) as [m1|]; [|discriminate].
    destruct (pr_merged_at pr2) as [m2|]; [|discriminate].
    destruct (is_empty m1); [discriminate|].
    destruct (is_empty m2); [discriminate|].
    destruct (shouldExcludePRTitle (pr_title pr1)); [discriminate|].
    destruct (shouldExcludePRTitle (pr_title pr2)); [discriminate|].
    intros [= <-] [= <-]. cbn [isFix isSprint]. now rewrite Ht.
  - intros m1 m2. unfold buildDisplayEntry.
    intros H1 E1 N1 E2 N2. rewrite E1, N1 in H1. rewrite E2, N2, <- Ht.
    destruct (shouldExcludePRTitle (pr_title pr1)); [reflexivity|discriminate].
Qed.

Lemma classification_depends_on_title_only_witness :
  shouldExcludePRTitle (pr_title (samplePull None))
  = shouldExcludePRTitle
      (pr_title (samplePull (Some (js "## Summary" ++ [LF] ++ js "Sprint 9")))).
Proof.
  apply (classification_depends_on_title_only
           (samplePull None)
           (samplePull (Some (js "## Summary" ++ [LF] ++ js "Sprint 9")))).
  reflexivity.
Defined.

(** ** The matcher *)

Lemma isSome_hd_error {A} (l : list A) :
  isSome (hd_error l) = true <-> exists y, In y l.
Proof.
  destruct l as [|a l]; cbn; split.
  - discriminate.
  - intros [y []].
  - eauto.
  - reflexivity.
Qed.

Lemma hd_error_none {A} (l : list A) : hd_error l = None -> l = [].
Proof. destruct l; [reflexivity | discriminate]. Qed.

Lemma positions_head (p : option N) (s : jsstring) : In (p, s) (positions p s).
Proof. destruct s; cbn; auto. Qed.

Lemma positions_trans (y z : state) (p : option N) (s : jsstring) :
  In z (positions p s) -> In y (positions (fst z) (snd z)) ->
  In y (positions p s).
Proof.
  revert p; induction s as [|c s IH]; intros p Hz Hy; cbn in Hz.
  - destruct Hz as [<-|[]]. exact Hy.
  - destruct Hz as [<-|Hz]; [exact Hy|].
    cbn. right. now apply IH.
Qed.

Lemma positions_length (y : state) (p : option N) (s : jsstring) :
  In y (positions p s) ->
  y = (p, s) \/ (List.length (snd y) < List.length s)%nat.
Proof.
  revert p; induction s as [|c s IH]; intros p Hy; cbn in Hy.
  - destruct Hy as [<-|[]]. now left.
  - destruct Hy as [<-|Hy]; [now left|].
    right. destruct (IH _ Hy) as [->|Hl]; cbn; lia.
Qed.

Lemma positions_app (p : option N) (pre rest : jsstring) (c : N) :
  In (Some c, rest) (positions p (pre ++ c :: rest)).
Proof.
  revert p; induction pre as [|d pre IH]; intros p; cbn.
  - right. apply positions_head.
  - right. apply IH.
Qed.

Section MatcherFacts.
Variables (ic ml : bool).

Lemma repeatMatcher_positions (step : state -> list state) :
  (forall x y, In y (step x) -> In y (positions (fst x) (snd x))) ->
  forall fuel lo hi x y,
    In y (repeatMatcher step fuel lo hi x) ->
    In y (positions (fst x) (snd x)).
Proof.
  intros Hstep. induction fuel as [|fuel IH]; intros lo hi [p s] y Hy.
  - cbn in Hy. destruct (Nat.eqb lo 0); cbn in Hy; [|contradiction].
    destruct Hy as [<-|[]]. apply positions_head.
  - cbn [repeatMatcher] in Hy.
    assert (Hmore :
      In y (flat_map
              (fun y0 =>
                 if Nat.eqb lo 0
                    && Nat.eqb (List.length (snd y0)) (List.length (snd (p, s)))
                 then []
                 else repeatMatcher step fuel (Nat.pred lo)
                        (option_map Nat.pred hi) y0)
              (step (p, s))) ->
      In y (positions p s)).
    { intros H. apply in_flat_map in H as [z [Hz Hy']].
      apply (positions_trans y z).
      - now apply (Hstep (p, s)).
      - destruct (Nat.eqb lo 0
                  && Nat.eqb (List.length (snd z)) (List.length (snd (p, s))));
          [contradiction|].
        now apply IH in Hy'. }
    assert (Hself : In y [(p, s)] -> In y (positions p s)).
    { intros [<-|[]]. apply positions_head. }
    destruct hi as [[|hi]|]; cbn [fst snd]; auto;
      destruct (Nat.eqb lo 0); auto;
      apply in_app_or in Hy as [Hy|Hy]; auto.
Qed.

(** Every result of the matcher is a position at or after the start. *)
Lemma matcher_positions (r : regex) :
  forall x y, In y (matcher ic ml r x) -> In y (positions (fst x) (snd x)).
Proof.
  induction r as [|c|q| | | |a IHa b IHb|a IHa b IHb|lo hi a IHa];
    intros [p s] y Hy; cbn [matcher fst snd] in *.
  - destruct Hy as [<-|[]]. apply positions_head.
  - destruct s as [|ch t]; [contradiction|].
    destruct (canonicalize ic ch =? canonicalize ic c); [|contradiction].
    destruct Hy as [<-|[]]. cbn. right. apply positions_head.
  - destruct s as [|ch t]; [contradiction|].
    destruct (q ch); [|contradiction].
    destruct Hy as [<-|[]]. cbn. right. apply positions_head.
  - destruct p as [ch|].
    + destruct (ml && isLineTerminator ch); [|contradiction].
      destruct Hy as [<-|[]]. apply positions_head.
    + destruct Hy as [<-|[]]. apply positions_head.
  - destruct s as [|ch t].
    + destruct Hy as [<-|[]]. apply positions_head.
    + destruct (ml && isLineTerminator ch); [|contradiction].
      destruct Hy as [<-|[]]. apply positions_head.
  - destruct (xorb (wordAt p) (wordAt (hd_error s))); [|contradiction].
    destruct Hy as [<-|[]]. apply positions_head.
  - apply in_flat_map in Hy as [z [Hz Hy]].
    apply (positions_trans y z).
    + now apply (IHa (p, s)).
    + now apply IHb.
  - apply in_app_or in Hy as [Hy|Hy].
    + now apply (IHa (p, s)).
    + now apply (IHb (p, s)).
  - now apply (repeatMatcher_positions (matcher ic ml a) IHa) in Hy.
Qed.

Lemma matcher_chr_inv (c : N) (x z : state) :
  In z (matcher ic ml (Chr c) x) ->
  exists ch t,
    snd x = ch :: t /\ canonicalize ic ch = canonicalize ic c
    /\ z = (Some ch, t).
Proof.
  cbn [matcher]. destruct (snd x) as [|ch t]; [contradiction|].
  destruct (N.eqb_spec (canonicalize ic ch) (canonicalize ic c));
    [|contradiction].
  intros [<-|[]]. eauto.
Qed.

Lemma matcher_lit_app (a b : jsstring) (x y : state) :
  In y (matcher ic ml (lit (a ++ b)) x)
  <-> exists z, In z (matcher ic ml (lit a) x) /\ In y (matcher ic ml (lit b) z).
Proof.
  revert x; induction a as [|c a IH]; intros x; cbn [app lit matcher].
  - split.
    + intros H. exists x. split; [now left | exact H].
    + intros [z [[<-|[]] H]]. exact H.
  - rewrite in_flat_map. split.
    + intros [z1 [H1 H2]]. apply IH in H2 as [z [Hz Hy]].
      exists z. split; [|exact Hy]. apply in_flat_map. eauto.
    + intros [z [Hz Hy]]. apply in_flat_map in Hz as [z1 [H1 H2]].
      exists z1. split; [exact H1|]. apply IH. eauto.
Qed.

(** After a literal that ends in [c] the matcher stands behind a code unit
    that canonicalizes like [c]. *)
Lemma matcher_lit_last (w : jsstring) (c : N) (x z : state) :
  In z (matcher ic ml (lit (w ++ [c])) x) ->
  exists ch, fst z = Some ch /\ canonicalize ic ch = canonicalize ic c.
Proof.
  intros H. apply matcher_lit_app in H as [z0 [_ H]].
  cbn [lit matcher] in H. apply in_flat_map in H as [z1 [H1 H2]].
  apply matcher_chr_inv in H1 as [ch [t [_ [Hc ->]]]].
  destruct H2 as [<-|[]]. exists ch. now split.
Qed.

(** A literal that starts with [c] only matches in front of a code unit
    that canonicalizes like [c]. *)
Lemma matcher_lit_first (w : jsstring) (c : N) (x z : state) :
  In z (matcher ic ml (lit (c :: w)) x) ->
  exists ch, hd_error (snd x) = Some ch
             /\ canonicalize ic ch = canonicalize ic c.
Proof.
  cbn [lit matcher]. intros H. apply in_flat_map in H as [z1 [H1 _]].
  apply matcher_chr_inv in H1 as [ch [t [Hs [Hc _]]]].
  exists ch. rewrite Hs. now split.
Qed.

End MatcherFacts.

Lemma test_true_iff (re : RegExp) (s : jsstring) :
  test re s = true
  <-> exists x y, In x (positions None s)
                  /\ In y (matcher (flag_i re) (flag_m re) (source re) x).
Proof.
  unfold test, execAt, matchAt. rewrite existsb_exists. split.
  - intros [x [Hx H]]. apply isSome_hd_error in H as [y Hy]. eauto.
  - intros [x [y [Hx Hy]]]. exists x. split; [exact Hx|].
    apply isSome_hd_error. eauto.
Qed.

(** A pattern anchored by [^] without the [m] flag only matches at the
    start. *)
Lemma test_anchored (r : regex) (i : bool) (s : jsstring) :
  test (mkRegExp (Seq Bol r) i false false) s = true ->
  exists y, In y (matcher i false r (None, s)).
Proof.
  intros H. apply test_true_iff in H as [[p t] [y [Hx Hy]]].
  cbn [flag_i flag_m source matcher fst] in Hy.
  destruct p as [ch|].
  - cbn in Hy. contradiction.
  - cbn [flat_map] in Hy. rewrite app_nil_r in Hy.
    cbn in Hx. destruct s as [|c s]; cbn in Hx.
    + destruct Hx as [[= <-]|[]]. eauto.
    + destruct Hx as [[= <-]|Hx]; [eauto|].
      exfalso. clear -Hx. revert c Hx.
      induction s as [|d s IH]; intros c Hx; cbn in Hx.
      * destruct Hx as [[=]|[]].
      * destruct Hx as [[=]|Hx]. now apply (IH d).
Qed.

(** ** Exclusion (C10) *)

Lemma upperUnit_word (c : N) : isWordChar (upperUnit c) = isWordChar c.
Proof.
  unfold upperUnit. destruct (isLowerAZ c) eqn:E; [|reflexivity].
  unfold isWordChar. rewrite E.
  replace (isUpperAZ (c - 32)) with true.
  - cbn. now rewrite orb_true_r.
  - unfold isLowerAZ in E. apply andb_true_iff in E as [E1 E2].
    apply N.leb_le in E1, E2. symmetry. unfold isUpperAZ.
    apply andb_true_iff. split; apply N.leb_le; lia.
Qed.

Lemma wordAt_canonical (ch c : N) :
  canonicalize true ch = canonicalize true c ->
  isWordChar ch = isWordChar c.
Proof.
  unfold canonicalize. intros H.
  now rewrite <- (upperUnit_word ch), <- (upperUnit_word c), H.
Qed.

(** "staging" and the boundary after it only match in front of a word
    character. *)
Lemma staging_starts_word (x y : state) :
  In y (matcher true false (seq [lit (js "staging"); WordB]) x) ->
  wordAt (hd_error (snd x)) = true.
Proof.
  cbn [seq fold_right matcher]. intros H.
  apply in_flat_map in H as [z [Hz _]].
  change (js "staging") with (chr "s" :: js "taging") in Hz.
  apply matcher_lit_first in Hz as [ch [Hh Hc]].
  rewrite Hh. cbn [wordAt]. now rewrite (wordAt_canonical _ _ Hc).
Qed.

Lemma staging_word_matches (x y : state) :
  wordAt (fst x) = false ->
  In y (matcher true false (seq [lit (js "staging"); WordB]) x) ->
  In y (matcher true false (source STAGING_WORD_RE) x).
Proof.
  intros Hp Hy.
  change (source STAGING_WORD_RE)
    with (Seq WordB (seq [lit (js "staging"); WordB])).
  cbn [matcher]. rewrite Hp, (staging_starts_word x y Hy).
  cbn [xorb flat_map]. rewrite app_nil_r. exact Hy.
Qed.

Lemma staging_start_redundant (title : jsstring) :
  test STAGING_START_RE title = true -> test STAGING_WORD_RE title = true.
Proof.
  intros H. apply test_anchored in H as [y Hy].
  apply test_true_iff. exists (None, title), y. split.
  - apply positions_head.
  - now apply staging_word_matches.
Qed.

Lemma update_staging_redundant (title : jsstring) :
  test UPDATE_STAGING_RE title = true -> test STAGING_WORD_RE title = true.
Proof.
  intros H. apply test_anchored in H as [y Hy].
  cbn [seq fold_right matcher] in Hy.
  apply in_flat_map in Hy as [z1 [Hz1 Hy]].
  change (js "update staging") with ((js "update" ++ [SP]) ++ js "staging") in Hz1.
  apply matcher_lit_app in Hz1 as [z [Hz Hz1]].
  pose proof (matcher_positions _ _ _ _ _ Hz) as Hpos.
  apply matcher_lit_last in Hz as [ch [Hf Hc]].
  apply test_true_iff. exists z, y. split; [exact Hpos|].
  apply staging_word_matches.
  - rewrite Hf. cbn [wordAt]. now rewrite (wordAt_canonical _ _ Hc).
  - cbn [seq fold_right matcher]. apply in_flat_map. eauto.
Qed.

(** C10: a title is excluded exactly when it holds "staging" as a whole
    word; each of the two anchored patterns implies the first one. *)
Theorem exclusion_is_staging_word (title : jsstring) :
  shouldExcludePRTitle title = test STAGING_WORD_RE title
  /\ implb (test UPDATE_STAGING_RE title) (test STAGING_WORD_RE title) = true
  /\ implb (test STAGING_START_RE title) (test STAGING_WORD_RE title) = true.
Proof.
  pose proof (update_staging_redundant title) as H2.
  pose proof (staging_start_redundant title) as H3.
  unfold shouldExcludePRTitle, EXCLUDE_TITLE_PATTERNS. cbn [existsb].
  destruct (test STAGING_WORD_RE title);
    destruct (test UPDATE_STAGING_RE title);
    destruct (test STAGING_START_RE title);
    cbn; auto; try (specialize (H2 eq_refl)); try (specialize (H3 eq_refl));
    try discriminate.
Qed.

(** ** Greedy repetition of a class *)

Lemma takeWhile_dropWhile (q : N -> bool) (s : jsstring) :
  takeWhile q s ++ dropWhile q s = s.
Proof.
  induction s as [|c s IH]; cbn; [reflexivity|].
  destruct (q c); cbn; [now rewrite IH | reflexivity].
Qed.

Lemma dropWhile_length (q : N -> bool) (s : jsstring) :
  (List.length (takeWhile q s) + List.length (dropWhile q s))%nat
  = List.length s.
Proof. now rewrite <- length_app, takeWhile_dropWhile. Qed.

Lemma hd_error_app_some {A} (l l' : list A) (v : A) :
  hd_error l = Some v -> hd_error (l ++ l') = Some v.
Proof. destruct l; [discriminate | trivial]. Qed.

Lemma repeatMatcher_unbounded (step : state -> list state) (fuel lo : nat)
      (x : state) :
  repeatMatcher step (S fuel) lo None x
  = (flat_map
       (fun y =>
          if Nat.eqb lo 0 && Nat.eqb (List.length (snd y)) (List.length (snd x))
          then []
          else repeatMatcher step fuel (Nat.pred lo) None y)
       (step x))
    ++ (if Nat.eqb lo 0 then [x] else []).
Proof. cbn. destruct (Nat.eqb lo 0); [reflexivity | now rewrite app_nil_r]. Qed.

Lemma classStep_cons (q : N -> bool) (p : option N) (ch : N) (t : jsstring) :
  classStep q (p, ch :: t) = if q ch then [(Some ch, t)] else [].
Proof. reflexivity. Qed.

Lemma repeat_class_head (q : N -> bool) :
  forall fuel lo p s,
    (List.length s < fuel)%nat ->
    hd_error (repeatMatcher (classStep q) fuel lo None (p, s))
    = if (lo <=? List.length (takeWhile q s))%nat
      then Some (lastOf p (takeWhile q s), dropWhile q s)
      else None.
Proof.
  induction fuel as [|fuel IH]; intros lo p s Hf; [lia|].
  rewrite repeatMatcher_unbounded.
  destruct s as [|ch t].
  - cbn. destruct lo; reflexivity.
  - rewrite classStep_cons. cbn [takeWhile dropWhile].
    destruct (q ch) eqn:Eq.
    + cbn [flat_map snd List.length]. rewrite app_nil_r.
      replace (Nat.eqb (List.length t) (S (List.length t))) with false
        by (symmetry; apply Nat.eqb_neq; lia).
      rewrite andb_false_r.
      assert (Ht : (List.length t < fuel)%nat) by (cbn in Hf; lia).
      specialize (IH (Nat.pred lo) (Some ch) t Ht).
      destruct lo as [|lo]; cbn [Nat.eqb Nat.pred Nat.leb] in *.
      * apply hd_error_app_some. exact IH.
      * rewrite app_nil_r. exact IH.
    + cbn. destruct lo; reflexivity.
Qed.

(** [/\s+/] at a position: the whole run of white space, when there is one. *)
Lemma execAt_spaces (p : option N) (s : jsstring) :
  execAt SPACES_RE (p, s)
  = if (1 <=? List.length (takeWhile isWhiteSpace s))%nat
    then Some (lastOf p (takeWhile isWhiteSpace s), dropWhile isWhiteSpace s)
    else None.
Proof.
  unfold execAt, matchAt. cbn [SPACES_RE re_g source Plus matcher snd].
  change (matcher false false ws) with (classStep isWhiteSpace).
  apply repeat_class_head. lia.
Qed.

(** [/\n{3,}/] at a position: the whole run of line feeds, when it has
    three or more. *)
Lemma execAt_blank_run (p : option N) (s : jsstring) :
  execAt BLANK_RUN_RE (p, s)
  = if (3 <=? List.length (takeWhile isLF s))%nat
    then Some (lastOf p (takeWhile isLF s), dropWhile isLF s)
    else None.
Proof.
  unfold execAt, matchAt. cbn [BLANK_RUN_RE re_g source matcher snd].
  change (matcher false false (Chr LF)) with (classStep isLF).
  apply repeat_class_head. lia.
Qed.

(** ** Replacement *)

(** Where the pattern matches nowhere, [replace] returns its input. *)
Lemma replaceFrom_no_match (re : RegExp) (repl : jsstring) :
  forall s fuel p,
    existsb (fun x => isSome (execAt re x)) (positions p s) = false ->
    replaceFrom re repl fuel (p, s) = s.
Proof.
  induction s as [|c s IH]; intros fuel p H; cbn [positions existsb] in H;
    apply orb_false_iff in H as [H0 H1];
    (destruct fuel as [|fuel]; [reflexivity|]);
    cbn [replaceFrom];
    destruct (execAt re _); try discriminate; unfold stepOver; cbn [snd].
  - reflexivity.
  - f_equal. now apply IH.
Qed.

Lemma replace_no_match (re : RegExp) (repl s : jsstring) :
  test re s = false -> replace s re repl = s.
Proof. intros H. now apply replaceFrom_no_match. Qed.

Lemma spaces_replaceFrom_clean :
  forall fuel p s,
    (List.length s < fuel)%nat ->
    Forall spaceOrInk (replaceFrom SPACES_RE [SP] fuel (p, s)).
Proof.
  induction fuel as [|fuel IH]; intros p s Hf; [lia|].
  cbn [replaceFrom]. rewrite execAt_spaces.
  pose proof (dropWhile_length isWhiteSpace s) as Hl.
  destruct (1 <=? List.length (takeWhile isWhiteSpace s))%nat eqn:E.
  - apply Nat.leb_le in E. cbn [flag_g SPACES_RE re_g negb snd].
    replace (Nat.eqb (List.length (dropWhile isWhiteSpace s)) (List.length s))
      with false by (symmetry; apply Nat.eqb_neq; lia).
    apply Forall_app. split.
    + constructor; [now right | constructor].
    + apply IH. lia.
  - apply Nat.leb_gt in E. unfold stepOver. cbn [snd].
    destruct s as [|c t]; [constructor|].
    cbn [takeWhile] in E. destruct (isWhiteSpace c) eqn:Ec; [cbn in E; lia|].
    constructor; [now left|]. apply IH. cbn in Hf. lia.
Qed.

Lemma spaces_replace_clean (s : jsstring) :
  Forall spaceOrInk (replace s SPACES_RE [SP]).
Proof. apply spaces_replaceFrom_clean. lia. Qed.

(** ** Single lines *)

Lemma Forall_firstn_of {A} (P : A -> Prop) (k : nat) (l : list A) :
  Forall P l -> Forall P (firstn k l).
Proof.
  intros H. rewrite <- (firstn_skipn k l) in H.
  now apply Forall_app in H.
Qed.

Lemma Forall_skipn_of {A} (P : A -> Prop) (k : nat) (l : list A) :
  Forall P l -> Forall P (skipn k l).
Proof.
  intros H. rewrite <- (firstn_skipn k l) in H.
  now apply Forall_app in H.
Qed.

Lemma Forall_dropWhile (P : N -> Prop) (q : N -> bool) (s : jsstring) :
  Forall P s -> Forall P (dropWhile q s).
Proof.
  induction 1 as [|c s Hc Hs IH]; cbn; [constructor|].
  destruct (q c); [exact IH | now constructor].
Qed.

Lemma Forall_trim (P : N -> Prop) (s : jsstring) :
  Forall P s -> Forall P (trim s).
Proof.
  intros H. unfold trim, trimEnd, trimStart.
  apply Forall_rev, Forall_dropWhile, Forall_rev, Forall_dropWhile, H.
Qed.

Lemma Forall_slice0 (P : N -> Prop) (s : jsstring) (n : Z) :
  Forall P s -> Forall P (slice0 s n).
Proof.
  intros H. destruct (slice0_prefix s n) as [k ->].
  now apply Forall_firstn_of.
Qed.

Lemma singleLine_Forall (s : jsstring) :
  singleLine s = true <-> Forall inLine s.
Proof.
  unfold singleLine. rewrite forallb_forall, Forall_forall.
  split; intros H c Hc; specialize (H c Hc); unfold inLine in *;
    now destruct (isLineTerminator c).
Qed.

Lemma spaceOrInk_inLine (c : N) : spaceOrInk c -> inLine c.
Proof.
  unfold spaceOrInk, inLine. intros [H| ->]; [|reflexivity].
  unfold isLineTerminator.
  destruct (N.eqb_spec c 10) as [->|_]; [discriminate H|].
  destruct (N.eqb_spec c 13) as [->|_]; [discriminate H|].
  destruct (N.eqb_spec c 0x2028) as [->|_]; [discriminate H|].
  destruct (N.eqb_spec c 0x2029) as [->|_]; [discriminate H|].
  reflexivity.
Qed.

Lemma surrogate_inLine (u : N) : isSurrogate u = true -> inLine u.
Proof.
  unfold isSurrogate, inLine, isLineTerminator. intros H.
  apply andb_true_iff in H as [H _]. apply N.leb_le in H.
  repeat match goal with
         | |- context [(u =? ?k)%N] =>
             replace (u =? k)%N with false by (symmetry; apply N.eqb_neq; lia)
         end.
  reflexivity.
Qed.

Lemma toUpperCase_inLine (s : jsstring) :
  Forall inLine s -> Forall inLine (toUpperCase s).
Proof.
  apply toUpperCase_units; [exact surrogate_inLine|].
  apply singleLine_Forall. vm_compute. reflexivity.
Qed.

Lemma toLowerCase_inLine (s : jsstring) :
  Forall inLine s -> Forall inLine (toLowerCase s).
Proof.
  apply toLowerCase_units; [exact surrogate_inLine| |reflexivity].
  apply singleLine_Forall. vm_compute. reflexivity.
Qed.

Lemma toSingleLineSummary_inLine (text : jsstring) (maxLen : nat) :
  Forall inLine (toSingleLineSummary text maxLen).
Proof.
  unfold toSingleLineSummary.
  set (oneLine := replace (normalizeSummaryText text) SPACES_RE [SP]).
  assert (H : Forall inLine oneLine).
  { eapply Forall_impl; [exact spaceOrInk_inLine|].
    apply spaces_replace_clean. }
  assert (He : Forall inLine [ELLIPSIS]) by (repeat constructor).
  destruct (is_empty oneLine); [constructor|].
  destruct (List.length oneLine <=? maxLen)%nat; [exact H|].
  destruct (3 * Z.of_nat maxLen <? _)%Z;
    apply Forall_app; split; auto; now repeat apply Forall_slice0.
Qed.

Lemma cleanPRTitle_inLine (raw : jsstring) : Forall inLine (cleanPRTitle raw).
Proof.
  unfold cleanPRTitle.
  match goal with
  | |- context [trim (replace ?u SPACES_RE [SP])] =>
      set (t := trim (replace u SPACES_RE [SP]))
  end.
  assert (H : Forall inLine t).
  { apply Forall_trim.
    eapply Forall_impl; [exact spaceOrInk_inLine|].
    apply spaces_replace_clean. }
  assert (H0 : Forall inLine (charAt0 t)) by now apply Forall_firstn_of.
  assert (H1 : Forall inLine (slice1 t)) by now apply Forall_skipn_of.
  destruct (str_eqb t (toUpperCase t) && (3 <? List.length t)%nat);
    apply Forall_app; split;
    auto using toUpperCase_inLine, toLowerCase_inLine.
Qed.

(** ** Normalization (C2) *)

Lemma dropWhile_head (q : N -> bool) (s t : jsstring) (c : N) :
  dropWhile q s = c :: t -> q c = false.
Proof.
  induction s as [|d s IH]; cbn; [discriminate|].
  destruct (q d) eqn:E; [exact IH|]. now intros [= <- _].
Qed.

Lemma dropWhile_idem (q : N -> bool) (s : jsstring) :
  dropWhile q (dropWhile q s) = dropWhile q s.
Proof.
  destruct (dropWhile q s) as [|c t] eqn:E; [reflexivity|].
  cbn. now rewrite (dropWhile_head q s t c E).
Qed.

Lemma dropWhile_snoc (q : N -> bool) (s : jsstring) (c : N) :
  q c = false -> dropWhile q (s ++ [c]) = dropWhile q s ++ [c].
Proof.
  intros Hc. induction s as [|d s IH]; cbn.
  - now rewrite Hc.
  - destruct (q d); [exact IH | reflexivity].
Qed.

Lemma takeWhile_after_dropWhile (q : N -> bool) (s : jsstring) :
  takeWhile q (dropWhile q s) = [].
Proof.
  destruct (dropWhile q s) as [|c t] eqn:E; [reflexivity|].
  cbn. now rewrite (dropWhile_head q s t c E).
Qed.

Lemma trimEnd_prefix (s : jsstring) : exists w, s = trimEnd s ++ w.
Proof.
  exists (rev (takeWhile isWhiteSpace (rev s))). unfold trimEnd.
  rewrite <- rev_app_distr, takeWhile_dropWhile. now rewrite rev_involutive.
Qed.

Lemma trimEnd_idem (s : jsstring) : trimEnd (trimEnd s) = trimEnd s.
Proof. unfold trimEnd. now rewrite rev_involutive, dropWhile_idem. Qed.

Lemma trimStart_trimEnd (s : jsstring) :
  trimStart s = s -> trimStart (trimEnd s) = trimEnd s.
Proof.
  destruct s as [|c t]; [reflexivity|]. intros H.
  assert (Hc : isWhiteSpace c = false).
  { unfold trimStart in H. cbn in H.
    destruct (isWhiteSpace c) eqn:E; [|reflexivity].
    exfalso.
    assert (L : (List.length (dropWhile isWhiteSpace t) <= List.length t)%nat).
    { pose proof (dropWhile_length isWhiteSpace t). lia. }
    rewrite H in L. cbn in L. lia. }
  unfold trimEnd. cbn [rev].
  rewrite (dropWhile_snoc _ _ _ Hc), rev_app_distr. cbn [rev app].
  unfold trimStart. cbn. now rewrite Hc.
Qed.

Lemma trim_idem (s : jsstring) : trim (trim s) = trim s.
Proof.
  unfold trim.
  rewrite (trimStart_trimEnd (trimStart s)).
  - apply trimEnd_idem.
  - apply dropWhile_idem.
Qed.

Lemma takeWhile_app_le (q : N -> bool) (a b : jsstring) :
  (List.length (takeWhile q a) <= List.length (takeWhile q (a ++ b)))%nat.
Proof.
  induction a as [|c a IH]; cbn; [lia|].
  destruct (q c); cbn; lia.
Qed.

Lemma noBlankRun_cons (c : N) (t : jsstring) :
  noBlankRun (c :: t)
  = (List.length (takeWhile isLF (c :: t)) <? 3)%nat && noBlankRun t.
Proof. reflexivity. Qed.

Lemma noBlankRun_tail (c : N) (t : jsstring) :
  noBlankRun (c :: t) = true -> noBlankRun t = true.
Proof. rewrite noBlankRun_cons. intros H. now apply andb_true_iff in H. Qed.

Lemma noBlankRun_dropWhile (q : N -> bool) (s : jsstring) :
  noBlankRun s = true -> noBlankRun (dropWhile q s) = true.
Proof.
  induction s as [|c s IH]; intros H; [exact H|].
  cbn [dropWhile]. destruct (q c); [|exact H].
  apply IH. now apply noBlankRun_tail in H.
Qed.

Lemma noBlankRun_prefix (a b : jsstring) :
  noBlankRun (a ++ b) = true -> noBlankRun a = true.
Proof.
  induction a as [|c a IH]; intros H; [reflexivity|].
  rewrite <- app_comm_cons, noBlankRun_cons in H.
  apply andb_true_iff in H as [H1 H2].
  rewrite noBlankRun_cons. apply andb_true_iff. split; [|now apply IH].
  apply Nat.ltb_lt in H1. apply Nat.ltb_lt.
  pose proof (takeWhile_app_le isLF (c :: a) b) as L.
  rewrite <- app_comm_cons in L. lia.
Qed.

Lemma noBlankRun_trim (s : jsstring) :
  noBlankRun s = true -> noBlankRun (trim s) = true.
Proof.
  intros H. unfold trim.
  destruct (trimEnd_prefix (trimStart s)) as [w Hw].
  apply (noBlankRun_prefix _ w). rewrite <- Hw.
  now apply noBlankRun_dropWhile.
Qed.

(** A text without a run of three line feeds is not matched by
    [/\n{3,}/]. *)
Lemma noBlankRun_no_match (s : jsstring) :
  noBlankRun s = true ->
  forall p,
    existsb (fun x => isSome (execAt BLANK_RUN_RE x)) (positions p s) = false.
Proof.
  induction s as [|c s IH]; intros H p; cbn [positions existsb];
    rewrite execAt_blank_run.
  - reflexivity.
  - rewrite noBlankRun_cons in H. apply andb_true_iff in H as [H1 H2].
    apply Nat.ltb_lt in H1.
    replace (3 <=? List.length (takeWhile isLF (c :: s)))%nat with false
      by (symmetry; apply Nat.leb_gt; exact H1).
    cbn [isSome orb]. now apply IH.
Qed.

(** What [replace(/\n{3,}/g, '\n\n')] returns has no run of three line
    feeds, and starts with as many line feeds as its input, two at most. *)
Lemma blank_replaceFrom_calm :
  forall fuel p s,
    (List.length s < fuel)%nat ->
    noBlankRun (replaceFrom BLANK_RUN_RE [LF; LF] fuel (p, s)) = true
    /\ List.length (takeWhile isLF (replaceFrom BLANK_RUN_RE [LF; LF] fuel (p, s)))
       = Nat.min (List.length (takeWhile isLF s)) 2.
Proof.
  induction fuel as [|fuel IH]; intros p s Hf; [lia|].
  cbn [replaceFrom]. rewrite execAt_blank_run.
  pose proof (dropWhile_length isLF s) as Hl.
  destruct (3 <=? List.length (takeWhile isLF s))%nat eqn:E.
  - apply Nat.leb_le in E. cbn [flag_g BLANK_RUN_RE re_g negb snd].
    replace (Nat.eqb (List.length (dropWhile isLF s)) (List.length s))
      with false by (symmetry; apply Nat.eqb_neq; lia).
    destruct (IH (lastOf p (takeWhile isLF s)) (dropWhile isLF s)) as [H1 H2];
      [lia|].
    rewrite takeWhile_after_dropWhile in H2. cbn [List.length Nat.min] in H2.
    set (o := replaceFrom BLANK_RUN_RE [LF; LF] fuel _) in *.
    cbn [app]. rewrite !noBlankRun_cons. cbn [takeWhile].
    replace (isLF LF) with true by reflexivity.
    cbn [List.length]. rewrite H2, H1. split; [reflexivity | lia].
  - apply Nat.leb_gt in E. unfold stepOver. cbn [snd].
    destruct s as [|c t]; [split; reflexivity|].
    destruct (IH (Some c) t) as [H1 H2]; [cbn in Hf; lia|].
    set (o := replaceFrom BLANK_RUN_RE [LF; LF] fuel _) in *.
    rewrite noBlankRun_cons. cbn [takeWhile] in *.
    destruct (isLF c); cbn [List.length] in *.
    + rewrite H2, H1.
      replace (Nat.min (List.length (takeWhile isLF t)) 2)
        with (List.length (takeWhile isLF t)) by lia.
      split; [|lia].
      apply andb_true_iff. split; [apply Nat.ltb_lt; lia | reflexivity].
    + rewrite H1. split; reflexivity.
Qed.

Lemma normalizeSummaryText_calm (x : jsstring) :
  noBlankRun (normalizeSummaryText x) = true.
Proof.
  unfold normalizeSummaryText. apply noBlankRun_trim.
  unfold replace at 1. apply blank_replaceFrom_calm. lia.
Qed.

(** C2 as stated fails: trimming uncovers an indented bullet, the removal of
    one marker uncovers the next, and the removal of one CR LF pair can
    bring a CR and a LF together; the second pass changes each text
    again. *)
Lemma normalize_not_idempotent :
  normalizeSummaryText (js "  - Added login") = js "- Added login"
  /\ normalizeSummaryText (normalizeSummaryText (js "  - Added login"))
     = js "Added login"
  /\ normalizeSummaryText (js "1. - Added login") = js "- Added login"
  /\ normalizeSummaryText (js "a" ++ [CR; CR; LF] ++ js "b")
     = js "a" ++ [CR; LF] ++ js "b"
  /\ normalizeSummaryText
       (normalizeSummaryText (js "a" ++ [CR; CR; LF] ++ js "b"))
     = js "a" ++ [LF] ++ js "b".
Proof. repeat split; vm_compute; reflexivity. Qed.

(** C2, amended: a second pass leaves the normalized text as it is whenever
    that text holds no CR LF pair and no line that starts with a bullet or
    a numbered-list marker followed by white space. *)
Theorem normalize_idempotent_when_settled (x : jsstring) :
  test CRLF_RE (normalizeSummaryText x) = false ->
  test BULLET_GM_RE (normalizeSummaryText x) = false ->
  test NUMBERED_GM_RE (normalizeSummaryText x) = false ->
  normalizeSummaryText (normalizeSummaryText x) = normalizeSummaryText x.
Proof.
  intros H1 H2 H3.
  pose proof (normalizeSummaryText_calm x) as H4.
  assert (H5 : trim (normalizeSummaryText x) = normalizeSummaryText x).
  { unfold normalizeSummaryText at 1 2. apply trim_idem. }
  set (y := normalizeSummaryText x) in *.
  unfold normalizeSummaryText.
  rewrite (replace_no_match _ _ _ H1), (replace_no_match _ _ _ H2),
    (replace_no_match _ _ _ H3).
  unfold replace. rewrite replaceFrom_no_match; [exact H5|].
  now apply noBlankRun_no_match.
Qed.

Lemma normalize_idempotent_when_settled_witness :
  normalizeSummaryText
    (normalizeSummaryText
       (js "- one" ++ [CR; LF; LF; LF; LF] ++ js "2. two  "))
  = js "one" ++ [LF; LF] ++ js "two".
Proof.
  rewrite normalize_idempotent_when_settled; reflexivity.
Defined.

(** * Further properties *)

(** ** Positions, literals and classes *)

Lemma lastOf_cons (p : option N) (c : N) (w : jsstring) :
  lastOf p (c :: w) = lastOf (Some c) w.
Proof. reflexivity. Qed.

Lemma lastOf_app (p : option N) (a b : jsstring) :
  lastOf p (a ++ b) = lastOf (lastOf p a) b.
Proof. unfold lastOf. apply fold_left_app. Qed.

Lemma positions_iff (x : state) (p : option N) (s : jsstring) :
  In x (positions p s)
  <-> exists pre, s = pre ++ snd x /\ fst x = lastOf p pre.
Proof.
  revert p; induction s as [|c s IH]; intros p; cbn [positions In].
  - split.
    + intros [<-|[]]. exists []. now split.
    + intros [pre [Hs Hf]]. left.
      symmetry in Hs. apply app_eq_nil in Hs as [-> Hs].
      destruct x as [q t]; cbn in *. now subst.
  - split.
    + intros [<-|H].
      * exists []. now split.
      * apply IH in H as [pre [Hs Hf]]. exists (c :: pre).
        split; [cbn; now f_equal | exact Hf].
    + intros [[|d pre] [Hs Hf]].
      * left. destruct x as [q t]; cbn in *. now subst.
      * right. apply IH. injection Hs as -> Hs. exists pre. now split.
Qed.

Lemma hd_error_In {A} (l : list A) (y : A) : hd_error l = Some y -> In y l.
Proof. destruct l; [discriminate|]. intros [= ->]. now left. Qed.

Section LiteralFacts.
Variables (ic ml : bool).

(** A literal matches exactly the strings that canonicalize like it. *)
Lemma matcher_lit_iff (w : jsstring) :
  forall (p : option N) (s : jsstring) (y : state),
    In y (matcher ic ml (lit w) (p, s))
    <-> exists pre,
          s = pre ++ snd y /\ fst y = lastOf p pre
          /\ List.map (canonicalize ic) pre = List.map (canonicalize ic) w.
Proof.
  induction w as [|c w IH]; intros p s y; cbn [lit matcher].
  - split.
    + intros [<-|[]]. exists []. now repeat split.
    + intros [pre [Hs [Hf Hm]]]. left.
      destruct pre; [|discriminate].
      destruct y as [q t]; cbn in *. now subst.
  - rewrite in_flat_map. split.
    + intros [z [Hz Hy]].
      apply (matcher_chr_inv ic ml) in Hz as [ch [t [Hs [Hc ->]]]].
      cbn [snd] in Hs. subst s.
      apply IH in Hy as [pre [Hs [Hf Hm]]].
      exists (ch :: pre). cbn [List.map app]. rewrite Hc, Hm, <- Hs.
      now repeat split.
    + intros [[|ch pre] [Hs [Hf Hm]]]; [discriminate|].
      cbn [List.map] in Hm. injection Hm as Hc Hm.
      exists (Some ch, pre ++ snd y). split.
      * subst s. cbn [matcher snd app]. rewrite Hc, N.eqb_refl. now left.
      * apply IH. exists pre. now repeat split.
Qed.

(** All the ways an unbounded repetition of a class matches: some prefix of
    the run, at least [lo] long. *)
Lemma repeat_class_in (q : N -> bool) :
  forall fuel lo p s y,
    In y (repeatMatcher (classStep q) fuel lo None (p, s)) ->
    exists pre,
      s = pre ++ snd y /\ fst y = lastOf p pre
      /\ Forall (fun c => q c = true) pre /\ (lo <= List.length pre)%nat.
Proof.
  induction fuel as [|fuel IH]; intros lo p s y Hy.
  - cbn in Hy. destruct lo; cbn in Hy; [|contradiction].
    destruct Hy as [<-|[]]. exists []. repeat split; auto.
  - rewrite repeatMatcher_unbounded in Hy. apply in_app_or in Hy as [Hy|Hy].
    + apply in_flat_map in Hy as [z [Hz Hy]].
      destruct s as [|ch t]; [contradiction|].
      rewrite classStep_cons in Hz. destruct (q ch) eqn:Eq; [|contradiction].
      destruct Hz as [<-|[]]. cbn [snd] in Hy.
      destruct (Nat.eqb lo 0 && Nat.eqb (List.length t) (List.length (ch :: t)));
        [contradiction|].
      apply IH in Hy as [pre [Hs [Hf [Hq Hl]]]].
      exists (ch :: pre). subst t. repeat split; auto.
      cbn [List.length]. lia.
    + destruct lo; cbn in Hy; [|contradiction].
      destruct Hy as [<-|[]]. exists []. repeat split; auto.
Qed.

End LiteralFacts.

Lemma takeWhile_all (q : N -> bool) (a b : jsstring) :
  Forall (fun c => q c = true) a ->
  hd_error (List.map q b) <> Some true ->
  takeWhile q (a ++ b) = a /\ dropWhile q (a ++ b) = b.
Proof.
  induction 1 as [|c a Hc Ha IH]; intros Hb; cbn.
  - destruct b as [|d b]; [now split|]. cbn in *.
    destruct (q d); [congruence | now split].
  - rewrite Hc. destruct (IH Hb) as [-> ->]. now split.
Qed.

(** ** What the title patterns accept *)

Lemma same_case_hd (w word r : jsstring) :
  sameIgnoringCase w word ->
  wordAt (hd_error word) = true ->
  wordAt (hd_error (w ++ r)) = true.
Proof.
  unfold sameIgnoringCase.
  destruct w as [|c w], word as [|d word]; cbn; try discriminate.
  intros [= Hc _]. now rewrite <- (upperUnit_word c), Hc, upperUnit_word.
Qed.

Lemma same_case_last (w word : jsstring) :
  forall q q',
    wordAt q = wordAt q' ->
    sameIgnoringCase w word ->
    wordAt (lastOf q w) = wordAt (lastOf q' word).
Proof.
  unfold sameIgnoringCase. revert word.
  induction w as [|c w IH]; intros [|d word] q q' Hq; cbn [List.map];
    try discriminate.
  - intros _. exact Hq.
  - intros [= Hc Hm]. rewrite !lastOf_cons. apply IH; [|exact Hm].
    cbn. now rewrite <- (upperUnit_word c), Hc, upperUnit_word.
Qed.

Lemma same_case_last_nonempty (w word : jsstring) (q : option N) :
  word <> [] ->
  sameIgnoringCase w word ->
  wordAt (lastOf q w) = wordAt (lastOf None word).
Proof.
  unfold sameIgnoringCase.
  destruct w as [|c w], word as [|d word]; cbn [List.map]; try discriminate;
    try congruence.
  intros _ [= Hc Hm]. rewrite !lastOf_cons. apply same_case_last; [|exact Hm].
  cbn. now rewrite <- (upperUnit_word c), Hc, upperUnit_word.
Qed.

(** A pattern [\bword\b] with the [i] flag, for a word that starts and ends
    with a word character, accepts exactly the titles that hold the word
    between two boundaries. *)
Lemma whole_word_iff (word title : jsstring) :
  wordAt (hd_error word) = true ->
  wordAt (lastOf None word) = true ->
  test (re_i (seq [WordB; lit word; WordB])) title = true
  <-> containsWord word title.
Proof.
  intros Hfirst Hlast.
  assert (Hne : word <> []) by (intros ->; discriminate).
  rewrite test_true_iff. cbn [flag_i flag_m source re_i seq fold_right].
  split.
  - intros [[p s] [y [Hx Hy]]].
    apply positions_iff in Hx as [pre [Ht Hp]]. cbn [fst snd] in *.
    cbn [matcher fst snd] in Hy.
    destruct (xorb (wordAt p) (wordAt (hd_error s))) eqn:E1;
      [|contradiction].
    cbn [flat_map] in Hy. rewrite app_nil_r in Hy.
    apply in_flat_map in Hy as [z [Hz Hy]].
    apply matcher_lit_iff in Hz as [w [Hs [Hf Hm]]].
    apply in_flat_map in Hy as [z' [Hz' _]].
    destruct (xorb (wordAt (fst z)) (wordAt (hd_error (snd z)))) eqn:E2;
      [|contradiction].
    change (sameIgnoringCase w word) in Hm.
    exists pre, w, (snd z). subst s p.
    rewrite (same_case_hd _ _ _ Hm Hfirst) in E1.
    rewrite Hf, (same_case_last_nonempty _ _ _ Hne Hm), Hlast in E2.
    repeat split; auto.
    + now destruct (wordAt (lastOf None pre)).
    + now destruct (wordAt (hd_error (snd z))).
  - intros [pre [w [post [Ht [Hm [Hp Hq]]]]]].
    exists (lastOf None pre, w ++ post), (lastOf (lastOf None pre) w, post).
    split.
    + apply positions_iff. exists pre. now split.
    + cbn [matcher fst snd]. rewrite Hp, (same_case_hd _ _ _ Hm Hfirst).
      cbn [xorb flat_map]. rewrite app_nil_r.
      apply in_flat_map. exists (lastOf (lastOf None pre) w, post). split.
      * apply matcher_lit_iff. exists w. now repeat split.
      * cbn [matcher fst snd flat_map].
        rewrite (same_case_last_nonempty _ _ _ Hne Hm), Hlast, Hq.
        cbn. now left.
Qed.

(** A pattern [^word] with the [i] flag accepts exactly the titles that
    start with the word. *)
Lemma word_start_iff (word title : jsstring) :
  test (re_i (seq [Bol; lit word])) title = true <-> startsWithWord word title.
Proof.
  split.
  - intros H. apply test_anchored in H as [y Hy].
    cbn [matcher] in Hy. apply in_flat_map in Hy as [z [Hz _]].
    apply matcher_lit_iff in Hz as [w [Hs [_ Hm]]].
    exists w, (snd z). now split.
  - intros [w [rest [Ht Hm]]]. apply test_true_iff.
    exists (None, title), (lastOf None w, rest). split.
    + apply positions_head.
    + cbn [flag_i flag_m source re_i seq fold_right matcher fst flat_map].
      rewrite app_nil_r. apply in_flat_map.
      exists (lastOf None w, rest). split; [|now left].
      apply matcher_lit_iff. exists w. now repeat split.
Qed.

(** X1: a title is excluded exactly when it holds "staging", in any letter
    case, with no word character right before or right after it. *)
Theorem excluded_iff_staging_word (title : jsstring) :
  shouldExcludePRTitle title = true <-> containsWord (js "staging") title.
Proof.
  rewrite <- (whole_word_iff (js "staging") title) by reflexivity.
  change (re_i (seq [WordB; lit (js "staging"); WordB])) with STAGING_WORD_RE.
  unfold shouldExcludePRTitle, EXCLUDE_TITLE_PATTERNS. cbn [existsb].
  pose proof (update_staging_redundant title) as H2.
  pose proof (staging_start_redundant title) as H3.
  destruct (test STAGING_WORD_RE title);
    destruct (test UPDATE_STAGING_RE title);
    destruct (test STAGING_START_RE title); cbn; split; auto.
Qed.

(** X2: a title is flagged as a fix exactly when it starts with "fix", in
    any letter case and whatever follows (so "Fixture" counts), or holds
    "fix" as a whole word. *)
Theorem fix_iff_prefix_or_word (title : jsstring) :
  detectFix title = true
  <-> startsWithWord (js "fix") title \/ containsWord (js "fix") title.
Proof.
  unfold detectFix. rewrite orb_true_iff.
  change FIX_START_RE with (re_i (seq [Bol; lit (js "fix")])).
  change FIX_WORD_RE with (re_i (seq [WordB; lit (js "fix"); WordB])).
  rewrite word_start_iff, whole_word_iff by reflexivity. reflexivity.
Qed.

Lemma digit_not_space (d : N) : isDigit d = true -> isWhiteSpace d = false.
Proof.
  unfold isDigit. intros H. apply andb_true_iff in H as [H1 H2].
  apply N.leb_le in H1, H2. unfold isWhiteSpace.
  repeat match goal with
         | |- context [(d =? ?k)%N] =>
             replace (d =? k)%N with false by (symmetry; apply N.eqb_neq; lia)
         end.
  replace (0x2000 <=? d)%N with false by (symmetry; apply N.leb_gt; lia).
  reflexivity.
Qed.

(** X3: a title is flagged as a sprint exactly when it starts with "sprint",
    in any letter case, followed by white space and a digit. *)
Theorem sprint_iff_numbered (title : jsstring) :
  detectSprint title = true <-> startsWithNumbered (js "sprint") title.
Proof.
  unfold detectSprint, SPRINT_RE, re_i. cbn [seq fold_right]. split.
  - intros H. apply test_anchored in H as [y Hy].
    cbn [matcher] in Hy.
    apply in_flat_map in Hy as [z1 [Hz1 Hy]].
    apply matcher_lit_iff in Hz1 as [w [Hs1 [_ Hm]]].
    apply in_flat_map in Hy as [z2 [Hz2 Hy]].
    destruct z1 as [p1 s1]. unfold Plus in Hz2. cbn [matcher] in Hz2.
    change (matcher true false ws) with (classStep isWhiteSpace) in Hz2.
    apply repeat_class_in in Hz2 as [sp [Hs2 [_ [Hsp Hl]]]].
    apply in_flat_map in Hy as [z3 [Hz3 _]].
    destruct z2 as [p2 s2]. unfold Plus in Hz3. cbn [matcher] in Hz3.
    change (matcher true false digit) with (classStep isDigit) in Hz3.
    apply repeat_class_in in Hz3 as [ds [Hs3 [_ [Hds Hl3]]]].
    destruct ds as [|d ds]; [cbn in Hl3; lia|].
    cbn [snd] in *. subst.
    exists w, sp, d, (ds ++ snd z3). repeat split; auto.
    + intros ->. cbn in Hl. lia.
    + now inversion Hds.
  - intros [w [sp [d [rest [Ht [Hm [Hne [Hsp Hd]]]]]]]].
    apply test_true_iff.
    cbn [flag_i flag_m source].
    destruct (takeWhile_all isWhiteSpace sp (d :: rest) Hsp) as [Tk Dr].
    { cbn. rewrite (digit_not_space d Hd). discriminate. }
    set (z1 := (lastOf None w, sp ++ d :: rest)).
    set (z2 := (lastOf (fst z1) sp, d :: rest)).
    set (z3 := (lastOf (fst z2) (takeWhile isDigit (d :: rest)),
                dropWhile isDigit (d :: rest))).
    exists (None, title), z3. split; [apply positions_head|].
    cbn [matcher fst flat_map]. rewrite app_nil_r.
    apply in_flat_map. exists z1. split.
    { apply matcher_lit_iff. exists w. now repeat split. }
    apply in_flat_map. exists z2. split.
    { unfold Plus. cbn [matcher].
      change (matcher true false ws) with (classStep isWhiteSpace).
      apply hd_error_In. unfold z1. cbn [snd].
      rewrite repeat_class_head by lia. rewrite Tk, Dr.
      destruct sp; [contradiction | reflexivity]. }
    apply in_flat_map. exists z3. split; [|now left].
    unfold Plus. cbn [matcher].
    change (matcher true false digit) with (classStep isDigit).
    apply hd_error_In. unfold z2. cbn [snd fst].
    rewrite repeat_class_head by lia.
    unfold z3, z2, z1. cbn [fst snd takeWhile]. rewrite Hd. reflexivity.
Qed.

(** ** The display title (C1) *)

Lemma displaySummary_cases (originalTitle : jsstring) (body : option jsstring) :
  let summary :=
    toSingleLineSummary (extractPreferredSummaryFromBody body) DEFAULT_MAX_LEN in
  (summary <> [] /\ displaySummary originalTitle body = summary)
  \/ (summary = [] /\ displaySummary originalTitle body = cleanPRTitle originalTitle).
Proof.
  cbv zeta. unfold displaySummary, or_else.
  destruct (toSingleLineSummary _ _) as [|c s]; cbn [is_empty].
  - now right.
  - left. split; [discriminate | reflexivity].
Qed.

(** What [/^Sprint\s+\d+$/i] accepts. *)
Lemma sprint_only_iff (text : jsstring) :
  test SPRINT_ONLY_RE text = true <-> readsSprintNumber text.
Proof.
  unfold SPRINT_ONLY_RE, re_i. cbn [seq fold_right]. split.
  - intros H. apply test_anchored in H as [y Hy].
    cbn [matcher] in Hy.
    apply in_flat_map in Hy as [z1 [Hz1 Hy]].
    apply matcher_lit_iff in Hz1 as [w [Hs1 [_ Hm]]].
    apply in_flat_map in Hy as [z2 [Hz2 Hy]].
    destruct z1 as [p1 s1]. unfold Plus in Hz2. cbn [matcher] in Hz2.
    change (matcher true false ws) with (classStep isWhiteSpace) in Hz2.
    apply repeat_class_in in Hz2 as [sp [Hs2 [_ [Hsp Hl]]]].
    apply in_flat_map in Hy as [z3 [Hz3 Hy]].
    destruct z2 as [p2 s2]. unfold Plus in Hz3. cbn [matcher] in Hz3.
    change (matcher true false digit) with (classStep isDigit) in Hz3.
    apply repeat_class_in in Hz3 as [ds [Hs3 [_ [Hds Hl3]]]].
    apply in_flat_map in Hy as [z4 [Hz4 _]].
    destruct z3 as [p3 s3]. cbn [snd] in *.
    destruct s3 as [|ch s3]; [|cbn in Hz4; contradiction].
    rewrite app_nil_r in Hs3. subst.
    exists w, sp, ds. repeat split; auto.
    + intros ->. cbn in Hl. lia.
    + intros ->. cbn in Hl3. lia.
  - intros [w [sp [ds [Ht [Hm [Hne [Hsp [Hdn Hds]]]]]]]].
    apply test_true_iff.
    cbn [flag_i flag_m source].
    destruct ds as [|d ds]; [contradiction|].
    assert (Hd : isDigit d = true) by now inversion Hds.
    destruct (takeWhile_all isWhiteSpace sp (d :: ds) Hsp) as [Tk Dr].
    { cbn. rewrite (digit_not_space d Hd). discriminate. }
    destruct (takeWhile_all isDigit (d :: ds) [] Hds) as [Tk' Dr'];
      [discriminate|].
    rewrite app_nil_r in Tk', Dr'.
    set (z1 := (lastOf None w, sp ++ d :: ds)).
    set (z2 := (lastOf (fst z1) sp, d :: ds)).
    set (z3 := (lastOf (fst z2) (d :: ds), @nil N)).
    exists (None, text), z3. split; [apply positions_head|].
    cbn [matcher fst flat_map]. rewrite app_nil_r.
    apply in_flat_map. exists z1. split.
    { apply matcher_lit_iff. exists w. now repeat split. }
    apply in_flat_map. exists z2. split.
    { unfold Plus. cbn [matcher].
      change (matcher true false ws) with (classStep isWhiteSpace).
      apply hd_error_In. unfold z1. cbn [snd].
      rewrite repeat_class_head by lia. rewrite Tk, Dr.
      destruct sp; [contradiction | reflexivity]. }
    apply in_flat_map. exists z3. split.
    { unfold Plus. cbn [matcher].
      change (matcher true false digit) with (classStep isDigit).
      apply hd_error_In. unfold z2. cbn [snd fst].
      rewrite repeat_class_head by lia. rewrite Tk', Dr'. reflexivity. }
    apply in_flat_map. exists z3. split; now left.
Qed.

(** The suffix is added to the summaries of sprint pull requests that read
    as a sprint number, and to no other. *)
Lemma displayTitle_rule (originalTitle : jsstring) (body : option jsstring) :
  let d := displaySummary originalTitle body in
  (detectSprint originalTitle = true /\ readsSprintNumber d ->
   displayTitle originalTitle body = d ++ RELEASE_BUNDLE)
  /\ (~ (detectSprint originalTitle = true /\ readsSprintNumber d) ->
      displayTitle originalTitle body = d).
Proof.
  cbv zeta. unfold displayTitle.
  destruct (detectSprint originalTitle) eqn:S; cbn [andb].
  - destruct (test SPRINT_ONLY_RE (displaySummary originalTitle body)) eqn:T.
    + apply sprint_only_iff in T. split; [reflexivity|].
      intros H. exfalso. apply H. now split.
    + split; [|reflexivity]. intros [_ H].
      apply sprint_only_iff in H. congruence.
  - split; [|reflexivity]. intros [H _]. discriminate.
Qed.

Lemma readsSprintNumber_not_nil (text : jsstring) :
  readsSprintNumber text -> text <> [].
Proof.
  intros [w [sp [ds [-> [_ [_ [_ [Hd _]]]]]]]] E.
  apply app_eq_nil in E as [_ E]. apply app_eq_nil in E as [_ E].
  contradiction.
Qed.

(** C1 as stated fails: the title of a pull request without description is
    the cleaned title, which is not cut (here 254 code units) and is empty
    for a title of hyphens; neither title is excluded. *)
Lemma display_title_unbounded_or_empty :
  shouldExcludePRTitle (pr_title longTitlePull) = false
  /\ option_map (fun e => List.length (title e)) (buildDisplayEntry longTitlePull)
     = Some 254%nat
  /\ shouldExcludePRTitle (pr_title hyphenTitlePull) = false
  /\ option_map title (buildDisplayEntry hyphenTitlePull) = Some [].
Proof. repeat split; vm_compute; reflexivity. Qed.

(** C1, amended: the title of a display entry holds no line terminator.
    When the single-line summary of the body is not empty the title is that
    summary, not empty and at most 200 code units long, followed by
    " release bundle" exactly when the pull request is a sprint one and the
    summary reads as "Sprint", white space and digits (at most 215 code
    units then).  When it is empty the title is the cleaned original title,
    whatever its length, with the same rule for the suffix; it is empty when
    the cleaned title is. *)
Theorem display_title_shape (pr : PullRequest) (e : DisplayEntry) :
  buildDisplayEntry pr = Some e ->
  let summary :=
    toSingleLineSummary (extractPreferredSummaryFromBody (pr_body pr))
      DEFAULT_MAX_LEN in
  let cleaned := cleanPRTitle (pr_title pr) in
  let bundled (shown : jsstring) :=
    detectSprint (pr_title pr) = true /\ readsSprintNumber shown in
  singleLine (title e) = true
  /\ (summary <> [] ->
      title e <> []
      /\ (List.length summary <= 200)%nat
      /\ (List.length (title e) <= 215)%nat
      /\ (bundled summary -> title e = summary ++ RELEASE_BUNDLE)
      /\ (~ bundled summary -> title e = summary))
  /\ (summary = [] ->
      (bundled cleaned -> title e = cleaned ++ RELEASE_BUNDLE)
      /\ (~ bundled cleaned -> title e = cleaned)
      /\ (cleaned = [] -> title e = [])).
Proof.
  unfold buildDisplayEntry.
  destruct (pr_merged_at pr) as [merged|]; [|discriminate].
  destruct (is_empty merged); [discriminate|].
  destruct (shouldExcludePRTitle (pr_title pr)); [discriminate|].
  intros [= <-]. cbn [title]. cbv zeta.
  pose proof (toSingleLineSummary_bound
                (extractPreferredSummaryFromBody (pr_body pr)) DEFAULT_MAX_LEN)
    as Hlen.
  pose proof (toSingleLineSummary_inLine
                (extractPreferredSummaryFromBody (pr_body pr)) DEFAULT_MAX_LEN)
    as Hline.
  pose proof (cleanPRTitle_inLine (pr_title pr)) as Hclean.
  assert (Hb : Forall inLine RELEASE_BUNDLE).
  { apply singleLine_Forall. reflexivity. }
  assert (Lb : List.length RELEASE_BUNDLE = 15%nat) by reflexivity.
  unfold DEFAULT_MAX_LEN in *.
  specialize (Hlen ltac:(lia)).
  destruct (displayTitle_rule (pr_title pr) (pr_body pr)) as [Hyes Hno].
  cbv zeta in Hyes, Hno.
  set (bundled :=
         detectSprint (pr_title pr) = true
         /\ readsSprintNumber (displaySummary (pr_title pr) (pr_body pr)))
    in *.
  assert (Hcases :
            displayTitle (pr_title pr) (pr_body pr)
            = displaySummary (pr_title pr) (pr_body pr)
            \/ displayTitle (pr_title pr) (pr_body pr)
               = displaySummary (pr_title pr) (pr_body pr) ++ RELEASE_BUNDLE).
  { unfold displayTitle. destruct (_ && _); auto. }
  destruct (displaySummary_cases (pr_title pr) (pr_body pr)) as [[Hs Hd]|[Hs Hd]];
    unfold DEFAULT_MAX_LEN in *; subst bundled; rewrite Hd in *.
  - split; [|split; [|intros E; contradiction]].
    + apply singleLine_Forall.
      destruct Hcases as [->| ->]; try apply Forall_app; auto.
    + intros _. split; [|split; [exact Hlen|split; [|split; assumption]]].
      * destruct Hcases as [->| ->]; [exact Hs|].
        intros E. apply app_eq_nil in E as [E _]. contradiction.
      * destruct Hcases as [->| ->]; [lia|]. rewrite length_app. lia.
  - split; [|split; [intros E; contradiction|]].
    + apply singleLine_Forall.
      destruct Hcases as [->| ->]; try apply Forall_app; auto.
    + intros _. split; [exact Hyes|]. split; [exact Hno|].
      intros E. rewrite E in *. apply Hno. intros [_ H].
      now apply readsSprintNumber_not_nil in H.
Qed.

Lemma display_title_shape_witness :
  buildDisplayEntry sprintPull = Some sprintEntry
  /\ singleLine (title sprintEntry) = true
  /\ (List.length (title sprintEntry) <= 215)%nat.
Proof.
  assert (H : buildDisplayEntry sprintPull = Some sprintEntry) by reflexivity.
  split; [exact H|].
  destruct (display_title_shape sprintPull sprintEntry H) as [H1 [H2 _]].
  split; [exact H1|].
  apply H2. vm_compute. discriminate.
Defined.

(** ** What replacement keeps *)

Lemma positions_suffix (y : state) (p : option N) (s : jsstring) :
  In y (positions p s) -> exists pre, s = pre ++ snd y.
Proof. intros H. apply positions_iff in H as [pre [H _]]. eauto. Qed.

Lemma execAt_suffix (re : RegExp) (x y : state) :
  execAt re x = Some y -> exists pre, snd x = pre ++ snd y.
Proof.
  unfold execAt, matchAt. intros H. apply hd_error_In in H.
  apply matcher_positions in H. now apply positions_suffix in H.
Qed.

(** The result of a replacement is made of code units of the input and of
    the replacement. *)
Lemma replaceFrom_Forall (P : N -> Prop) (re : RegExp) (repl : jsstring) :
  Forall P repl ->
  forall fuel x, Forall P (snd x) -> Forall P (replaceFrom re repl fuel x).
Proof.
  intros Hr. induction fuel as [|fuel IH]; intros [p s] Hs; [exact Hs|].
  cbn [replaceFrom].
  assert (Hstep : Forall P (stepOver (replaceFrom re repl fuel) (p, s))).
  { unfold stepOver. cbn [snd] in *. destruct s as [|c t]; [constructor|].
    inversion Hs; subst. constructor; [assumption|]. now apply IH. }
  destruct (execAt re (p, s)) as [y|] eqn:E; [|exact Hstep].
  destruct (execAt_suffix _ _ _ E) as [pre Hpre]. cbn [snd] in Hpre.
  assert (Hy : Forall P (snd y)).
  { rewrite Hpre in Hs. now apply Forall_app in Hs. }
  destruct (negb (flag_g re)); [apply Forall_app; now split|].
  destruct (Nat.eqb _ _); apply Forall_app; split; auto.
Qed.

Lemma replace_Forall (P : N -> Prop) (s : jsstring) (re : RegExp)
      (repl : jsstring) :
  Forall P repl -> Forall P s -> Forall P (replace s re repl).
Proof. intros Hr Hs. now apply replaceFrom_Forall. Qed.

(** ** The shape of a normalized text *)

Lemma trim_head (s t : jsstring) (c : N) :
  trim s = c :: t -> isWhiteSpace c = false.
Proof.
  unfold trim. intros H.
  destruct (trimEnd_prefix (trimStart s)) as [w Hw]. rewrite H in Hw.
  now apply (dropWhile_head isWhiteSpace s (t ++ w) c).
Qed.

Lemma trim_last (s t : jsstring) (c : N) :
  trim s = t ++ [c] -> isWhiteSpace c = false.
Proof.
  unfold trim, trimEnd. intros H.
  apply (f_equal (@rev N)) in H. rewrite rev_involutive, rev_app_distr in H.
  cbn in H. now apply dropWhile_head in H.
Qed.

Lemma trim_trimmed (s : jsstring) : trimmed (trim s).
Proof.
  split; intros c t H; [now apply trim_head in H | now apply trim_last in H].
Qed.

Lemma dropWhile_all (q : N -> bool) (s : jsstring) :
  Forall (fun c => q c = true) s -> dropWhile q s = [].
Proof. induction 1 as [|c s Hc _ IH]; cbn; [reflexivity | now rewrite Hc]. Qed.

Lemma trim_blank (s : jsstring) :
  Forall (fun c => isWhiteSpace c = true) s -> trim s = [].
Proof. intros H. unfold trim, trimStart. now rewrite dropWhile_all. Qed.

Lemma normalized_text_shape_aux (text : jsstring) :
  trimmed (normalizeSummaryText text)
  /\ test BLANK_RUN_RE (normalizeSummaryText text) = false.
Proof.
  split.
  - unfold normalizeSummaryText. apply trim_trimmed.
  - apply noBlankRun_no_match, normalizeSummaryText_calm.
Qed.

(** X4: a normalized text neither starts nor ends with white space, and
    the pattern of three or more line feeds no longer matches it. *)
Theorem normalized_text_shape (text : jsstring) :
  trimmed (normalizeSummaryText text)
  /\ test BLANK_RUN_RE (normalizeSummaryText text) = false.
Proof. apply normalized_text_shape_aux. Qed.

Lemma normalizeSummaryText_blank (text : jsstring) :
  Forall (fun c => isWhiteSpace c = true) text ->
  normalizeSummaryText text = [].
Proof.
  intros H. unfold normalizeSummaryText. apply trim_blank.
  repeat apply replace_Forall; auto; repeat constructor.
Qed.

(** X5: a text made of white space only (blank lines, spaces, CR LF pairs)
    normalizes to the empty string and gives the empty single-line summary,
    whatever the maximum length. *)
Theorem blank_text_gives_no_summary (text : jsstring) (maxLen : nat) :
  Forall (fun c => isWhiteSpace c = true) text ->
  normalizeSummaryText text = []
  /\ toSingleLineSummary text maxLen = [].
Proof.
  intros H. pose proof (normalizeSummaryText_blank text H) as E.
  split; [exact E|]. unfold toSingleLineSummary. now rewrite E.
Qed.

Lemma blank_text_gives_no_summary_witness :
  toSingleLineSummary ([SP; CR; LF; LF; 9; LF; SP]) 200 = [].
Proof.
  apply blank_text_gives_no_summary. repeat constructor.
Defined.

(** ** Single spaces *)

Lemma noDoubleSpace_tail (c : N) (s : jsstring) :
  noDoubleSpace (c :: s) = true -> noDoubleSpace s = true.
Proof.
  destruct s as [|d s]; [reflexivity|]. cbn [noDoubleSpace].
  intros H. now apply andb_true_iff in H.
Qed.

Lemma noDoubleSpace_cons (c : N) (s : jsstring) :
  noDoubleSpace s = true ->
  (c <> SP \/ hd_error s <> Some SP) ->
  noDoubleSpace (c :: s) = true.
Proof.
  intros Hs Hc. destruct s as [|d s]; [reflexivity|].
  cbn [noDoubleSpace] in *. rewrite Hs, andb_true_r.
  apply negb_true_iff, andb_false_iff.
  destruct Hc as [Hc|Hc]; [left | right]; apply N.eqb_neq; [exact Hc|].
  intros ->. now apply Hc.
Qed.

Lemma noDoubleSpace_head (c d : N) (s : jsstring) :
  noDoubleSpace (c :: d :: s) = true -> c <> SP \/ d <> SP.
Proof.
  cbn [noDoubleSpace]. intros H. apply andb_true_iff in H as [H _].
  apply negb_true_iff, andb_false_iff in H.
  destruct H as [H|H]; apply N.eqb_neq in H; auto.
Qed.

Lemma noDoubleSpace_prefix (a b : jsstring) :
  noDoubleSpace (a ++ b) = true -> noDoubleSpace a = true.
Proof.
  induction a as [|c a IH]; intros H; [reflexivity|].
  rewrite <- app_comm_cons in H.
  apply noDoubleSpace_cons; [apply IH; now apply noDoubleSpace_tail in H|].
  destruct a as [|d a]; [right; discriminate|].
  cbn [app] in H. apply noDoubleSpace_head in H as [H|H]; [now left|].
  right. cbn. congruence.
Qed.

Lemma noDoubleSpace_dropWhile (q : N -> bool) (s : jsstring) :
  noDoubleSpace s = true -> noDoubleSpace (dropWhile q s) = true.
Proof.
  induction s as [|c s IH]; intros H; [exact H|].
  cbn [dropWhile]. destruct (q c); [|exact H].
  apply IH. now apply noDoubleSpace_tail in H.
Qed.

Lemma noDoubleSpace_snoc (a : jsstring) (e : N) :
  noDoubleSpace a = true -> e <> SP -> noDoubleSpace (a ++ [e]) = true.
Proof.
  intros Ha He. induction a as [|c a IH]; [reflexivity|].
  rewrite <- app_comm_cons. apply noDoubleSpace_cons.
  - apply IH. now apply noDoubleSpace_tail in Ha.
  - destruct a as [|d a]; cbn.
    + right. congruence.
    + apply noDoubleSpace_head in Ha as [H|H]; [now left | right; congruence].
Qed.

Lemma noDoubleSpace_firstn (k : nat) (s : jsstring) :
  noDoubleSpace s = true -> noDoubleSpace (firstn k s) = true.
Proof.
  intros H. rewrite <- (firstn_skipn k s) in H.
  now apply noDoubleSpace_prefix in H.
Qed.

Lemma noDoubleSpace_trim (s : jsstring) :
  noDoubleSpace s = true -> noDoubleSpace (trim s) = true.
Proof.
  intros H. unfold trim.
  destruct (trimEnd_prefix (trimStart s)) as [w Hw].
  apply (noDoubleSpace_prefix _ w). rewrite <- Hw.
  now apply noDoubleSpace_dropWhile.
Qed.

(** What [replace(/\s+/g, ' ')] returns has no two spaces in a row, and
    starts with a space only if its input starts with white space. *)
Lemma spaces_replaceFrom_single :
  forall fuel p s,
    (List.length s < fuel)%nat ->
    noDoubleSpace (replaceFrom SPACES_RE [SP] fuel (p, s)) = true
    /\ (hd_error (replaceFrom SPACES_RE [SP] fuel (p, s)) = Some SP ->
        exists c r, s = c :: r /\ isWhiteSpace c = true).
Proof.
  induction fuel as [|fuel IH]; intros p s Hf; [lia|].
  cbn [replaceFrom]. rewrite execAt_spaces.
  pose proof (dropWhile_length isWhiteSpace s) as Hl.
  destruct (1 <=? List.length (takeWhile isWhiteSpace s))%nat eqn:E.
  - apply Nat.leb_le in E. cbn [flag_g SPACES_RE re_g negb snd].
    replace (Nat.eqb (List.length (dropWhile isWhiteSpace s)) (List.length s))
      with false by (symmetry; apply Nat.eqb_neq; lia).
    destruct (IH (lastOf p (takeWhile isWhiteSpace s))
                (dropWhile isWhiteSpace s)) as [H1 H2]; [lia|].
    split.
    + cbn [app]. apply noDoubleSpace_cons; [exact H1|].
      right. intros Hh. apply H2 in Hh as [c [r [Hd Hc]]].
      apply dropWhile_head in Hd. congruence.
    + intros _. destruct s as [|c r]; [cbn in E; lia|].
      cbn [takeWhile] in E. destruct (isWhiteSpace c) eqn:Ec;
        [eauto | cbn in E; lia].
  - apply Nat.leb_gt in E. unfold stepOver. cbn [snd].
    destruct s as [|c t]; [split; [reflexivity | discriminate]|].
    cbn [takeWhile] in E. destruct (isWhiteSpace c) eqn:Ec; [cbn in E; lia|].
    assert (Hc : c <> SP) by (intros ->; discriminate).
    destruct (IH (Some c) t) as [H1 _]; [cbn in Hf; lia|].
    split.
    + apply noDoubleSpace_cons; auto.
    + cbn. intros [= ->]. contradiction.
Qed.

Lemma spaces_replace_single (s : jsstring) :
  noDoubleSpace (replace s SPACES_RE [SP]) = true
  /\ (trimmed s -> hd_error (replace s SPACES_RE [SP]) <> Some SP).
Proof.
  destruct (spaces_replaceFrom_single (S (List.length s)) None s) as [H1 H2];
    [lia|].
  split; [exact H1|].
  intros [Hh _] E. apply H2 in E as [c [r [-> Hc]]].
  rewrite (Hh c r eq_refl) in Hc. discriminate.
Qed.

Lemma hd_error_firstn_app {A} (k : nat) (l : list A) (e x : A) :
  hd_error (firstn k l ++ [e]) = Some x -> x = e \/ hd_error l = Some x.
Proof.
  destruct k, l; cbn; intros [= ->]; auto.
Qed.

Lemma slice0_slice0 (s : jsstring) (m : nat) (n : Z) :
  (0 <= n)%Z ->
  slice0 (slice0 s (Z.of_nat m)) n = firstn (Nat.min (Z.to_nat n) m) s.
Proof.
  intros Hn. unfold slice0.
  destruct (Z.of_nat m <? 0)%Z eqn:E1; [apply Z.ltb_lt in E1; lia|].
  destruct (n <? 0)%Z eqn:E2; [apply Z.ltb_lt in E2; lia|].
  now rewrite firstn_firstn, Nat2Z.id.
Qed.

(** The truncated branches of [toSingleLineSummary]: a prefix of the
    one-line text, shorter than [maxLen], and the ellipsis. *)
Lemma toSingleLineSummary_cases (text : jsstring) (maxLen : nat) :
  (0 < maxLen)%nat ->
  let oneLine := replace (normalizeSummaryText text) SPACES_RE [SP] in
  ((List.length oneLine <= maxLen)%nat
   /\ toSingleLineSummary text maxLen = oneLine)
  \/ ((maxLen < List.length oneLine)%nat
      /\ exists k, (k < maxLen)%nat
                   /\ toSingleLineSummary text maxLen
                      = firstn k oneLine ++ [ELLIPSIS]).
Proof.
  intros Hpos. cbv zeta. unfold toSingleLineSummary.
  set (oneLine := replace (normalizeSummaryText text) SPACES_RE [SP]).
  destruct oneLine as [|c o] eqn:Eo; cbn [is_empty].
  - left. split; [cbn; lia | reflexivity].
  - rewrite <- Eo. clear Eo.
    destruct (List.length oneLine <=? maxLen)%nat eqn:E.
    + left. apply Nat.leb_le in E. now split.
    + right. apply Nat.leb_gt in E. split; [exact E|].
      pose proof (lastIndexOf_bound SP (slice0 oneLine (Z.of_nat maxLen))) as Hb.
      pose proof (slice0_length oneLine (Z.of_nat maxLen)) as Hs.
      destruct (3 * Z.of_nat maxLen <? _)%Z eqn:E6.
      * apply Z.ltb_lt in E6. rewrite slice0_slice0 by lia.
        eexists. split; [|reflexivity]. lia.
      * rewrite slice0_slice0 by lia.
        eexists. split; [|reflexivity]. lia.
Qed.

(** X6: in a single-line summary every white-space code unit is a plain
    space, no two spaces follow each other, and the text does not start
    with a space. *)
Theorem single_line_summary_spacing (text : jsstring) (maxLen : nat) :
  Forall spaceOrInk (toSingleLineSummary text maxLen)
  /\ noDoubleSpace (toSingleLineSummary text maxLen) = true
  /\ hd_error (toSingleLineSummary text maxLen) <> Some SP.
Proof.
  pose proof (spaces_replace_clean (normalizeSummaryText text)) as Hc.
  destruct (spaces_replace_single (normalizeSummaryText text)) as [Hd Hh].
  specialize (Hh (proj1 (normalized_text_shape_aux text))).
  unfold toSingleLineSummary.
  set (oneLine := replace (normalizeSummaryText text) SPACES_RE [SP]) in *.
  assert (He : spaceOrInk ELLIPSIS) by (now left).
  assert (Hn : ELLIPSIS <> SP) by discriminate.
  destruct (is_empty oneLine); [repeat split; [constructor | discriminate]|].
  destruct (List.length oneLine <=? maxLen)%nat; [now repeat split|].
  assert (G : forall k,
             Forall spaceOrInk (firstn k oneLine ++ [ELLIPSIS])
             /\ noDoubleSpace (firstn k oneLine ++ [ELLIPSIS]) = true
             /\ hd_error (firstn k oneLine ++ [ELLIPSIS]) <> Some SP).
  { intros k. repeat split.
    - apply Forall_app. split; [now apply Forall_firstn_of | now constructor].
    - apply noDoubleSpace_snoc; [now apply noDoubleSpace_firstn | exact Hn].
    - intros E. apply hd_error_firstn_app in E as [E|E]; [now apply Hn|].
      contradiction. }
  destruct (3 * Z.of_nat maxLen <? _)%Z;
    match goal with
    | |- context [slice0 (slice0 ?o ?m) ?n ++ _] =>
        destruct (slice0_prefix (slice0 o m) n) as [k1 ->];
        destruct (slice0_prefix o m) as [k2 ->];
        rewrite firstn_firstn; apply G
    end.
Qed.

(** X7: with a positive maximum, a one-line text that fits is returned as
    it is, without ellipsis; a longer one is cut to a prefix of fewer than
    [maxLen] code units followed by the ellipsis, so what is kept is never
    altered or reordered. *)
Theorem truncation_keeps_a_prefix (text : jsstring) (maxLen : nat) :
  (0 < maxLen)%nat ->
  let oneLine := replace (normalizeSummaryText text) SPACES_RE [SP] in
  ((List.length oneLine <= maxLen)%nat ->
   toSingleLineSummary text maxLen = oneLine)
  /\ ((maxLen < List.length oneLine)%nat ->
      exists k, (k < maxLen)%nat
                /\ toSingleLineSummary text maxLen
                   = firstn k oneLine ++ [ELLIPSIS]).
Proof.
  intros Hpos. cbv zeta.
  destruct (toSingleLineSummary_cases text maxLen Hpos) as [[H1 H2]|[H1 H2]];
    split; intros H; auto; lia.
Qed.

Lemma truncation_keeps_a_prefix_witness :
  toSingleLineSummary (js "- shorter   than" ++ [LF] ++ js "the limit") 30
  = js "shorter than the limit".
Proof.
  apply (truncation_keeps_a_prefix
           (js "- shorter   than" ++ [LF] ++ js "the limit") 30);
    [lia | vm_compute; lia].
Defined.

(** ** The cleaned title *)

Lemma printable_not_space (c : N) :
  33 <= c -> c <= 126 -> isWhiteSpace c = false.
Proof.
  intros H1 H2. unfold isWhiteSpace.
  repeat match goal with
         | |- context [(c =? ?k)%N] =>
             replace (c =? k)%N with false by (symmetry; apply N.eqb_neq; lia)
         end.
  replace (0x2000 <=? c)%N with false by (symmetry; apply N.leb_gt; lia).
  reflexivity.
Qed.

Lemma surrogate_ink (u : N) : isSurrogate u = true -> ink u.
Proof.
  unfold isSurrogate, ink, isWhiteSpace. intros H.
  apply andb_true_iff in H as [H1 H2]. apply N.leb_le in H1, H2.
  repeat match goal with
         | |- context [(u =? ?k)%N] =>
             replace (u =? k)%N with false by (symmetry; apply N.eqb_neq; lia)
         end.
  replace (u <=? 0x200A)%N with false by (symmetry; apply N.leb_gt; lia).
  now rewrite andb_false_r.
Qed.

Lemma ink_units (l : jsstring) :
  forallb (fun c => negb (isWhiteSpace c)) l = true -> Forall ink l.
Proof.
  intros H. apply Forall_forall. intros c Hc.
  rewrite forallb_forall in H. specialize (H c Hc).
  unfold ink. now destruct (isWhiteSpace c).
Qed.

Lemma CodePointsToString_not_nil (v : list N) :
  v <> [] -> CodePointsToString v <> [].
Proof.
  destruct v as [|cp v]; [contradiction|]. intros _ E.
  rewrite CodePointsToString_cons in E. apply app_eq_nil in E as [E _].
  now apply UTF16EncodeCodePoint_not_nil in E.
Qed.

(** A mapping never writes an empty string, and writes no white space. *)
Lemma caseMapping_ink (table : list (N * list N)) (cp : N) :
  forallb (fun kv => negb (is_empty (snd kv))) table = true ->
  Forall ink (mappedUnits table) ->
  Forall ink (UTF16EncodeCodePoint cp) ->
  CodePointsToString (caseMapping table cp) <> []
  /\ Forall ink (CodePointsToString (caseMapping table cp)).
Proof.
  intros Hne Hink Hcp. split.
  - apply CodePointsToString_not_nil.
    destruct (caseMapping_cases table cp) as [E|E]; [now rewrite E|].
    rewrite forallb_forall in Hne. specialize (Hne _ E). cbn [snd] in Hne.
    now destruct (caseMapping table cp).
  - now apply caseMapping_units.
Qed.

Lemma upper_piece (cp : N) :
  Forall ink (UTF16EncodeCodePoint cp) ->
  CodePointsToString (caseMapping UPPERCASE_MAPPING cp) <> []
  /\ Forall ink (CodePointsToString (caseMapping UPPERCASE_MAPPING cp)).
Proof.
  apply caseMapping_ink; [vm_compute; reflexivity|].
  apply ink_units. vm_compute. reflexivity.
Qed.

Lemma lower_piece (cp : N) (before rest : list N) :
  Forall ink (UTF16EncodeCodePoint cp) ->
  let piece :=
    if cp =? CAPITAL_SIGMA
    then if reachesCased before && negb (reachesCased rest)
         then [SMALL_FINAL_SIGMA] else [SMALL_SIGMA]
    else caseMapping LOWERCASE_MAPPING cp in
  CodePointsToString piece <> [] /\ Forall ink (CodePointsToString piece).
Proof.
  intros Hcp. cbv zeta. destruct (cp =? CAPITAL_SIGMA).
  - destruct (reachesCased before && negb (reachesCased rest));
      (split; [discriminate | now repeat constructor]).
  - apply caseMapping_ink; [vm_compute; reflexivity| |exact Hcp].
    apply ink_units. vm_compute. reflexivity.
Qed.

Lemma layout_unit (c : N) (v a b : jsstring) :
  sameLayout a b -> spaceOrInk c ->
  (c = SP -> v = [SP]) -> (ink c -> v <> [] /\ Forall ink v) ->
  sameLayout (c :: a) (v ++ b).
Proof.
  intros Hab Hc Hs Hi. destruct (N.eq_dec c SP) as [E|E].
  - rewrite (Hs E), E. now constructor.
  - destruct Hc as [Hc|Hc]; [|contradiction].
    destruct (Hi Hc) as [Hv Hv'].
    apply (sameLayout_ink [c] v a b); auto; try discriminate;
      try (now repeat constructor).
Qed.

Lemma layout_pair (c d : N) (v a b : jsstring) :
  isLeadSurrogate c && isTrailSurrogate d = true ->
  sameLayout a b -> v <> [] -> Forall ink v ->
  sameLayout (c :: d :: a) (v ++ b).
Proof.
  intros E Hab Hv Hv'.
  apply (sameLayout_ink [c; d] v a b); auto; try discriminate.
  unfold isLeadSurrogate, isTrailSurrogate in E.
  apply andb_true_iff in E as [E1 E2].
  apply andb_true_iff in E1 as [E1 E1'], E2 as [E2 E2'].
  apply N.leb_le in E1, E1', E2, E2'.
  repeat constructor; apply surrogate_ink; unfold isSurrogate;
    apply andb_true_iff; split; apply N.leb_le; lia.
Qed.

(** Case conversion keeps the layout of a text whose only white space is
    the space. *)
Lemma toUpperCase_layout (s : jsstring) :
  Forall spaceOrInk s -> sameLayout s (toUpperCase s).
Proof.
  unfold toUpperCase, toUppercase.
  induction s as [| c | c d t E IH | c d t E IH] using codePoints_ind;
    intros H.
  - constructor.
  - inversion H; subst. cbn [StringToCodePoints flat_map].
    rewrite app_nil_r. rewrite <- (app_nil_r (CodePointsToString _)).
    apply layout_unit; auto; [constructor | now intros ->|].
    intros Hc. now apply upper_piece, encoded_unit; [exact surrogate_ink|].
  - rewrite StringToCodePoints_pair by exact E.
    inversion H as [|? ? _ H']; subst. inversion H'; subst.
    cbn [flat_map]. rewrite CodePointsToString_app.
    apply layout_pair; auto;
      now apply upper_piece, encoded_pair; [exact surrogate_ink|].
  - rewrite StringToCodePoints_unit by exact E.
    inversion H; subst.
    cbn [flat_map]. rewrite CodePointsToString_app.
    apply layout_unit; auto; [now intros ->|].
    intros Hc. now apply upper_piece, encoded_unit; [exact surrogate_ink|].
Qed.

Lemma toLowercase_layout (s : jsstring) :
  Forall spaceOrInk s ->
  forall before,
    sameLayout s
      (CodePointsToString (toLowercase before (StringToCodePoints s))).
Proof.
  induction s as [| c | c d t E IH | c d t E IH] using codePoints_ind;
    intros H before.
  - constructor.
  - inversion H; subst. cbn [StringToCodePoints toLowercase].
    rewrite app_nil_r. rewrite <- (app_nil_r (CodePointsToString _)).
    apply layout_unit; auto; [constructor | now intros ->|].
    intros Hc. now apply lower_piece, encoded_unit; [exact surrogate_ink|].
  - rewrite StringToCodePoints_pair by exact E.
    inversion H as [|? ? _ H']; subst. inversion H'; subst.
    cbn [toLowercase]. rewrite CodePointsToString_app.
    apply layout_pair; auto;
      now apply lower_piece, encoded_pair; [exact surrogate_ink|].
  - rewrite StringToCodePoints_unit by exact E.
    inversion H; subst.
    cbn [toLowercase]. rewrite CodePointsToString_app.
    apply layout_unit; auto; [now intros ->|].
    intros Hc. now apply lower_piece, encoded_unit; [exact surrogate_ink|].
Qed.

Lemma toLowerCase_layout (s : jsstring) :
  Forall spaceOrInk s -> sameLayout s (toLowerCase s).
Proof. intros H. now apply toLowercase_layout. Qed.

Lemma layout_refl (s : jsstring) : Forall spaceOrInk s -> sameLayout s s.
Proof.
  induction 1 as [|c s Hc _ IH]; [constructor|].
  change (c :: s) with ([c] ++ s) at 2.
  apply layout_unit; auto; [now intros ->|].
  intros Hi. split; [discriminate | now repeat constructor].
Qed.

Lemma layout_app (a b a' b' : jsstring) :
  sameLayout a b -> sameLayout a' b' -> sameLayout (a ++ a') (b ++ b').
Proof.
  induction 1 as [|a b _ IH|u v a b Hu Hv Hu' Hv' _ IH]; intros H';
    [exact H' | |].
  - cbn [app]. constructor. now apply IH.
  - rewrite <- !app_assoc. constructor; auto.
Qed.

Lemma layout_rev (a b : jsstring) :
  sameLayout a b -> sameLayout (rev a) (rev b).
Proof.
  induction 1 as [|a b _ IH|u v a b Hu Hv Hu' Hv' _ IH]; [constructor| |].
  - cbn [rev]. apply layout_app; [exact IH|]. repeat constructor.
  - rewrite !rev_app_distr. apply layout_app; [exact IH|].
    rewrite <- (app_nil_r (rev u)), <- (app_nil_r (rev v)).
    constructor; try constructor; try (now apply Forall_rev).
    + intros E. apply Hu. now rewrite <- (rev_involutive u), E.
    + intros E. apply Hv. now rewrite <- (rev_involutive v), E.
Qed.

Lemma layout_spaceOrInk (a b : jsstring) :
  sameLayout a b -> Forall spaceOrInk b.
Proof.
  induction 1 as [|a b _ IH|u v a b _ _ _ Hv' _ IH]; [constructor| |].
  - constructor; [now right | exact IH].
  - apply Forall_app. split; [|exact IH].
    eapply Forall_impl; [|exact Hv']. intros c Hc. now left.
Qed.

Lemma layout_head (a b : jsstring) :
  sameLayout a b ->
  (forall c t, a = c :: t -> isWhiteSpace c = false) ->
  forall d t, b = d :: t -> isWhiteSpace d = false.
Proof.
  intros [|a' b' _|u v a' b' _ Hv _ Hv' _] Ha d t E.
  - discriminate.
  - now specialize (Ha SP a' eq_refl).
  - destruct v as [|e v]; [contradiction|]. cbn in E. injection E as -> _.
    now inversion Hv'.
Qed.

Lemma ink_not_SP (c : N) : ink c -> c <> SP.
Proof. intros H ->. discriminate H. Qed.

Lemma noDoubleSpace_ink_app (v b : jsstring) :
  Forall ink v -> noDoubleSpace b = true -> noDoubleSpace (v ++ b) = true.
Proof.
  induction 1 as [|c v Hc _ IH]; intros Hb; [exact Hb|].
  cbn [app]. apply noDoubleSpace_cons; [now apply IH|].
  left. now apply ink_not_SP.
Qed.

Lemma noDoubleSpace_suffix (a b : jsstring) :
  noDoubleSpace (a ++ b) = true -> noDoubleSpace b = true.
Proof.
  induction a as [|c a IH]; intros H; [exact H|].
  apply IH. now apply noDoubleSpace_tail in H.
Qed.

Lemma layout_noDoubleSpace (a b : jsstring) :
  sameLayout a b -> noDoubleSpace a = true -> noDoubleSpace b = true.
Proof.
  induction 1 as [|a b Hab IH|u v a b _ _ _ Hv' _ IH]; intros Ha;
    [reflexivity| |].
  - apply noDoubleSpace_cons; [apply IH; now apply noDoubleSpace_tail in Ha|].
    right. destruct Hab as [|a b _|u v a b _ Hv _ Hv' _].
    + discriminate.
    + apply noDoubleSpace_head in Ha as [Ha|Ha]; contradiction.
    + destruct v as [|e v]; [contradiction|]. cbn.
      inversion Hv'; subst. intros [= ->]. now apply (ink_not_SP SP).
  - apply noDoubleSpace_ink_app; [exact Hv'|].
    apply IH. now apply noDoubleSpace_suffix in Ha.
Qed.

Lemma layout_trimmed (a b : jsstring) :
  sameLayout a b -> trimmed a -> trimmed b.
Proof.
  intros Hab [Hh Hl]. split.
  - now apply (layout_head a b).
  - intros d t E.
    apply (layout_head (rev a) (rev b) (layout_rev _ _ Hab)) with (t := rev t).
    + intros c t' E'. apply (Hl c (rev t')).
      now rewrite <- (rev_involutive a), E'.
    + rewrite E, rev_app_distr. reflexivity.
Qed.

Lemma surrogate_not_hyphen (u : N) : isSurrogate u = true -> u <> HYPHEN.
Proof.
  unfold isSurrogate. intros H ->. discriminate H.
Qed.

Lemma not_hyphen_units (l : jsstring) :
  forallb (fun c => negb (c =? HYPHEN)) l = true ->
  Forall (fun c => c <> HYPHEN) l.
Proof.
  intros H. apply Forall_forall. intros c Hc ->.
  rewrite forallb_forall in H. now specialize (H _ Hc).
Qed.

Lemma toUpperCase_no_hyphen (s : jsstring) :
  Forall (fun c => c <> HYPHEN) s ->
  Forall (fun c => c <> HYPHEN) (toUpperCase s).
Proof.
  apply toUpperCase_units; [exact surrogate_not_hyphen|].
  apply not_hyphen_units. vm_compute. reflexivity.
Qed.

Lemma toLowerCase_no_hyphen (s : jsstring) :
  Forall (fun c => c <> HYPHEN) s ->
  Forall (fun c => c <> HYPHEN) (toLowerCase s).
Proof.
  apply toLowerCase_units; [exact surrogate_not_hyphen| |discriminate].
  apply not_hyphen_units. vm_compute. reflexivity.
Qed.

Lemma execAt_hyphen (p : option N) (s : jsstring) :
  execAt HYPHEN_RE (p, s)
  = match s with
    | c :: t => if c =? HYPHEN then Some (Some c, t) else None
    | [] => None
    end.
Proof.
  unfold execAt, matchAt. cbn. destruct s as [|c t]; [reflexivity|].
  unfold HYPHEN, chr. cbn. now destruct (c =? 45).
Qed.

Lemma hyphen_replaceFrom_clean :
  forall fuel p s,
    (List.length s < fuel)%nat ->
    ~ In HYPHEN (replaceFrom HYPHEN_RE [SP] fuel (p, s)).
Proof.
  induction fuel as [|fuel IH]; intros p s Hf; [lia|].
  cbn [replaceFrom]. rewrite execAt_hyphen.
  destruct s as [|c t]; [cbn; tauto|]. cbn in Hf.
  destruct (N.eqb_spec c HYPHEN) as [E|E].
  - cbn [flag_g HYPHEN_RE re_g negb snd List.length].
    replace (Nat.eqb (List.length t) (S (List.length t))) with false
      by (symmetry; apply Nat.eqb_neq; lia).
    cbn [app In]. intros [H|H]; [discriminate|]. revert H. apply IH. lia.
  - unfold stepOver. cbn [snd In]. intros [H|H]; [congruence|].
    revert H. apply IH. lia.
Qed.

Lemma cleanPRTitle_core_tidy (t0 : jsstring) :
  let t := trim (replace (replace t0 HYPHEN_RE [SP]) SPACES_RE [SP]) in
  ~ In HYPHEN t /\ Forall spaceOrInk t /\ noDoubleSpace t = true /\ trimmed t.
Proof.
  cbv zeta. repeat split.
  - assert (H : Forall (fun c => c <> HYPHEN)
                  (trim (replace (replace t0 HYPHEN_RE [SP]) SPACES_RE [SP]))).
    { apply Forall_trim, replace_Forall.
      - repeat constructor. discriminate.
      - apply Forall_forall. intros c Hc ->. revert Hc.
        apply hyphen_replaceFrom_clean. lia. }
    intros Hin. rewrite Forall_forall in H. now apply (H HYPHEN Hin).
  - apply Forall_trim, spaces_replace_clean.
  - apply noDoubleSpace_trim, spaces_replace_single.
  - intros c t E. now apply trim_head in E.
  - intros c t E. now apply trim_last in E.
Qed.

(** X8: a cleaned title holds no hyphen, its only white space is single
    spaces between other code units, and it neither starts nor ends with
    white space. *)
Theorem cleaned_title_is_tidy (raw : jsstring) :
  ~ In HYPHEN (cleanPRTitle raw)
  /\ Forall spaceOrInk (cleanPRTitle raw)
  /\ noDoubleSpace (cleanPRTitle raw) = true
  /\ trimmed (cleanPRTitle raw).
Proof.
  unfold cleanPRTitle.
  match goal with
  | |- context [trim (replace (replace ?u HYPHEN_RE [SP]) SPACES_RE [SP])] =>
      destruct (cleanPRTitle_core_tidy u) as [H1 [H2 [H3 H4]]];
      set (t := trim (replace (replace u HYPHEN_RE [SP]) SPACES_RE [SP])) in *
  end.
  assert (N1 : Forall (fun c => c <> HYPHEN) t).
  { apply Forall_forall. intros c Hc ->. contradiction. }
  assert (N0 : Forall (fun c => c <> HYPHEN) (toUpperCase (charAt0 t))).
  { now apply toUpperCase_no_hyphen, Forall_firstn_of. }
  assert (S0 : sameLayout (charAt0 t) (toUpperCase (charAt0 t))).
  { now apply toUpperCase_layout, Forall_firstn_of. }
  assert (S1 : sameLayout t
                 (toUpperCase (charAt0 t) ++ toLowerCase (slice1 t))).
  { rewrite <- (firstn_skipn 1 t) at 1. apply layout_app; [exact S0|].
    now apply toLowerCase_layout, Forall_skipn_of. }
  assert (S2 : sameLayout t (toUpperCase (charAt0 t) ++ slice1 t)).
  { rewrite <- (firstn_skipn 1 t) at 1. apply layout_app; [exact S0|].
    now apply layout_refl, Forall_skipn_of. }
  assert (D : forall r, Forall (fun c => c <> HYPHEN) r -> ~ In HYPHEN r).
  { intros r Hr Hin. rewrite Forall_forall in Hr. now apply (Hr HYPHEN). }
  destruct (str_eqb t (toUpperCase t) && (3 <? List.length t)%nat).
  - split.
    { apply D, Forall_app. split; [exact N0|].
      now apply toLowerCase_no_hyphen, Forall_skipn_of. }
    split; [exact (layout_spaceOrInk _ _ S1)|].
    split; [exact (layout_noDoubleSpace _ _ S1 H3)|].
    exact (layout_trimmed _ _ S1 H4).
  - split.
    { apply D, Forall_app. split; [exact N0|]. now apply Forall_skipn_of. }
    split; [exact (layout_spaceOrInk _ _ S2)|].
    split; [exact (layout_noDoubleSpace _ _ S2 H3)|].
    exact (layout_trimmed _ _ S2 H4).
Qed.

(** Two titles with letters outside Basic Latin: the first is not all
    upper case, because its last letter has an upper-case form, and keeps
    its letters; the second gets its accented first letter capitalized. *)
Lemma cleanPRTitle_beyond_basic_latin :
  cleanPRTitle (js "ABC " ++ [0xF1]) = js "ABC " ++ [0xF1]
  /\ cleanPRTitle ([0xE9] ++ js "clair au chocolat")
     = [0xC9] ++ js "clair au chocolat".
Proof. split; vm_compute; reflexivity. Qed.

(** ** Ranking and selection *)

Lemma insertByPriority_perm (x : SummaryItem) (l : list SummaryItem) :
  Permutation (x :: l) (insertByPriority x l).
Proof.
  induction l as [|y l IH]; cbn [insertByPriority]; [reflexivity|].
  destruct (priorityOf (section x) - priorityOf (section y) <=? 0)%Z;
    [reflexivity|].
  rewrite perm_swap. now constructor.
Qed.

Lemma sortByPriority_perm (items : list SummaryItem) :
  Permutation items (sortByPriority items).
Proof.
  induction items as [|x items IH]; [reflexivity|].
  unfold sortByPriority in *. cbn [fold_right].
  rewrite <- insertByPriority_perm. now constructor.
Qed.

Lemma insertByPriority_sorted (x : SummaryItem) (l : list SummaryItem) :
  StronglySorted byPriority l -> StronglySorted byPriority (insertByPriority x l).
Proof.
  induction 1 as [|y l Hs IH Hy]; cbn [insertByPriority].
  - repeat constructor.
  - destruct (priorityOf (section x) - priorityOf (section y) <=? 0)%Z eqn:E.
    + apply Z.leb_le in E. constructor; [now constructor|].
      constructor; [unfold byPriority; lia|].
      eapply Forall_impl; [|exact Hy]. unfold byPriority. intros; lia.
    + apply Z.leb_gt in E. constructor; [exact IH|].
      apply (Permutation_Forall (insertByPriority_perm x l)).
      constructor; [unfold byPriority; lia | exact Hy].
Qed.

Lemma insertByPriority_stable (k : Z) (x : SummaryItem) (l : list SummaryItem) :
  ofPriority k (insertByPriority x l) = ofPriority k (x :: l).
Proof.
  unfold ofPriority.
  induction l as [|y l IH]; cbn [insertByPriority]; [reflexivity|].
  destruct (priorityOf (section x) - priorityOf (section y) <=? 0)%Z eqn:E;
    [reflexivity|].
  apply Z.leb_gt in E. cbn [filter] in *. rewrite IH.
  destruct (Z.eqb_spec (priorityOf (section x)) k);
    destruct (Z.eqb_spec (priorityOf (section y)) k); try reflexivity; lia.
Qed.

(** X9: ranking reorders the items without adding or losing any, puts them
    in ascending priority, and keeps the source order among the items of
    one priority. *)
Theorem ranking_is_a_stable_sort (items : list SummaryItem) :
  Permutation items (sortByPriority items)
  /\ StronglySorted byPriority (sortByPriority items)
  /\ forall k, ofPriority k (sortByPriority items) = ofPriority k items.
Proof.
  split; [apply sortByPriority_perm|]. split.
  - induction items as [|x items IH]; [constructor|].
    apply (insertByPriority_sorted x _ IH).
  - intros k. induction items as [|x items IH]; [reflexivity|].
    unfold sortByPriority in *. cbn [fold_right].
    rewrite insertByPriority_stable. unfold ofPriority in *. cbn [filter].
    now rewrite IH.
Qed.

Lemma Subsequence_refl {A} (l : list A) : Subsequence l l.
Proof. induction l; constructor; auto. Qed.

Lemma selectLoop_subsequence (items selected : list SummaryItem) :
  exists chosen,
    selectLoop selected items = selected ++ chosen
    /\ Subsequence chosen items.
Proof.
  revert selected; induction items as [|x items IH]; intros selected.
  - exists []. split; [now rewrite app_nil_r | constructor].
  - rewrite selectLoop_cons.
    assert (Hnone : forall l : list SummaryItem, Subsequence [] l).
    { induction l; constructor; auto. }
    destruct (4 <=? List.length selected)%nat.
    + exists []. split; [now rewrite app_nil_r | apply Hnone].
    + destruct (2 <=? countInSection selected (section x))%nat.
      * destruct (IH selected) as [ch [E S]]. exists ch.
        split; [exact E | now constructor].
      * destruct (IH (selected ++ [x])) as [ch [E S]]. exists (x :: ch).
        split; [now rewrite E, <- app_assoc | now constructor].
Qed.

(** X10: the selected items are items of the ranked list, in its order; the
    first ranked item is always selected, so a block with at least one item
    always gives the sentence at least one part. *)
Theorem selection_keeps_order_and_first (items : list SummaryItem) :
  Subsequence (selectItems items) items
  /\ hd_error (selectItems items) = hd_error items
  /\ (items = [] <-> List.map renderItem (selectItems (sortByPriority items)) = []).
Proof.
  assert (Hhd : forall l, hd_error (selectItems l) = hd_error l).
  { intros [|x rest]; [reflexivity|].
    unfold selectItems. rewrite selectLoop_cons.
    change (4 <=? List.length (@nil SummaryItem))%nat with false.
    change (2 <=? countInSection [] (section x))%nat with false.
    destruct (selectLoop_subsequence rest ([] ++ [x])) as [ch [E _]].
    now rewrite E. }
  split; [|split].
  - destruct (selectLoop_subsequence items []) as [ch [E S]].
    unfold selectItems. now rewrite E.
  - apply Hhd.
  - split.
    + intros ->. reflexivity.
    + intros E. apply map_eq_nil in E.
      pose proof (Hhd (sortByPriority items)) as H. rewrite E in H.
      destruct (sortByPriority items) eqn:Es; [|discriminate].
      apply Permutation_nil. rewrite <- Es.
      apply Permutation_sym, sortByPriority_perm.
Qed.

Lemma selectLoop_all (items selected : list SummaryItem) :
  (List.length (selected ++ items) <= 4)%nat ->
  (forall key, (countInSection (selected ++ items) key <= 2)%nat) ->
  selectLoop selected items = selected ++ items.
Proof.
  revert selected; induction items as [|x items IH]; intros selected Hl Hc.
  - now rewrite app_nil_r.
  - rewrite selectLoop_cons.
    replace (4 <=? List.length selected)%nat with false.
    2:{ symmetry. apply Nat.leb_gt. rewrite length_app in Hl. cbn in Hl. lia. }
    replace (2 <=? countInSection selected (section x))%nat with false.
    2:{ symmetry. apply Nat.leb_gt. specialize (Hc (section x)).
        rewrite countInSection_app in Hc.
        change (x :: items) with ([x] ++ items) in Hc.
        rewrite countInSection_app, countInSection_one in Hc.
        replace (str_eqb (section x) (section x)) with true in Hc
          by (symmetry; now apply str_eqb_eq).
        lia. }
    rewrite IH; rewrite <- app_assoc; auto.
Qed.

(** X11: when the block has at most four items and no section has more
    than two, every item is selected. *)
Theorem small_blocks_are_kept_whole (items : list SummaryItem) :
  (List.length items <= 4)%nat ->
  (forall key, (countInSection items key <= 2)%nat) ->
  selectItems items = items.
Proof. intros Hl Hc. now apply (selectLoop_all items []). Qed.

Lemma small_blocks_are_kept_whole_witness :
  selectItems [ mkItem (js "Bug Fixes") (js "One");
                mkItem (js "Bug Fixes") (js "Two");
                mkItem (js "Chores") (js "Three") ]
  = [ mkItem (js "Bug Fixes") (js "One"); mkItem (js "Bug Fixes") (js "Two");
      mkItem (js "Chores") (js "Three") ].
Proof.
  apply small_blocks_are_kept_whole.
  - cbn. lia.
  - intros key. unfold countInSection. cbn [filter section].
    destruct (str_eqb (js "Bug Fixes") key) eqn:E1;
      destruct (str_eqb (js "Chores") key) eqn:E2; cbn; try lia.
    apply str_eqb_eq in E1, E2. subst key. discriminate.
Defined.

(** ** Parsing the block *)

Lemma titles_has_In (s : jsstring) :
  CODERABBIT_SECTION_TITLES_has s = true -> In s CODERABBIT_SECTION_TITLES_LIST.
Proof.
  unfold CODERABBIT_SECTION_TITLES_has. intros H.
  apply existsb_exists in H as [x [Hx E]]. apply str_eqb_eq in E. now subst.
Qed.

Lemma sectionTitle_known (line s : jsstring) :
  isCodeRabbitSectionTitle line = Some s -> In s CODERABBIT_SECTION_TITLES_LIST.
Proof.
  unfold isCodeRabbitSectionTitle.
  destruct (CODERABBIT_SECTION_TITLES_has _) eqn:E; [|discriminate].
  intros [= <-]. now apply titles_has_In.
Qed.

Lemma backfill_sectionTitle_known (line s : jsstring) :
  Backfill.isCodeRabbitSectionTitle line = Some s ->
  In s CODERABBIT_SECTION_TITLES_LIST.
Proof.
  unfold Backfill.isCodeRabbitSectionTitle.
  destruct (CODERABBIT_SECTION_TITLES_has _) eqn:E; [|discriminate].
  intros [= <-]. now apply titles_has_In.
Qed.

Lemma known_priority (s : jsstring) :
  In s CODERABBIT_SECTION_TITLES_LIST ->
  (0 <= priorityOf s <= 9)%Z.
Proof.
  intros H. cbn in H.
  repeat (destruct H as [<-|H]; [vm_compute; split; discriminate|]).
  contradiction.
Qed.

Lemma parseItems_known (lines : list jsstring) :
  forall cur,
    (forall s, cur = Some s -> In s CODERABBIT_SECTION_TITLES_LIST) ->
    Forall knownItem (parseItems cur lines).
Proof.
  induction lines as [|raw lines IH]; intros cur Hcur; cbn [parseItems];
    [constructor|].
  destruct (is_empty (trim raw)); [now apply IH|].
  destruct (isCodeRabbitSectionTitle (trim raw)) as [s|] eqn:E.
  - apply IH. intros s' [= <-]. now apply sectionTitle_known in E.
  - destruct cur as [sec|]; [|now apply IH].
    constructor; [|now apply IH].
    split; cbn [section]; [|apply known_priority]; now apply Hcur.
Qed.

Lemma backfill_parseItems_known (lines : list jsstring) :
  forall cur,
    (forall s, cur = Some s -> In s CODERABBIT_SECTION_TITLES_LIST) ->
    Forall knownItem (Backfill.parseItems cur lines).
Proof.
  induction lines as [|raw lines IH]; intros cur Hcur;
    cbn [Backfill.parseItems]; [constructor|].
  destruct (is_empty (trim raw)); [now apply IH|].
  destruct (Backfill.isCodeRabbitSectionTitle (trim raw)) as [s|] eqn:E.
  - apply IH. intros s' [= <-]. now apply backfill_sectionTitle_known in E.
  - destruct cur as [sec|]; [|now apply IH].
    match goal with |- context [is_empty ?t] => destruct (is_empty t) end;
      [now apply IH|].
    constructor; [|now apply IH].
    split; cbn [section]; [|apply known_priority]; now apply Hcur.
Qed.

(** X12: every parsed item carries one of the fourteen section titles, so
    its priority lies between 0 and 9 and the fallback priority 99 is never
    used; in both scripts. *)
Theorem parsed_sections_are_known (blockLines : list jsstring) :
  Forall knownItem (parseItems None blockLines)
  /\ Forall knownItem (Backfill.parseItems None blockLines).
Proof.
  split; [apply parseItems_known | apply backfill_parseItems_known];
    discriminate.
Qed.

(** X13: lines in front of the first section title never become items.
    This holds of each script for the lines that its own title test
    rejects. *)
Theorem lines_before_first_title_are_dropped (pre rest : list jsstring) :
  (Forall (fun l => isCodeRabbitSectionTitle (trim l) = None) pre ->
   parseItems None (pre ++ rest) = parseItems None rest)
  /\ (Forall (fun l => Backfill.isCodeRabbitSectionTitle (trim l) = None) pre ->
      Backfill.parseItems None (pre ++ rest) = Backfill.parseItems None rest).
Proof.
  split; intros H.
  - induction H as [|l pre Hl _ IH]; [reflexivity|].
    cbn [app parseItems]. rewrite Hl. now destruct (is_empty (trim l)).
  - induction H as [|l pre Hl _ IH]; [reflexivity|].
    cbn [app Backfill.parseItems]. rewrite Hl. now destruct (is_empty (trim l)).
Qed.

Lemma lines_before_first_title_are_dropped_witness :
  parseItems None
    ([js "- **New Features**"; js "  - Added A"]
     ++ [js "Bug Fixes"; js "- Fixed the login loop"])
  = [mkItem (js "Bug Fixes") (js "Fixed the login loop")]
  /\ Backfill.parseItems None
       ([js "Walkthrough of the change"; js "- not an item yet"]
        ++ [js "Bug Fixes"; js "- Fixed the login loop"])
     = [mkItem (js "Bug Fixes") (js "Fixed the login loop")].
Proof.
  split.
  - rewrite (proj1 (lines_before_first_title_are_dropped
                      [js "- **New Features**"; js "  - Added A"]
                      [js "Bug Fixes"; js "- Fixed the login loop"])).
    + reflexivity.
    + repeat constructor.
  - rewrite (proj2 (lines_before_first_title_are_dropped
                      [js "Walkthrough of the change"; js "- not an item yet"]
                      [js "Bug Fixes"; js "- Fixed the login loop"])).
    + reflexivity.
    + repeat constructor.
Defined.

(** ** Where the block and the section end *)

Lemma repeatMatcher_first (step : state -> list state) (fuel lo : nat)
      (hi : option nat) (x y : state) :
  (0 < lo)%nat -> hi <> Some 0%nat ->
  In y (repeatMatcher step fuel lo hi x) -> exists z, In z (step x).
Proof.
  intros Hlo Hhi H. destruct lo as [|lo]; [lia|].
  destruct fuel as [|fuel]; [contradiction|].
  cbn [repeatMatcher Nat.eqb] in H.
  destruct hi as [[|h]|]; [congruence| |];
    apply in_flat_map in H as [z [Hz _]]; eauto.
Qed.

(** A line that the heading pattern accepts starts with [#]. *)
Lemma heading_starts_hash (s : jsstring) :
  test MD_HEADING_RE s = true -> exists t, s = chr "#" :: t.
Proof.
  intros H. apply test_anchored in H as [y Hy].
  cbn [matcher] in Hy. apply in_flat_map in Hy as [z [Hz _]].
  apply repeatMatcher_first in Hz as [z0 Hz0]; [|lia|discriminate].
  apply (matcher_chr_inv false false) in Hz0 as [ch [t [Hs [Hc _]]]].
  cbn in Hs, Hc. subst. eauto.
Qed.

Lemma heading_line_not_blank (h : jsstring) :
  isHeadingLine h = true -> is_empty (trim h) = false.
Proof.
  unfold isHeadingLine. destruct (trim h); [discriminate | reflexivity].
Qed.

(** X14: the captured block ends at the first level 2-6 heading after the
    marker: nothing from that heading on gets into the block, in both
    scripts. *)
Theorem block_stops_at_heading (pre rest : list jsstring) (h : jsstring) :
  isHeadingLine h = true ->
  captureBlock (pre ++ h :: rest) = captureBlock pre
  /\ Backfill.captureBlock (pre ++ h :: rest) = Backfill.captureBlock pre.
Proof.
  intros Hh. pose proof (heading_line_not_blank h Hh) as Hb.
  unfold isHeadingLine in Hh. split.
  - induction pre as [|l pre IH]; cbn [app captureBlock].
    + rewrite Hb, Hh. now destruct (test CODERABBIT_MARKER_RE (trim h)).
    + rewrite IH. reflexivity.
  - induction pre as [|l pre IH]; cbn [app Backfill.captureBlock].
    + rewrite Hb, Hh.
      destruct (startsWith (trim h) (js "<!--")
                && includes (trim h) (js "end of auto-generated"));
        [reflexivity|].
      destruct (startsWith (trim h) (js "<!--")) eqn:Es.
      * exfalso. apply heading_starts_hash in Hh as [t Ht].
        rewrite Ht in Es. discriminate.
      * now destruct (test CODERABBIT_MARKER_RE (trim h)).
    + rewrite IH. reflexivity.
Qed.

Lemma block_stops_at_heading_witness :
  captureBlock
    ([js "New Features"; js "- Dark mode"]
     ++ js "## Test plan" :: [js "Bug Fixes"; js "- not part of the block"])
  = [js "New Features"; js "- Dark mode"].
Proof.
  rewrite (proj1 (block_stops_at_heading
                    [js "New Features"; js "- Dark mode"]
                    [js "Bug Fixes"; js "- not part of the block"]
                    (js "## Test plan") eq_refl)).
  reflexivity.
Defined.

Lemma linesAfterFirst_found (f : jsstring -> bool) (before rest : list jsstring)
      (h : jsstring) :
  Forall (fun l => f (trim l) = false) before ->
  f (trim h) = true ->
  linesAfterFirst f (before ++ h :: rest) = Some rest.
Proof.
  intros Hb Hh. induction Hb as [|l before Hl _ IH]; cbn [app linesAfterFirst].
  - now rewrite Hh.
  - now rewrite Hl.
Qed.

Lemma linesUntilHeading_found (sect tail : list jsstring) :
  Forall (fun l => isHeadingLine l = false) sect ->
  hd_error (List.map isHeadingLine tail) <> Some false ->
  linesUntilHeading (sect ++ tail) = sect.
Proof.
  intros Hs Ht. induction Hs as [|l sect Hl _ IH]; cbn [app].
  - destruct tail as [|t tail]; [reflexivity|]. cbn in *.
    unfold isHeadingLine in Ht. destruct (test MD_HEADING_RE (trim t));
      [reflexivity | congruence].
  - cbn [linesUntilHeading]. unfold isHeadingLine in Hl. now rewrite Hl, IH.
Qed.

(** X15: the section under a heading is the text of the lines between the
    first line that the heading test accepts and the next level 2-6 heading
    (or the end of the body), joined by line feeds; the heading line itself
    and everything from the next heading on are left out. *)
Theorem section_is_between_headings
        (body : jsstring) (headingMatchFn : jsstring -> bool)
        (before sect tail : list jsstring) (h : jsstring) :
  is_empty body = false ->
  bodyLines body = before ++ h :: sect ++ tail ->
  Forall (fun l => headingMatchFn (trim l) = false) before ->
  headingMatchFn (trim h) = true ->
  Forall (fun l => isHeadingLine l = false) sect ->
  hd_error (List.map isHeadingLine tail) <> Some false ->
  extractSectionUnderHeading body headingMatchFn = join [LF] sect.
Proof.
  intros Hne Hl Hb Hh Hs Ht. unfold extractSectionUnderHeading.
  rewrite Hne, Hl, (linesAfterFirst_found _ _ _ _ Hb Hh).
  now rewrite linesUntilHeading_found.
Qed.

Lemma section_is_between_headings_witness :
  extractSectionUnderHeading
    (js "Intro" ++ [LF] ++ js "## Summary" ++ [CR; LF] ++ js "First line"
     ++ [LF] ++ js "Second line" ++ [LF] ++ js "### Testing" ++ [LF] ++ js "x")
    (test (headingPattern "summary"))
  = js "First line" ++ [LF] ++ js "Second line".
Proof.
  apply (section_is_between_headings _ _
           [js "Intro"] [js "First line"; js "Second line"]
           [js "### Testing"; js "x"] (js "## Summary")).
  - reflexivity.
  - vm_compute. reflexivity.
  - repeat constructor.
  - vm_compute. reflexivity.
  - repeat constructor.
  - vm_compute. discriminate.
Defined.

(** ** The release document *)

Lemma entryBullet_head (pr : DisplayEntry) :
  exists t, entryBullet pr = chr "-" :: SP :: t.
Proof. unfold entryBullet. cbn [js List.map list_ascii_of_string app]. eauto. Qed.

Lemma highlightBullet_head (pr : DisplayEntry) :
  exists t, highlightBullet pr = chr "-" :: SP :: t.
Proof. unfold highlightBullet. cbn [js List.map list_ascii_of_string app]. eauto. Qed.

Lemma highlightLines_bullets (grouped : Grouped) :
  Forall bulletLike (highlightLines grouped).
Proof.
  unfold highlightLines.
  destruct (0 <? List.length (features grouped))%nat.
  - apply Forall_map, Forall_forall. intros e _. apply highlightBullet_head.
  - destruct (0 <? List.length (fixes grouped))%nat;
      repeat constructor; eexists; reflexivity.
Qed.

Lemma fixLines_cases (grouped : Grouped) :
  Forall (fun l => bulletLike l \/ l = NO_FIXES) (fixLines grouped).
Proof.
  unfold fixLines. destruct (0 <? List.length (fixes grouped))%nat.
  - apply Forall_map, Forall_forall. intros e _. left. apply entryBullet_head.
  - constructor; [now right | constructor].
Qed.

Lemma filter_none {A} (f : A -> bool) (l : list A) :
  Forall (fun x => f x = false) l -> filter f l = [].
Proof. induction 1 as [|x l Hx _ IH]; cbn; [reflexivity | now rewrite Hx]. Qed.

Lemma bullet_not_heading (l : jsstring) :
  bulletLike l -> isH2 l = false /\ isH3 l = false.
Proof. intros [t ->]. split; reflexivity. Qed.

Lemma bullets_no_heading (ls : list jsstring) :
  Forall bulletLike ls -> filter isH2 ls = [] /\ filter isH3 ls = [].
Proof.
  intros H. split; apply filter_none; eapply Forall_impl; try exact H;
    intros l Hl; now apply bullet_not_heading in Hl.
Qed.

Lemma repoLines_headings (grouped : Grouped) (repo : jsstring) :
  filter isH2 (repoLines grouped repo) = []
  /\ filter isH3 (repoLines grouped repo) = [js "### " ++ repo].
Proof.
  unfold repoLines.
  assert (Hb : Forall bulletLike (List.map entryBullet (groupOf grouped repo))).
  { apply Forall_map, Forall_forall. intros e _. apply entryBullet_head. }
  destruct (bullets_no_heading _ Hb) as [B2 B3].
  destruct (Nat.eqb (List.length (groupOf grouped repo)) 0).
  - split; reflexivity.
  - rewrite !filter_app, B2, B3. split; reflexivity.
Qed.

Lemma lines_sections (version : jsstring) (grouped : Grouped) :
  filter isH2 (releaseNotesLines version grouped) = DOCUMENT_SECTIONS
  /\ filter isH3 (releaseNotesLines version grouped)
     = List.map (fun repo => js "### " ++ repo) REPOS.
Proof.
  unfold releaseNotesLines.
  destruct (bullets_no_heading _ (highlightLines_bullets grouped)) as [H2 H3].
  assert (F : filter isH2 (fixLines grouped) = []
              /\ filter isH3 (fixLines grouped) = []).
  { split; apply filter_none;
      (eapply Forall_impl; [|apply fixLines_cases]);
      intros l [Hl| ->]; try reflexivity; now apply bullet_not_heading in Hl. }
  destruct F as [F2 F3].
  unfold REPOS. cbn [List.map flat_map].
  rewrite !filter_app, H2, H3, F2, F3.
  repeat match goal with
         | |- context [filter isH2 (repoLines grouped ?r)] =>
             rewrite (proj1 (repoLines_headings grouped r))
         | |- context [filter isH3 (repoLines grouped ?r)] =>
             rewrite (proj2 (repoLines_headings grouped r))
         end.
  split; reflexivity.
Qed.

Lemma split_line (sep : N) (a b : jsstring) :
  ~ In sep a -> split sep (a ++ sep :: b) = a :: split sep b.
Proof.
  induction a as [|c a IH]; intros H; cbn [app split].
  - now rewrite N.eqb_refl.
  - destruct (N.eqb_spec c sep) as [->|_]; [exfalso; apply H; now left|].
    rewrite IH; [reflexivity|]. intros Hin. apply H. now right.
Qed.

Lemma split_last_line (sep : N) (a : jsstring) :
  ~ In sep a -> split sep a = [a].
Proof.
  induction a as [|c a IH]; intros H; cbn [split]; [reflexivity|].
  destruct (N.eqb_spec c sep) as [->|_]; [exfalso; apply H; now left|].
  rewrite IH; [reflexivity|]. intros Hin. apply H. now right.
Qed.

(** Splitting what was joined gives the lines back when no line holds the
    separator. *)
Lemma split_join (sep : N) (lines : list jsstring) :
  lines <> [] -> Forall (fun l => ~ In sep l) lines ->
  split sep (join [sep] lines) = lines.
Proof.
  intros Hne H. induction H as [|l lines Hl Hls IH]; [contradiction|].
  destruct lines as [|l' lines]; cbn [join].
  - now apply split_last_line.
  - cbn [app]. rewrite split_line by exact Hl. f_equal. apply IH. discriminate.
Qed.

Lemma noLineFeed_app (a b : jsstring) :
  noLineFeed (a ++ b) = noLineFeed a && noLineFeed b.
Proof. apply forallb_app. Qed.

Lemma noLineFeed_In (l : jsstring) : noLineFeed l = true -> ~ In LF l.
Proof.
  unfold noLineFeed. rewrite forallb_forall. intros H Hin.
  specialize (H LF Hin). discriminate.
Qed.

Lemma noLineFeed_decimal (n : N) : noLineFeed (decimal n) = true.
Proof.
  unfold decimal. induction (N.to_uint n) as [|d IH|d IH|d IH|d IH|d IH
                                               |d IH|d IH|d IH|d IH|d IH];
    cbn [uintUnits]; [reflexivity|..]; exact IH.
Qed.

Lemma groupOf_allPRs (grouped : Grouped) (repo : jsstring) (e : DisplayEntry) :
  In repo REPOS -> In e (groupOf grouped repo) -> In e (allPRs grouped).
Proof. intros Hr He. apply in_flat_map. eauto. Qed.

Section SingleLineInputs.
Variables (version : jsstring) (grouped : Grouped).
Hypothesis inputs : singleLineInputs version grouped = true.

Lemma inputs_version : noLineFeed version = true.
Proof. unfold singleLineInputs in inputs. now apply andb_true_iff in inputs. Qed.

Lemma inputs_entry (e : DisplayEntry) :
  In e (allPRs grouped) ->
  noLineFeed (title e) = true /\ noLineFeed (url e) = true.
Proof.
  intros He. unfold singleLineInputs in inputs.
  apply andb_true_iff in inputs as [_ H]. rewrite forallb_forall in H.
  now apply andb_true_iff, H.
Qed.

Lemma inputs_entryBullet (e : DisplayEntry) :
  In e (allPRs grouped) -> noLineFeed (entryBullet e) = true.
Proof.
  intros He. destruct (inputs_entry e He) as [Ht Hu]. unfold entryBullet.
  now rewrite !noLineFeed_app, Ht, Hu, noLineFeed_decimal.
Qed.

Lemma inputs_highlightBullet (e : DisplayEntry) :
  In e (allPRs grouped) -> noLineFeed (highlightBullet e) = true.
Proof.
  intros He. destruct (inputs_entry e He) as [Ht _]. unfold highlightBullet.
  now rewrite noLineFeed_app, Ht.
Qed.

Lemma inputs_highlightLines :
  forallb noLineFeed (highlightLines grouped) = true.
Proof.
  unfold highlightLines. destruct (0 <? List.length (features grouped))%nat.
  - apply forallb_forall. intros l Hl.
    apply in_map_iff in Hl as [e [<- He]]. apply inputs_highlightBullet.
    assert (Hf : In e (features grouped)).
    { rewrite <- (firstn_skipn 6 (features grouped)).
      apply in_or_app. now left. }
    unfold features in Hf. now apply filter_In in Hf.
  - now destruct (0 <? List.length (fixes grouped))%nat.
Qed.

Lemma inputs_fixLines : forallb noLineFeed (fixLines grouped) = true.
Proof.
  unfold fixLines. destruct (0 <? List.length (fixes grouped))%nat;
    [|reflexivity].
  apply forallb_forall. intros l Hl.
  apply in_map_iff in Hl as [e [<- He]]. apply inputs_entryBullet.
  unfold fixes in He. now apply filter_In in He.
Qed.

Lemma inputs_repoLines (repo : jsstring) :
  In repo REPOS -> forallb noLineFeed (repoLines grouped repo) = true.
Proof.
  intros Hr. unfold repoLines.
  assert (Hn : noLineFeed (js "### " ++ repo) = true).
  { unfold REPOS in Hr. cbn [List.map In] in Hr.
    repeat (destruct Hr as [<-|Hr]; [reflexivity|]). contradiction. }
  cbn [app forallb]. rewrite Hn. change (noLineFeed []) with true.
  cbn [andb].
  destruct (Nat.eqb (List.length (groupOf grouped repo)) 0); [reflexivity|].
  rewrite forallb_app. apply andb_true_intro. split; [|reflexivity].
  apply forallb_forall. intros l Hl.
  apply in_map_iff in Hl as [e [<- He]].
  now apply inputs_entryBullet, (groupOf_allPRs grouped repo).
Qed.

(** With such inputs the lines of the returned text are the lines the
    function pushed. *)
Lemma document_lines :
  linesOf (toReleaseNotesMdx version grouped)
  = releaseNotesLines version grouped.
Proof.
  unfold linesOf, toReleaseNotesMdx. apply split_join; [discriminate|].
  assert (H : forallb noLineFeed (releaseNotesLines version grouped) = true).
  { unfold releaseNotesLines.
    rewrite !forallb_app, inputs_highlightLines, inputs_fixLines.
    assert (Hr : forallb noLineFeed (flat_map (repoLines grouped) REPOS)
                 = true).
    { apply forallb_forall. intros l Hl.
      apply in_flat_map in Hl as [repo [Hr Hl]].
      pose proof (inputs_repoLines repo Hr) as H.
      rewrite forallb_forall in H. now apply H. }
    rewrite Hr. cbn [forallb]. rewrite !noLineFeed_app, inputs_version.
    reflexivity. }
  apply Forall_forall. intros l Hl. apply noLineFeed_In.
  rewrite forallb_forall in H. now apply H.
Qed.

End SingleLineInputs.

(** X16: when the version and the titles and addresses of the entries hold
    no line feed, the lines of the returned document hold the four
    second-level headings once each and in their fixed order, and one
    third-level heading per configured repository, in the configured order,
    entries or not. *)
Theorem document_sections_are_fixed (version : jsstring) (grouped : Grouped) :
  singleLineInputs version grouped = true ->
  let lines := linesOf (toReleaseNotesMdx version grouped) in
  filter isH2 lines = DOCUMENT_SECTIONS
  /\ filter isH3 lines = List.map (fun repo => js "### " ++ repo) REPOS.
Proof.
  intros H. cbv zeta. rewrite (document_lines version grouped H).
  apply lines_sections.
Qed.

Lemma document_sections_are_fixed_witness :
  filter isH2 (linesOf (toReleaseNotesMdx (js "v1.2.3") sampleGrouped))
  = DOCUMENT_SECTIONS.
Proof.
  refine (proj1 (document_sections_are_fixed (js "v1.2.3") sampleGrouped _)).
  vm_compute. reflexivity.
Defined.

(** X17: the Highlights section has between one and six lines; unless it is
    one of the two fallback lines, each line is the bullet of an entry of a
    configured repository that is neither a fix nor a sprint, the first six
    of them in document order. *)
Theorem highlights_are_features (grouped : Grouped) :
  (1 <= List.length (highlightLines grouped) <= 6)%nat
  /\ (highlightLines grouped = [ONLY_FIXES]
      \/ highlightLines grouped = [ROUTINE]
      \/ exists shown,
           highlightLines grouped = List.map highlightBullet shown
           /\ shown = firstn 6 (filter isFeature (allPRs grouped))
           /\ Forall (fun e => In e (allPRs grouped)
                               /\ isFix e = false /\ isSprint e = false)
                shown).
Proof.
  unfold highlightLines. change (features grouped)
    with (filter isFeature (allPRs grouped)).
  set (fs := filter isFeature (allPRs grouped)).
  destruct (0 <? List.length fs)%nat eqn:E.
  - apply Nat.ltb_lt in E. split.
    + rewrite length_map, length_firstn. lia.
    + right. right. exists (firstn 6 fs). repeat split.
      apply Forall_firstn_of, Forall_forall. intros e He.
      apply filter_In in He as [Hin Hf]. unfold isFeature in Hf.
      apply andb_true_iff in Hf as [H1 H2].
      apply negb_true_iff in H1, H2. now repeat split.
  - destruct (0 <? List.length (fixes grouped))%nat; split; cbn; auto; lia.
Qed.

Lemma occurrences_app (l : jsstring) (a b : list jsstring) :
  occurrences l (a ++ b) = (occurrences l a + occurrences l b)%nat.
Proof. apply count_occ_app. Qed.

Lemma occurrences_In (l : jsstring) (ls : list jsstring) :
  In l ls -> (1 <= occurrences l ls)%nat.
Proof. intros H. apply (count_occ_In str_dec) in H. unfold occurrences. lia. Qed.

Lemma repoLines_lists (grouped : Grouped) (repo : jsstring) (e : DisplayEntry) :
  In e (groupOf grouped repo) -> In (entryBullet e) (repoLines grouped repo).
Proof.
  intros H. unfold repoLines. apply in_or_app. right.
  destruct (groupOf grouped repo) as [|x prs]; [contradiction|].
  cbn [List.length Nat.eqb]. apply in_or_app. left. now apply in_map.
Qed.

(** X18: every entry of a configured repository has its bullet in the
    document, and the bullet of a fix entry is there at least twice: under
    its repository and under Fixes. *)
Theorem every_entry_is_listed (version : jsstring) (grouped : Grouped)
        (repo : jsstring) (e : DisplayEntry) :
  In repo REPOS ->
  In e (groupOf grouped repo) ->
  (1 <= occurrences (entryBullet e) (releaseNotesLines version grouped))%nat
  /\ (isFix e = true ->
      (2 <= occurrences (entryBullet e) (releaseNotesLines version grouped))%nat).
Proof.
  intros Hr He.
  assert (Hc : (1 <= occurrences (entryBullet e)
                      (flat_map (repoLines grouped) REPOS))%nat).
  { apply occurrences_In, in_flat_map. exists repo. split; [exact Hr|].
    now apply repoLines_lists. }
  unfold releaseNotesLines. rewrite !occurrences_app. split; [lia|].
  intros Hf.
  assert (Hx : (1 <= occurrences (entryBullet e) (fixLines grouped))%nat).
  { apply occurrences_In. unfold fixLines.
    assert (Hin : In e (fixes grouped)).
    { unfold fixes. apply filter_In. split; [|exact Hf].
      unfold allPRs. apply in_flat_map. eauto. }
    destruct (fixes grouped) as [|x fs] eqn:Ef; [contradiction|].
    cbn [List.length Nat.ltb Nat.leb]. rewrite <- Ef.
    apply in_map. now rewrite Ef. }
  lia.
Qed.

Lemma every_entry_is_listed_witness :
  (2 <= occurrences (entryBullet sampleFix)
          (releaseNotesLines (js "v1.2.3") sampleGrouped))%nat.
Proof.
  refine (proj2 (every_entry_is_listed (js "v1.2.3") sampleGrouped
                   (js "revive-dashboard") sampleFix _ _) eq_refl).
  - left. reflexivity.
  - right. left. reflexivity.
Defined.

Lemma bulletLike_not_placeholder (l : jsstring) :
  bulletLike l -> l <> NO_UPDATES.
Proof. intros [t ->]. discriminate. Qed.

Lemma lines_no_updates (version : jsstring) (grouped : Grouped) :
  In NO_UPDATES (releaseNotesLines version grouped)
  <-> exists repo, In repo REPOS /\ groupOf grouped repo = [].
Proof.
  split.
  - unfold releaseNotesLines. intros H.
    apply in_app_or in H as [H|H]; [|apply in_app_or in H as [H|H]];
      [| |apply in_app_or in H as [H|H]];
      [| | |apply in_app_or in H as [H|H]];
      [| | | |apply in_app_or in H as [H|H]];
      [| | | | |apply in_app_or in H as [H|H]].
    + cbn in H. repeat (destruct H as [H|H]; [discriminate H|]). contradiction.
    + exfalso. pose proof (highlightLines_bullets grouped) as Hb.
      rewrite Forall_forall in Hb.
      now apply (bulletLike_not_placeholder _ (Hb _ H)).
    + cbn in H. repeat (destruct H as [H|H]; [discriminate H|]). contradiction.
    + apply in_flat_map in H as [repo [Hr H]]. exists repo. split; [exact Hr|].
      unfold repoLines in H. apply in_app_or in H as [H|H].
      * cbn in H. repeat (destruct H as [H|H]; [discriminate H|]). contradiction.
      * destruct (groupOf grouped repo) as [|x prs]; [reflexivity|].
        exfalso. cbn [List.length Nat.eqb] in H.
        apply in_app_or in H as [H|H].
        -- apply in_map_iff in H as [e [He _]].
           destruct (entryBullet_head e) as [t Ht]. rewrite Ht in He.
           discriminate.
        -- cbn in H. destruct H as [H|H]; [discriminate H | contradiction].
    + cbn in H. repeat (destruct H as [H|H]; [discriminate H|]). contradiction.
    + exfalso. pose proof (fixLines_cases grouped) as Hb.
      rewrite Forall_forall in Hb. destruct (Hb _ H) as [Hl|Hl].
      * now apply bulletLike_not_placeholder in Hl.
      * discriminate.
    + cbn in H. repeat (destruct H as [H|H]; [discriminate H|]). contradiction.
  - intros [repo [Hr He]]. unfold releaseNotesLines.
    apply in_or_app. right. apply in_or_app. right. apply in_or_app. right.
    apply in_or_app. left. apply in_flat_map. exists repo. split; [exact Hr|].
    unfold repoLines. rewrite He. cbn. auto.
Qed.

(** X19: when the version and the titles and addresses of the entries hold
    no line feed, the line "No updates in this release." is a line of the
    returned document exactly when some configured repository has no
    entries. *)
Theorem no_updates_line_iff_empty_repo (version : jsstring) (grouped : Grouped) :
  singleLineInputs version grouped = true ->
  In NO_UPDATES (linesOf (toReleaseNotesMdx version grouped))
  <-> exists repo, In repo REPOS /\ groupOf grouped repo = [].
Proof.
  intros H. rewrite (document_lines version grouped H).
  apply lines_no_updates.
Qed.

Lemma no_updates_line_iff_empty_repo_witness :
  In NO_UPDATES (linesOf (toReleaseNotesMdx (js "v1.2.3") sampleGrouped)).
Proof.
  refine (proj2 (no_updates_line_iff_empty_repo (js "v1.2.3") sampleGrouped _)
            _).
  - vm_compute. reflexivity.
  - exists (js "revive-admin"). split; [|reflexivity]. right. left. reflexivity.
Defined.

(** ** The index page *)

Lemma isPrefixOf_refl_app (p b : jsstring) : isPrefixOf p (p ++ b) = true.
Proof. induction p as [|c p IH]; cbn; [reflexivity|]. now rewrite N.eqb_refl. Qed.

Lemma isPrefixOf_split (p s : jsstring) :
  isPrefixOf p s = true -> s = p ++ skipn (List.length p) s.
Proof.
  revert s; induction p as [|c p IH]; intros s H; [reflexivity|].
  destruct s as [|d s]; [discriminate|]. cbn in H.
  apply andb_true_iff in H as [Hc Hp]. apply N.eqb_eq in Hc. subst d.
  cbn. f_equal. now apply IH.
Qed.

Lemma includes_unfold (s p : jsstring) :
  includes s p
  = isPrefixOf p s || match s with [] => false | _ :: t => includes t p end.
Proof. destruct s; reflexivity. Qed.

Lemma includes_app (a p b : jsstring) : includes (a ++ p ++ b) p = true.
Proof.
  induction a as [|c a IH]; rewrite includes_unfold.
  - cbn [app]. now rewrite isPrefixOf_refl_app.
  - cbn [app]. rewrite IH. apply orb_true_r.
Qed.

Lemma indexOfSub_unfold (s p : jsstring) :
  indexOfSub s p
  = if isPrefixOf p s then Some 0%nat
    else match s with [] => None | _ :: t => option_map S (indexOfSub t p) end.
Proof. destruct s; reflexivity. Qed.

Lemma indexOfSub_found (s p : jsstring) :
  forall i,
    indexOfSub s p = Some i ->
    s = firstn i s ++ p ++ skipn (i + List.length p) s.
Proof.
  induction s as [|c s IH]; intros i; rewrite indexOfSub_unfold;
    destruct (isPrefixOf p _) eqn:E.
  - intros [= <-]. now apply isPrefixOf_split.
  - discriminate.
  - intros [= <-]. now apply isPrefixOf_split.
  - destruct (indexOfSub s p) as [j|] eqn:Ej; [|discriminate].
    intros [= <-]. cbn. f_equal. now apply IH.
Qed.

Lemma indexOfSub_none (s p : jsstring) :
  indexOfSub s p = None <-> includes s p = false.
Proof.
  induction s as [|c s IH]; rewrite indexOfSub_unfold, includes_unfold;
    destruct (isPrefixOf p _); cbn [orb]; split; try discriminate; auto.
  - destruct (indexOfSub s p); [discriminate|]. intros _. now apply IH.
  - intros H. apply IH in H. now rewrite H.
Qed.

Lemma IndexWritten_inj (a b : jsstring) :
  IndexWritten a = IndexWritten b -> a = b.
Proof. now intros [= ->]. Qed.

Lemma cardInsertion_has_href (version : jsstring) :
  exists a b, cardInsertion version = a ++ hrefAttribute version ++ b.
Proof.
  exists ([LF] ++ js "  <Card title=" ++ [QUOTE] ++ version ++ [QUOTE]
          ++ js " icon=" ++ [QUOTE] ++ js "rocket" ++ [QUOTE] ++ js " "),
    (js ">" ++ [LF] ++ js "    See what shipped in " ++ version ++ js "."
     ++ [LF] ++ js "  </Card>").
  unfold cardInsertion. cbv zeta. rewrite <- !app_assoc. reflexivity.
Qed.

(** X20: once the card of a version is written to the index page, running
    the update again for that version finds its link and leaves the page as
    it is: no second card is added. *)
Theorem index_update_is_idempotent (version current written : jsstring) :
  updateIndexMdx version current = IndexWritten written ->
  updateIndexMdx version written = IndexUnchanged.
Proof.
  unfold updateIndexMdx at 1.
  destruct (includes current (hrefAttribute version)); [discriminate|].
  destruct (indexOfSub current GROUP_TAG) as [idx|]; [|discriminate].
  intros H. apply IndexWritten_inj in H. subst written. unfold updateIndexMdx.
  destruct (cardInsertion_has_href version) as [a [b ->]].
  match goal with
  | |- context [includes (?x ++ (a ++ ?h ++ b) ++ ?y) _] =>
      replace (x ++ (a ++ h ++ b) ++ y) with ((x ++ a) ++ h ++ (b ++ y))
        by (now rewrite <- !app_assoc)
  end.
  now rewrite includes_app.
Qed.

Lemma index_update_is_idempotent_witness :
  updateIndexMdx (js "v2.0.0")
    (js "# Releases" ++ [LF] ++ GROUP_TAG ++ cardInsertion (js "v2.0.0")
     ++ [LF] ++ js "</CardGroup>")
  = IndexUnchanged.
Proof.
  apply (index_update_is_idempotent (js "v2.0.0")
           (js "# Releases" ++ [LF] ++ GROUP_TAG ++ [LF] ++ js "</CardGroup>")).
  vm_compute. reflexivity.
Defined.

(** X21: the update throws exactly when the page holds neither the link of
    the version nor the card group tag; otherwise, when it writes, the new
    page is the old one with the card put right after the first group tag
    and nothing else changed. *)
Theorem index_update_inserts_after_first_tag (version current : jsstring) :
  (updateIndexMdx version current = IndexError
   <-> includes current (hrefAttribute version) = false
       /\ includes current GROUP_TAG = false)
  /\ (forall written,
         updateIndexMdx version current = IndexWritten written ->
         exists before after,
           current = before ++ GROUP_TAG ++ after
           /\ written = before ++ GROUP_TAG ++ cardInsertion version ++ after
           /\ indexOfSub current GROUP_TAG = Some (List.length before)).
Proof.
  unfold updateIndexMdx. split.
  - destruct (includes current (hrefAttribute version)).
    + split; [discriminate | intros [H _]; discriminate].
    + destruct (indexOfSub current GROUP_TAG) as [idx|] eqn:E.
      * split; [discriminate|]. intros [_ H].
        apply indexOfSub_none in H. congruence.
      * split; [|reflexivity]. intros _. split; [reflexivity|].
        now apply indexOfSub_none.
  - intros written.
    destruct (includes current (hrefAttribute version)); [discriminate|].
    destruct (indexOfSub current GROUP_TAG) as [idx|] eqn:E; [|discriminate].
    intros H. apply IndexWritten_inj in H. subst written.
    pose proof (indexOfSub_found _ _ _ E) as Hs.
    assert (Hlen : (idx <= List.length current)%nat).
    { assert (Lt : List.length GROUP_TAG = 20%nat) by reflexivity.
      apply (f_equal (@List.length N)) in Hs.
      rewrite !length_app, length_firstn in Hs. lia. }
    exists (firstn idx current), (skipn (idx + List.length GROUP_TAG) current).
    split; [exact Hs|]. split.
    + assert (Hf : firstn (idx + List.length GROUP_TAG) current
                   = firstn idx current ++ GROUP_TAG).
      { apply (app_inv_tail (skipn (idx + List.length GROUP_TAG) current)).
        rewrite firstn_skipn, <- app_assoc. exact Hs. }
      rewrite Hf, <- app_assoc. reflexivity.
    + rewrite length_firstn. f_equal. lia.
Qed.

(** ** The navigation *)

Lemma str_eqb_refl (s : jsstring) : str_eqb s s = true.
Proof. now apply str_eqb_eq. Qed.

Lemma addToYear_yearPages (name path : jsstring) (ps : list NavPage) :
  exists sub,
    yearPages name (addToYear name path ps) = Some sub
    /\ hasPage sub path = true
    /\ (sub = PagePath path :: match yearPages name ps with
                               | Some old => old
                               | None => []
                               end
        \/ yearPages name ps = Some sub).
Proof.
  induction ps as [|p ps IH]; cbn [addToYear yearPages].
  - rewrite str_eqb_refl. eexists. split; [reflexivity|].
    split; [cbn; now rewrite str_eqb_refl | now left].
  - destruct p as [s|n sub].
    + cbn [yearPages]. exact IH.
    + destruct (str_eqb n name) eqn:E; cbn [yearPages]; rewrite E;
        [|exact IH].
      destruct (hasPage sub path) eqn:Hh.
      * exists sub. repeat split; auto.
      * eexists. split; [reflexivity|].
        split; [cbn; now rewrite str_eqb_refl | now left].
Qed.

Lemma addToYear_idem (name path : jsstring) (ps : list NavPage) :
  addToYear name path (addToYear name path ps) = addToYear name path ps.
Proof.
  induction ps as [|p ps IH]; cbn [addToYear].
  - rewrite str_eqb_refl. cbn. now rewrite str_eqb_refl.
  - destruct p as [s|n sub]; cbn [addToYear]; [now rewrite IH|].
    destruct (str_eqb n name) eqn:E; cbn [addToYear]; rewrite E;
      [|now rewrite IH].
    destruct (hasPage sub path) eqn:Hh; [now rewrite Hh|].
    cbn [hasPage existsb]. now rewrite str_eqb_refl.
Qed.

Lemma updateGroups_idem (name path : jsstring) (gs gs' : list NavGroup) :
  updateGroups name path gs = Some gs' ->
  updateGroups name path gs' = Some gs'.
Proof.
  revert gs'; induction gs as [|g gs IH]; intros gs'; cbn [updateGroups];
    [discriminate|].
  destruct (str_eqb (group g) RELEASES) eqn:E.
  - intros [= <-]. cbn [updateGroups group pages]. rewrite E.
    now rewrite addToYear_idem.
  - destruct (updateGroups name path gs) as [r|]; [|discriminate].
    intros [= <-]. cbn [updateGroups]. rewrite E, (IH r eq_refl). reflexivity.
Qed.

Lemma updateGroups_none (name path : jsstring) (gs : list NavGroup) :
  updateGroups name path gs = None
  <-> find (fun g => str_eqb (group g) RELEASES) gs = None.
Proof.
  induction gs as [|g gs IH]; cbn [updateGroups find]; [tauto|].
  destruct (str_eqb (group g) RELEASES); [split; discriminate|].
  destruct (updateGroups name path gs); cbn; split; try discriminate;
    intros H; try reflexivity; apply IH in H; auto; discriminate.
Qed.

Lemma updateGroups_pages (name path : jsstring) (gs gs' : list NavGroup) :
  updateGroups name path gs = Some gs' ->
  exists g,
    find (fun g => str_eqb (group g) RELEASES) gs = Some g
    /\ find (fun g => str_eqb (group g) RELEASES) gs'
       = Some (mkNavGroup (group g) (addToYear name path (pages g))).
Proof.
  revert gs'; induction gs as [|g gs IH]; intros gs'; cbn [updateGroups find];
    [discriminate|].
  destruct (str_eqb (group g) RELEASES) eqn:E.
  - intros [= <-]. exists g. split; [reflexivity|].
    cbn [find group]. now rewrite E.
  - destruct (updateGroups name path gs) as [r|]; [|discriminate].
    intros [= <-]. destruct (IH r eq_refl) as [g0 [H1 H2]].
    exists g0. split; [exact H1|]. cbn [find]. now rewrite E.
Qed.

(** X22: the update of the navigation writes nothing exactly when no tab
    has a group named Releases.  When it writes, the year group of the
    first Releases group holds the page of the version afterwards, put in
    front of the pages that were there, or left where it was if it was
    there already; and a second run for the same version changes nothing
    more. *)
Theorem navigation_update_adds_page_once (year version : jsstring)
        (tabs : NavTabs) :
  (updateDocsJson year version tabs = None <-> releasesPages tabs = None)
  /\ (forall tabs',
         updateDocsJson year version tabs = Some tabs' ->
         updateDocsJson year version tabs' = Some tabs'
         /\ exists old new sub,
              releasesPages tabs = Some old
              /\ releasesPages tabs' = Some new
              /\ yearPages (year ++ js " Release Notes") new = Some sub
              /\ hasPage sub (js "release-notes/" ++ version) = true
              /\ (sub = PagePath (js "release-notes/" ++ version)
                        :: match yearPages (year ++ js " Release Notes") old with
                           | Some before => before
                           | None => []
                           end
                  \/ yearPages (year ++ js " Release Notes") old = Some sub)).
Proof.
  unfold updateDocsJson.
  set (name := year ++ js " Release Notes").
  set (path := js "release-notes/" ++ version).
  split.
  - induction tabs as [|gs tabs IH]; cbn [updateTabs releasesPages]; [tauto|].
    destruct (updateGroups name path gs) as [gs'|] eqn:E.
    + destruct (updateGroups_pages _ _ _ _ E) as [g [Hg _]]. rewrite Hg.
      split; discriminate.
    + apply updateGroups_none in E. rewrite E.
      destruct (updateTabs name path tabs); cbn; split; try discriminate;
        intros H; try reflexivity; apply IH in H; auto; discriminate.
  - induction tabs as [|gs tabs IH]; intros tabs';
      cbn [updateTabs releasesPages]; [discriminate|].
    destruct (updateGroups name path gs) as [gs'|] eqn:E.
    + intros [= <-]. split.
      * cbn [updateTabs]. now rewrite (updateGroups_idem _ _ _ _ E).
      * destruct (updateGroups_pages _ _ _ _ E) as [g [Hg Hg']].
        destruct (addToYear_yearPages name path (pages g)) as [sub [Y [Hp Hc]]].
        exists (pages g), (addToYear name path (pages g)), sub.
        cbn [releasesPages]. rewrite Hg, Hg'. cbn [pages]. auto.
    + destruct (updateTabs name path tabs) as [r|]; [|discriminate].
      intros [= <-]. destruct (IH r eq_refl) as [Hi [old [new [sub H]]]].
      pose proof E as En. apply updateGroups_none in En. split.
      * cbn [updateTabs]. now rewrite E, Hi.
      * exists old, new, sub. cbn [releasesPages]. now rewrite En.
Qed.

(** ** Filling [grouped] *)

Lemma pushEntry_none (grouped : Grouped) (key : jsstring) (e : DisplayEntry) :
  pushEntry grouped key e = None <-> ~ In key (List.map fst grouped).
Proof.
  induction grouped as [|[r prs] rest IH]; cbn [pushEntry List.map fst In].
  - tauto.
  - destruct (str_eqb r key) eqn:E.
    + apply str_eqb_eq in E. split; [discriminate | tauto].
    + apply str_eqb_neq in E.
      destruct (pushEntry rest key e); cbn [option_map].
      * split; [discriminate|]. intros H. exfalso.
        assert (H' : ~ In key (List.map fst rest)) by tauto.
        apply IH in H'. discriminate.
      * split; [|reflexivity]. intros _ [H|H]; [contradiction|].
        revert H. now apply IH.
Qed.

Lemma pushEntry_some (grouped grouped' : Grouped) (key : jsstring)
      (e : DisplayEntry) :
  pushEntry grouped key e = Some grouped' ->
  List.map fst grouped' = List.map fst grouped
  /\ forall repo,
       groupOf grouped' repo = groupOf grouped repo ++ landsIn repo (Push key e).
Proof.
  revert grouped'; induction grouped as [|[r prs] rest IH]; intros grouped';
    cbn [pushEntry]; [discriminate|].
  destruct (str_eqb r key) eqn:E.
  - intros [= <-]. split; [reflexivity|]. intros repo.
    apply str_eqb_eq in E. subst r. cbn [groupOf landsIn].
    destruct (str_eqb key repo); [reflexivity | now rewrite app_nil_r].
  - destruct (pushEntry rest key e) as [g|]; [|discriminate].
    intros [= <-]. destruct (IH g eq_refl) as [Hk Hg]. split.
    + cbn [List.map fst]. now rewrite Hk.
    + intros repo. cbn [groupOf]. destruct (str_eqb r repo) eqn:Er.
      * apply str_eqb_eq in Er. subst repo. cbn [landsIn].
        apply str_eqb_neq in E.
        replace (str_eqb key r) with false; [now rewrite app_nil_r|].
        symmetry. apply str_eqb_neq. congruence.
      * apply Hg.
Qed.

Lemma fillGrouped_some (route : SearchItem -> Route) (items : list SearchItem) :
  forall grouped grouped',
    fillGrouped route grouped items = Some grouped' ->
    List.map fst grouped' = List.map fst grouped
    /\ forall repo,
         groupOf grouped' repo
         = groupOf grouped repo
           ++ flat_map (fun item => landsIn repo (route item)) items.
Proof.
  induction items as [|item items IH]; intros grouped grouped';
    cbn [fillGrouped flat_map].
  - intros [= <-]. split; [reflexivity|]. intros repo. now rewrite app_nil_r.
  - destruct (route item) as [| |key e] eqn:R.
    + intros H. destruct (IH _ _ H) as [Hk Hg]. split; [exact Hk|].
      intros repo. now rewrite Hg.
    + discriminate.
    + destruct (pushEntry grouped key e) as [g|] eqn:P; [|discriminate].
      intros H. destruct (IH _ _ H) as [Hk Hg].
      destruct (pushEntry_some _ _ _ _ P) as [Pk Pg]. split; [congruence|].
      intros repo. now rewrite Hg, Pg, <- app_assoc.
Qed.

Lemma fillGrouped_none (route : SearchItem -> Route) (items : list SearchItem) :
  forall grouped,
    List.map fst grouped = REPOS ->
    (fillGrouped route grouped items = None
     <-> exists item, In item items /\ throws (route item)).
Proof.
  induction items as [|item items IH]; intros grouped Hk; cbn [fillGrouped].
  - split; [discriminate | intros [item [[] _]]].
  - destruct (route item) as [| |key e] eqn:R.
    + rewrite (IH grouped Hk). split.
      * intros [it [Hin Ht]]. exists it. split; [now right | exact Ht].
      * intros [it [[<-|Hin] Ht]]; [|eauto].
        rewrite R in Ht. destruct Ht as [Ht|[k [e [Ht _]]]]; discriminate.
    + split; [|reflexivity]. intros _. exists item.
      split; [now left|]. rewrite R. now left.
    + destruct (pushEntry grouped key e) as [g|] eqn:P.
      * destruct (pushEntry_some _ _ _ _ P) as [Pk _].
        assert (Hin : In key REPOS).
        { rewrite <- Hk. destruct (in_dec str_dec key (List.map fst grouped))
            as [H|H]; [exact H|].
          apply (pushEntry_none grouped key e) in H. congruence. }
        rewrite (IH g) by congruence. split.
        -- intros [it [Hi Ht]]. exists it. split; [now right | exact Ht].
        -- intros [it [[<-|Hi] Ht]]; [|eauto].
           rewrite R in Ht. destruct Ht as [Ht|[k [e' [Ht Hn]]]];
             [discriminate|]. injection Ht as <- <-. contradiction.
      * split; [|reflexivity]. intros _. exists item. split; [now left|].
        rewrite R. right. exists key, e. split; [reflexivity|].
        apply pushEntry_none in P. now rewrite Hk in P.
Qed.

Lemma emptyGrouped_keys : List.map fst emptyGrouped = REPOS.
Proof. reflexivity. Qed.

Lemma emptyGrouped_empty (repo : jsstring) : groupOf emptyGrouped repo = [].
Proof.
  unfold emptyGrouped, REPOS. cbn [List.map groupOf].
  repeat match goal with
         | |- context [str_eqb ?a repo] => destruct (str_eqb a repo)
         end; reflexivity.
Qed.

(** X23: the loop of generate-release-notes.mjs throws exactly when the
    request for some pull request of the organisation fails, or when such a
    pull request, merged and not excluded, belongs to a repository outside
    the configured four (there is no such key in [grouped]).  When it does
    not throw, the keys are still the configured repositories and each
    group holds the entries of its repository in the order of the search
    results. *)
Theorem main_loop_fills_or_throws (ghJson : jsstring -> option PullRequest)
        (items : list SearchItem) :
  (fillGrouped (routeItem ghJson) emptyGrouped items = None
   <-> exists item, In item items /\ throws (routeItem ghJson item))
  /\ (forall grouped,
         fillGrouped (routeItem ghJson) emptyGrouped items = Some grouped ->
         List.map fst grouped = REPOS
         /\ forall repo,
              groupOf grouped repo
              = flat_map (fun item => landsIn repo (routeItem ghJson item))
                  items).
Proof.
  split.
  - apply fillGrouped_none, emptyGrouped_keys.
  - intros grouped H. apply fillGrouped_some in H as [Hk Hg].
    split; [exact Hk|]. intros repo. now rewrite Hg, emptyGrouped_empty.
Qed.

Lemma isRepo_In (repo : option jsstring) :
  isRepo repo = true -> In (textOf repo) REPOS.
Proof.
  destruct repo as [r|]; [|discriminate]. cbn [isRepo textOf]. intros H.
  apply existsb_exists in H as [x [Hx E]]. apply str_eqb_eq in E. now subst.
Qed.

Lemma backfillRouteItem_safe (ghJson : jsstring -> option PullRequest)
      (item : SearchItem) :
  ~ throws (backfillRouteItem ghJson item).
Proof.
  unfold backfillRouteItem, throws.
  destruct (fullRepoOf item) as [fullRepo|];
    [|intros [H|[k [e [H _]]]]; discriminate].
  destruct (is_empty fullRepo); [intros [H|[k [e [H _]]]]; discriminate|].
  cbv zeta.
  destruct (negb (str_eqb (hd [] (split (chr "/") fullRepo)) ORG)); cbn [orb];
    [intros [H|[k [e [H _]]]]; discriminate|].
  destruct (isRepo (nth_error (split (chr "/") fullRepo) 1)) eqn:Er;
    cbn [negb]; [|intros [H|[k [e [H _]]]]; discriminate].
  destruct (ghJson _) as [pr|]; [|intros [H|[k [e [H _]]]]; discriminate].
  destruct (Backfill.buildDisplayEntry pr) as [e0|];
    [|intros [H|[k [e [H _]]]]; discriminate].
  intros [H|[k [e [H Hn]]]]; [discriminate|].
  injection H as <- <-. apply Hn. now apply isRepo_In.
Qed.

(** X24: the loops of backfill-releases.mjs never throw while filling
    [grouped]: a pull request outside the configured repositories or one
    whose request fails is skipped, and each group holds the entries of its
    repository in the order of the search results. *)
Theorem backfill_loop_always_fills (ghJson : jsstring -> option PullRequest)
        (items : list SearchItem) :
  exists grouped,
    fillGrouped (backfillRouteItem ghJson) emptyGrouped items = Some grouped
    /\ List.map fst grouped = REPOS
    /\ forall repo,
         groupOf grouped repo
         = flat_map (fun item => landsIn repo (backfillRouteItem ghJson item))
             items.
Proof.
  destruct (fillGrouped (backfillRouteItem ghJson) emptyGrouped items)
    as [grouped|] eqn:E.
  - exists grouped. split; [reflexivity|].
    apply fillGrouped_some in E as [Hk Hg]. split; [exact Hk|].
    intros repo. now rewrite Hg, emptyGrouped_empty.
  - apply (fillGrouped_none _ _ _ emptyGrouped_keys) in E as [item [_ Ht]].
    now apply backfillRouteItem_safe in Ht.
Qed.

(** What a push of the loop of generate-release-notes.mjs comes from. *)
Lemma routeItem_push (ghJson : jsstring -> option PullRequest)
      (item : SearchItem) (key : jsstring) (e : DisplayEntry) :
  routeItem ghJson item = Push key e ->
  exists fullRepo pr,
    fullRepoOf item = Some fullRepo
    /\ hd [] (split (chr "/") fullRepo) = ORG
    /\ key = textOf (nth_error (split (chr "/") fullRepo) 1)
    /\ ghJson (pullUrl (nth_error (split (chr "/") fullRepo) 1)
                 (item_number item)) = Some pr
    /\ buildDisplayEntry pr = Some e.
Proof.
  unfold routeItem.
  destruct (fullRepoOf item) as [fullRepo|]; [|discriminate].
  destruct (is_empty fullRepo); [discriminate|]. cbv zeta.
  destruct (str_eqb (hd [] (split (chr "/") fullRepo)) ORG) eqn:O;
    [|discriminate].
  cbn [negb]. apply str_eqb_eq in O.
  destruct (ghJson _) as [pr|] eqn:G; [|discriminate].
  destruct (buildDisplayEntry pr) as [e0|] eqn:B; [|discriminate].
  intros [= <- <-]. exists fullRepo, pr. now repeat split.
Qed.

Lemma buildDisplayEntry_eligible (pr : PullRequest) (e : DisplayEntry) :
  buildDisplayEntry pr = Some e ->
  exists merged,
    pr_merged_at pr = Some merged /\ merged <> []
    /\ shouldExcludePRTitle (pr_title pr) = false.
Proof.
  unfold buildDisplayEntry.
  destruct (pr_merged_at pr) as [merged|]; [|discriminate].
  destruct merged as [|c m]; [discriminate|]. cbn [is_empty].
  destruct (shouldExcludePRTitle (pr_title pr)); [discriminate|].
  intros _. exists (c :: m). repeat split; auto. discriminate.
Qed.

Lemma textOf_repo (repo : option jsstring) (key : jsstring) :
  textOf repo = key -> In key REPOS -> repo = Some key.
Proof.
  destruct repo as [r|]; cbn [textOf]; [now intros ->|].
  intros <- H. exfalso. unfold REPOS in H. cbn [List.map In] in H.
  repeat (destruct H as [H|H]; [discriminate H|]). contradiction.
Qed.

(** X25: every entry that the loop of generate-release-notes.mjs puts in
    [grouped] comes from an item of the search results: the item names the
    organisation and a configured repository, the entry stands in the group
    of that repository, and it was built from the record that the API
    returned for the pull request of that repository with the number of the
    item, a record with a merge date and a title that is not excluded. *)
Theorem grouped_entries_are_eligible (ghJson : jsstring -> option PullRequest)
        (items : list SearchItem) (grouped : Grouped) (repo : jsstring)
        (e : DisplayEntry) :
  fillGrouped (routeItem ghJson) emptyGrouped items = Some grouped ->
  In e (groupOf grouped repo) ->
  exists item fullRepo pr merged,
    In item items
    /\ fullRepoOf item = Some fullRepo
    /\ hd [] (split (chr "/") fullRepo) = ORG
    /\ nth_error (split (chr "/") fullRepo) 1 = Some repo
    /\ In repo REPOS
    /\ ghJson (pullUrl (Some repo) (item_number item)) = Some pr
    /\ buildDisplayEntry pr = Some e
    /\ pr_merged_at pr = Some merged /\ merged <> []
    /\ shouldExcludePRTitle (pr_title pr) = false.
Proof.
  intros H Hin.
  assert (Hsafe : forall item, In item items -> ~ throws (routeItem ghJson item)).
  { intros item Hi Ht.
    assert (N : fillGrouped (routeItem ghJson) emptyGrouped items = None).
    { apply (fillGrouped_none _ _ _ emptyGrouped_keys). eauto. }
    congruence. }
  apply fillGrouped_some in H as [_ Hg].
  rewrite Hg, emptyGrouped_empty in Hin. cbn [app] in Hin.
  apply in_flat_map in Hin as [item [Hi Hl]].
  destruct (routeItem ghJson item) as [| |key e0] eqn:R; cbn [landsIn] in Hl;
    try contradiction.
  destruct (str_eqb key repo) eqn:K; [|contradiction].
  apply str_eqb_eq in K. subst key. destruct Hl as [<-|[]].
  assert (Hr : In repo REPOS).
  { destruct (in_dec str_dec repo REPOS) as [Hr|Hr]; [exact Hr|].
    exfalso. apply (Hsafe item Hi). rewrite R. right. eauto. }
  apply routeItem_push in R as [fullRepo [pr [HF [HO [HK [HG HB]]]]]].
  symmetry in HK. apply textOf_repo in HK; [|exact Hr]. rewrite HK in HG.
  destruct (buildDisplayEntry_eligible pr e0 HB) as [merged [HM [HN HX]]].
  exists item, fullRepo, pr, merged. now repeat split.
Qed.

Lemma grouped_entries_are_eligible_witness :
  exists item fullRepo pr merged,
    In item [sampleItem]
    /\ fullRepoOf item = Some fullRepo
    /\ hd [] (split (chr "/") fullRepo) = ORG
    /\ nth_error (split (chr "/") fullRepo) 1 = Some (js "revive-api")
    /\ In (js "revive-api") REPOS
    /\ sampleApi (pullUrl (Some (js "revive-api")) (item_number item)) = Some pr
    /\ buildDisplayEntry pr = Some sampleEntry
    /\ pr_merged_at pr = Some merged /\ merged <> []
    /\ shouldExcludePRTitle (pr_title pr) = false.
Proof.
  eapply (grouped_entries_are_eligible sampleApi [sampleItem] _
            (js "revive-api") sampleEntry).
  - vm_compute. reflexivity.
  - vm_compute. left. reflexivity.
Defined.
